(** * john-api: the order lifecycle and payment-confirmation pipeline

    A shallow embedding of the order model ([models/Order.js]), of
    [UserService.createOrder] ([services/userService.js]), of the customer
    facing [ShoppingController] and of the administrative [OrderController],
    followed by the properties of the order lifecycle that the specification
    states about them.

    The Cosmos DB container, the Stripe client and the clock are the
    environment of the handlers: the container is a list of documents with
    a schedule of injected failures, Stripe and the clock are fields of a
    request environment. *)

From Stdlib Require Import String Ascii List ZArith QArith Qround Bool Lia.
From Stdlib Require Import Orders Sorting.Mergesort Sorting.Sorted Sorting.Permutation.
Import ListNotations.
Open Scope string_scope.

(** ** JavaScript values as far as the handlers look at them *)

Module Js.

(** [!!s] for a string: only the empty string is falsy. *)
Definition truthy (s : string) : bool :=
  match s with EmptyString => false | String _ _ => true end.

(** [!!v] for a property that may be [undefined]. *)
Definition truthy_opt (v : option string) : bool :=
  match v with Some s => truthy s | None => false end.

(** [a || b] on strings. *)
Definition or_else (a : option string) (b : string) : string :=
  match a with
  | Some s => if truthy s then s else b
  | None => b
  end.

(** [a || b] on a property whose falsy value is only [undefined]
    (arrays and objects are always truthy). *)
Definition or_default {A : Type} (a : option A) (b : A) : A :=
  match a with Some x => x | None => b end.

(** [xs.join(sep)]. *)
Fixpoint join (sep : string) (xs : list string) : string :=
  match xs with
  | [] => ""
  | [x] => x
  | x :: rest => x ++ sep ++ join sep rest
  end.

(** [xs.includes(v)] on an array of strings; a value that is not a string
    ([None]) is in no such array. *)
Definition includes (xs : list string) (v : option string) : bool :=
  match v with
  | Some s => existsb (String.eqb s) xs
  | None => false
  end.

(** The result of [parseInt]. *)
Inductive int := NaN | Int (z : Z).

Definition int_sub (a b : int) : int :=
  match a, b with Int x, Int y => Int (x - y) | _, _ => NaN end.

Definition int_mul (a b : int) : int :=
  match a, b with Int x, Int y => Int (x * y) | _, _ => NaN end.

(** White space as [String.prototype.trim] removes it (the ASCII part). *)
Definition is_space (c : ascii) : bool :=
  let n := nat_of_ascii c in
  (n =? 32)%nat || ((9 <=? n)%nat && (n <=? 13)%nat).

(** [!!s.trim()]: some character of [s] is not white space. *)
Fixpoint trim_truthy (s : string) : bool :=
  match s with
  | EmptyString => false
  | String c rest => negb (is_space c) || trim_truthy rest
  end.

Definition lower (c : ascii) : ascii :=
  let n := nat_of_ascii c in
  if ((65 <=? n)%nat && (n <=? 90)%nat)%bool then ascii_of_nat (n + 32) else c.

Fixpoint lower_string (s : string) : string :=
  match s with
  | EmptyString => EmptyString
  | String c rest => String (lower c) (lower_string rest)
  end.

Fixpoint contains (needle hay : string) : bool :=
  String.prefix needle hay ||
  match hay with
  | EmptyString => false
  | String _ rest => contains needle rest
  end.

(** An [Error] object: its [name], its [message] and the numeric [code]
    the Cosmos client attaches to a failed request. *)
Record error := mkError {
  err_name : string;
  err_message : string;
  err_code : option nat
}.

(** [new Error(message)]. *)
Definition Error (message : string) : error := mkError "Error" message None.

End Js.

(** ** Line items and addresses of a cart *)

Record Item := {
  item_name : string;
  item_description : option string;
  item_price : Q;
  item_quantity : Z;
  item_images : option (list string)
}.

Record Address := {
  street : option string;
  city : option string;
  postalCode : option string;
  country : option string
}.

(** The object [{}]. *)
Definition empty_address : Address :=
  {| street := None; city := None; postalCode := None; country := None |}.

(** ** The request environment: clock, random source and payment gateway *)

Record LineItem := {
  li_currency : string;
  li_unit_amount : Z;
  li_name : string;
  li_description : string;
  li_images : list string;
  li_quantity : Z
}.

Record SessionParams := {
  sp_mode : string;
  sp_payment_method_types : list string;
  sp_line_items : list LineItem;
  sp_customer_email : option string;
  sp_success_url : string;
  sp_cancel_url : string;
  sp_client_reference_id : string;
  sp_order_ref : string;
  sp_address : Address
}.

(** What [stripe.checkout.sessions.create] resolves or rejects with. *)
Inductive SessionReply :=
| SessionCreated (id url : string)
| SessionRejected (e : Js.error).

(** A verified Stripe event: its [type] and the [client_reference_id] of
    [event.data.object]. *)
Record StripeEvent := {
  ev_type : string;
  ev_client_reference_id : option string
}.

Record Env := {
  (** [new Date().toISOString()] without its final ["Z"] *)
  clock_utc : string;
  (** the decimal digits of [Date.now()] *)
  date_now : string;
  (** [Math.random().toString(36).substr(2, 9)] *)
  random36 : string;
  client_success_url : string;
  client_cancel_url : string;
  sessions_create : SessionParams -> SessionReply;
  (** [stripe.webhooks.constructEvent(body, sig, secret)]: the event, or the
      message of the error it throws *)
  constructEvent : string -> option string -> string + StripeEvent;
  (** [containers.users.item(id, email).read()] followed by
      [User.fromDocument(doc).toPublicProfile()]: the error it throws, or the
      public profile of the user when there is one *)
  users_profile : option string -> string -> Js.error + option string
}.

Definition toISOString (env : Env) : string := clock_utc env ++ "Z".

(** ** [models/Order.js] *)

Module Order.

(** An [Order] object; [toDocument] writes the same eleven properties, so
    the stored documents have this type too.  [userId] has no default in
    the constructor and may be [undefined]; [stripeSessionId] is [null]
    ([None]) until a checkout session is attached. *)
Record t := mk {
  id : string;
  userId : option string;
  items : list Item;
  address : Address;
  status : string;
  total : Q;
  stripeSessionId : option string;
  customerEmail : string;
  metadata : list (string * string);
  createdAt : string;
  updatedAt : string
}.

(** The argument of the constructor: any property may be missing.  A value
    of [items] that is not an array is [None] as well: such a value and the
    default [[]] fail the same check of [validate], and nothing else reads
    it. *)
Record data := mkData {
  d_id : option string;
  d_userId : option string;
  d_items : option (list Item);
  d_address : option Address;
  d_status : option string;
  d_total : option Q;
  d_stripeSessionId : option string;
  d_customerEmail : option string;
  d_metadata : option (list (string * string));
  d_createdAt : option string;
  d_updatedAt : option string
}.

Definition generateId (env : Env) : string :=
  "order_" ++ date_now env ++ "_" ++ random36 env.

(** [new Order(data)]. *)
Definition new (env : Env) (d : data) : t :=
  {| id := Js.or_else (d_id d) (generateId env);
     userId := d_userId d;
     items := Js.or_default (d_items d) [];
     address := Js.or_default (d_address d) empty_address;
     status := Js.or_else (d_status d) "pending";
     total := Js.or_default (d_total d) 0%Q;
     stripeSessionId :=
       match d_stripeSessionId d with
       | Some s => if Js.truthy s then Some s else None
       | None => None
       end;
     customerEmail := Js.or_else (d_customerEmail d) "";
     metadata := Js.or_default (d_metadata d) [];
     createdAt := Js.or_else (d_createdAt d) (toISOString env);
     updatedAt := Js.or_else (d_updatedAt d) (toISOString env) |}.

Definition address_ok (a : Address) : bool :=
  Js.truthy_opt (street a) && Js.truthy_opt (city a) && Js.truthy_opt (country a).

Definition items_ok (o : t) : bool :=
  match items o with [] => false | _ :: _ => true end.

Definition validate (o : t) : list string :=
  (if Js.truthy_opt (userId o) then [] else ["User ID is required"]) ++
  (if items_ok o then [] else ["At least one item is required"]) ++
  (if address_ok (address o) then [] else ["Valid address is required"]) ++
  (if Js.truthy (customerEmail o) then [] else ["Customer email is required"]).

Definition toDocument (o : t) : t :=
  {| id := id o; userId := userId o; items := items o; address := address o;
     status := status o; total := total o;
     stripeSessionId := stripeSessionId o;
     customerEmail := customerEmail o; metadata := metadata o;
     createdAt := createdAt o; updatedAt := updatedAt o |}.

Definition fromDocument (env : Env) (doc : t) : t :=
  new env
    {| d_id := Some (id doc); d_userId := userId doc;
       d_items := Some (items doc); d_address := Some (address doc);
       d_status := Some (status doc); d_total := Some (total doc);
       d_stripeSessionId := stripeSessionId doc;
       d_customerEmail := Some (customerEmail doc);
       d_metadata := Some (metadata doc);
       d_createdAt := Some (createdAt doc);
       d_updatedAt := Some (updatedAt doc) |}.

(** [{ ...doc, status: s, updatedAt: u }], the assignment pair of both
    status-writing handlers. *)
Definition with_status (doc : t) (s u : string) : t :=
  {| id := id doc; userId := userId doc; items := items doc;
     address := address doc; status := s; total := total doc;
     stripeSessionId := stripeSessionId doc;
     customerEmail := customerEmail doc; metadata := metadata doc;
     createdAt := createdAt doc; updatedAt := u |}.

(** [{ ...order.toDocument(), stripeSessionId: sid, updatedAt: u }]. *)
Definition with_session (doc : t) (sid u : string) : t :=
  {| id := id doc; userId := userId doc; items := items doc;
     address := address doc; status := status doc; total := total doc;
     stripeSessionId := Some sid;
     customerEmail := customerEmail doc; metadata := metadata doc;
     createdAt := createdAt doc; updatedAt := u |}.

(** [c.metadata.order_ref] of a document. *)
Fixpoint lookup (k : string) (m : list (string * string)) : option string :=
  match m with
  | [] => None
  | (k', v) :: rest => if String.eqb k k' then Some v else lookup k rest
  end.

End Order.

(** ** The world of a request: container, failure schedule, console *)

Record World := {
  (** the documents of [containers.orders], in the order a cross-partition
      scan returns them *)
  orders : list Order.t;
  (** one entry per awaited container call still to come: [Some e] makes
      that call reject with [e]; an exhausted schedule means no failure *)
  faults : list (option Js.error);
  (** the lines written by [console.log] and [console.error], newest first *)
  console : list string
}.

Inductive Result (A : Type) :=
| Ok (a : A)
| Throw (e : Js.error).
Arguments Ok {A} a.
Arguments Throw {A} e.

(** An [async] computation: it reads and writes the world and either
    resolves or rejects. *)
Definition M (A : Type) : Type := World -> Result A * World.

Definition ret {A} (a : A) : M A := fun w => (Ok a, w).

Definition throw {A} (e : Js.error) : M A := fun w => (Throw e, w).

Definition bind {A B} (m : M A) (k : A -> M B) : M B :=
  fun w =>
    match m w with
    | (Ok a, w') => k a w'
    | (Throw e, w') => (Throw e, w')
    end.

(** [try { m } catch (error) { h error }]. *)
Definition try_catch {A} (m : M A) (h : Js.error -> M A) : M A :=
  fun w =>
    match m w with
    | (Ok a, w') => (Ok a, w')
    | (Throw e, w') => h e w'
    end.

Definition log (line : string) : M unit :=
  fun w =>
    (Ok tt, {| orders := orders w; faults := faults w;
               console := line :: console w |}).

Declare Scope async_scope.
Delimit Scope async_scope with async.
Notation "x <- m ;; k" := (bind m (fun x => k))
  (at level 61, m at next level, right associativity) : async_scope.
Notation "m ;;; k" := (bind m (fun _ => k))
  (at level 61, right associativity) : async_scope.

Open Scope async_scope.

(** ** The [orders] container ([config/cosmos.js], partition key [userId]) *)

(** Documents by [createdAt], latest first: the [ORDER BY c.createdAt DESC]
    of both listings, on the ISO strings as Cosmos compares them. *)
Module CreatedAtDesc <: TotalLeBool'.
Definition t := Order.t.
Definition leb (a b : t) : bool :=
  String.leb (Order.createdAt b) (Order.createdAt a).
Infix "<=?" := leb (at level 70, no associativity).
Lemma leb_total : forall a b, leb a b = true \/ leb b a = true.
Proof. intros a b. unfold leb. apply String.leb_total. Qed.
End CreatedAtDesc.

Module ByCreatedAt := Sort CreatedAtDesc.

Module Cosmos.

Definition key_eqb (a b : option string) : bool :=
  match a, b with
  | Some x, Some y => String.eqb x y
  | None, None => true
  | _, _ => false
  end.

(** The document addressed by [item(id, partitionKey)]. *)
Definition is_item (i : string) (pk : option string) (d : Order.t) : bool :=
  String.eqb (Order.id d) i && key_eqb (Order.userId d) pk.

Definition conflict : Js.error :=
  Js.mkError "Error" "Entity with the specified id already exists in the system." (Some 409%nat).

Definition not_found : Js.error :=
  Js.mkError "Error" "Entity with the specified id does not exist in the system." (Some 404%nat).

Definition bad_request : Js.error :=
  Js.mkError "Error" "One of the input values is invalid." (Some 400%nat).

(** Every awaited call on the container starts here: the next entry of the
    failure schedule decides whether the request reaches the container. *)
Definition request : M unit :=
  fun w =>
    match faults w with
    | Some e :: fs =>
        (Throw e, {| orders := orders w; faults := fs; console := console w |})
    | None :: fs =>
        (Ok tt, {| orders := orders w; faults := fs; console := console w |})
    | [] => (Ok tt, w)
    end.

Definition get_orders : M (list Order.t) := fun w => (Ok (orders w), w).

Definition put_orders (ds : list Order.t) : M unit :=
  fun w => (Ok tt, {| orders := ds; faults := faults w; console := console w |}).

(** Modelled from the spec: [config/cosmos.js] is missing; [items.create]
    follows the store contract [create(order)], which fails with a conflict
    when the id already exists (in the partition of the document) and
    resolves to the stored document otherwise. *)
Definition create (doc : Order.t) : M Order.t :=
  request ;;;
  ds <- get_orders ;;
  if existsb (is_item (Order.id doc) (Order.userId doc)) ds
  then throw conflict
  else put_orders (ds ++ [doc]) ;;; ret doc.

(** Modelled from the spec: [item(id, pk).read()] follows
    [getByOwnerAndId]: a point lookup whose resource is absent when no
    document has that id under that partition key. *)
Definition read (i : string) (pk : option string) : M (option Order.t) :=
  request ;;;
  ds <- get_orders ;;
  ret (find (is_item i pk) ds).

Fixpoint replace_item (i : string) (pk : option string) (doc : Order.t)
    (ds : list Order.t) : option (list Order.t) :=
  match ds with
  | [] => None
  | d :: rest =>
      if is_item i pk d then Some (doc :: rest)
      else option_map (cons d) (replace_item i pk doc rest)
  end.

(** Modelled from the spec: [item(id, pk).replace(doc)] follows
    [replace(ownerId, id, order)]: last write wins, and it fails with a
    not-found error when no document matches at that partition key. *)
Definition replace (i : string) (pk : option string) (doc : Order.t) : M Order.t :=
  request ;;;
  ds <- get_orders ;;
  match replace_item i pk doc ds with
  | Some ds' => put_orders ds' ;;; ret doc
  | None => throw not_found
  end.

(** Modelled from the spec: the query [SELECT * FROM c WHERE c.id = @id]
    follows [getById], a scan across all partitions. *)
Definition query_by_id (i : string) : M (list Order.t) :=
  request ;;;
  ds <- get_orders ;;
  ret (filter (fun d => String.eqb (Order.id d) i) ds).

(** Modelled from the spec: a listing query follows [query(filter,
    pagination)]: the documents that pass the filter, by creation time
    descending, from [offset] on and at most [limit] of them.  Cosmos
    rejects an offset or a limit that is not a non-negative integer. *)
Definition query_page (keep : Order.t -> bool) (offset limit : Js.int)
    : M (list Order.t) :=
  request ;;;
  ds <- get_orders ;;
  match offset, limit with
  | Js.Int o, Js.Int l =>
      if ((0 <=? o) && (0 <=? l))%Z
      then ret (firstn (Z.to_nat l)
                  (skipn (Z.to_nat o) (ByCreatedAt.sort (filter keep ds))))
      else throw bad_request
  | _, _ => throw bad_request
  end.

End Cosmos.

(** ** [services/userService.js] *)

Module UserService.

Definition createOrder (env : Env) (orderData : Order.data) : M Order.t :=
  try_catch
    (let order := Order.new env orderData in
     let validationErrors := Order.validate order in
     if (0 <? length validationErrors)%nat
     then throw (Js.Error ("Order validation failed: "
                           ++ Js.join ", " validationErrors))
     else
       resource <- Cosmos.create (Order.toDocument order) ;;
       ret (Order.fromDocument env resource))
    (fun error =>
       log ("Error creating order: " ++ Js.err_message error) ;;;
       throw error).

End UserService.

(** ** What a handler does with [res] and [next] *)

Inductive Body :=
| Failure (error : string)                 (* { success: false, error } *)
| PlainError (error : string)              (* { error } *)
| Text (s : string)                        (* res.send(s) *)
| OrderBody (order : Order.t)              (* { success: true, order } *)
| AdminOrderBody (order : Order.t) (user : option string)
| OrdersBody (orders : list Order.t) (page limit : Js.int)
             (total : nat) (totalPages : option Z)
| UrlBody (url : string)                   (* { url } *)
| Received.                                (* { received: true } *)

Inductive Outcome :=
| Respond (code : nat) (body : Body)
| Next (e : Js.error).

(** [try { body } catch (error) { next(error) }]. *)
Definition or_next (body : M Outcome) : M Outcome :=
  try_catch body (fun error => ret (Next error)).

(** The query string of both listings after [parseInt]: [page] and [limit]
    hold what [parseInt] makes of the parameter when it is present. *)
Record ListQuery := {
  q_page : option Js.int;
  q_limit : option Js.int;
  q_status : option string;
  q_search : option string
}.

(** [CONTAINS(field, @search, true)]: case-insensitive, and not satisfied
    by an undefined field. *)
Definition CONTAINS (field : option string) (search : string) : bool :=
  match field with
  | Some s => Js.contains (Js.lower_string search) (Js.lower_string s)
  | None => false
  end.

(** [Math.ceil(total / limit)] as it is serialised: [null] when it is not a
    finite number. *)
Definition totalPages_of (total : nat) (limit : Js.int) : option Z :=
  match limit with
  | Js.Int l => if (l =? 0)%Z then None
                else Some (- ((- Z.of_nat total) / l))%Z
  | Js.NaN => None
  end.

(** ** [controllers/users/shoppingController.js] *)

Module ShoppingController.

Definition show (v : option string) : string := Js.or_default v "undefined".

(** The [WHERE] clause of [getOrders]. *)
Definition matches (userId : string) (q : ListQuery) (c : Order.t) : bool :=
  Cosmos.key_eqb (Order.userId c) (Some userId)
  && (if Js.truthy_opt (q_status q)
      then String.eqb (Order.status c) (Js.or_default (q_status q) "")
      else true)
  && (if Js.truthy_opt (q_search q)
      then CONTAINS (Order.lookup "order_ref" (Order.metadata c))
                    (Js.or_default (q_search q) "")
      else true).

Definition getOrders (env : Env) (userId : string) (q : ListQuery) : M Outcome :=
  or_next
    (let page := Js.or_default (q_page q) (Js.Int 1) in
     let limit := Js.or_default (q_limit q) (Js.Int 20) in
     let offset := Js.int_mul (Js.int_sub page (Js.Int 1)) limit in
     resources <- Cosmos.query_page (matches userId q) offset limit ;;
     ret (Respond 200
            (OrdersBody (map (Order.fromDocument env) resources) page limit
               (length resources) (totalPages_of (length resources) limit)))).

Definition getOrderById (env : Env) (userId orderId : string) : M Outcome :=
  or_next
    (resource <- Cosmos.read orderId (Some userId) ;;
     match resource with
     | None => ret (Respond 404 (Failure "Order not found"))
     | Some doc => ret (Respond 200 (OrderBody (Order.fromDocument env doc)))
     end).

(** The body of a checkout request; [cartItems] is [None] when it is
    missing or not an array. *)
Record CheckoutBody := {
  cartItems : option (list Item);
  customerEmail : option string;
  address : option Address;
  total : option Q;
  metadata : option (list (string * string))
}.

Definition line_item (item : Item) : LineItem :=
  {| li_currency := "gbp";
     li_unit_amount := Qfloor (item_price item * 100 + (1 # 2))%Q;
     li_name := item_name item;
     li_description :=
       match item_description item with
       | Some d => if Js.truthy d && Js.trim_truthy d then d
                   else "No description provided"
       | None => "No description provided"
       end;
     li_images := Js.or_default (item_images item) [];
     li_quantity := item_quantity item |}.

Definition session_params (env : Env) (b : CheckoutBody) (items : list Item)
    (addr : Address) (order : Order.t) : SessionParams :=
  {| sp_mode := "payment";
     sp_payment_method_types := ["card"];
     sp_line_items := map line_item items;
     sp_customer_email := customerEmail b;
     sp_success_url := client_success_url env ++ "?session_id={CHECKOUT_SESSION_ID}";
     sp_cancel_url := client_cancel_url env;
     sp_client_reference_id := Order.id order;
     sp_order_ref := "ORD-" ++ date_now env;
     sp_address := addr |}.

(** [await stripe.checkout.sessions.create(params)]. *)
Definition create_session (env : Env) (p : SessionParams) : M (string * string) :=
  match sessions_create env p with
  | SessionCreated sid url => ret (sid, url)
  | SessionRejected e => throw e
  end.

Definition order_data (userId : string) (b : CheckoutBody) (items : list Item)
    (addr : Address) : Order.data :=
  {| Order.d_id := None;
     Order.d_userId := Some userId;
     Order.d_items := Some items;
     Order.d_address := Some addr;
     Order.d_status := Some "pending";
     Order.d_total := total b;
     Order.d_stripeSessionId := None;
     Order.d_customerEmail := customerEmail b;
     Order.d_metadata := metadata b;
     Order.d_createdAt := None;
     Order.d_updatedAt := None |}.

Definition createCheckoutSession (env : Env) (userId : string)
    (b : CheckoutBody) : M Outcome :=
  try_catch
    (match cartItems b with
     | None | Some [] => ret (Respond 400 (Failure "Cart items are required"))
     | Some items =>
         match address b with
         | None => ret (Respond 400 (Failure "Address is required"))
         | Some addr =>
             (* 1. the pending order, no stripeSessionId yet *)
             order <- UserService.createOrder env (order_data userId b items addr) ;;
             (* 2. the checkout session, order.id as client_reference_id *)
             session <- create_session env (session_params env b items addr order) ;;
             (* 3. the session id on the stored order *)
             let updatedOrderDoc :=
               Order.with_session (Order.toDocument order) (fst session)
                                  (toISOString env) in
             Cosmos.replace (Order.id order) (Some userId) updatedOrderDoc ;;;
             (* 4. the checkout URL *)
             ret (Respond 200 (UrlBody (snd session)))
         end
     end)
    (fun error =>
       log ("Checkout Error: " ++ Js.err_message error) ;;;
       ret (Respond 500 (PlainError "Internal Server Error"))).

(** The [try] block of the webhook handler for a truthy [orderId]. *)
Definition confirm_order (env : Env) (orderId : string) : M unit :=
  try_catch
    (resources <- Cosmos.query_by_id orderId ;;
     match resources with
     | orderDoc :: _ =>
         let orderDoc' := Order.with_status orderDoc "confirmed" (toISOString env) in
         Cosmos.replace orderId (Order.userId orderDoc') orderDoc' ;;;
         log ("Order marked as confirmed: " ++ orderId)
     | [] => log ("Order not found: " ++ orderId)
     end)
    (fun error => log ("Error updating order status: " ++ Js.err_message error)).

Definition handleStripeWebhook (env : Env) (body : string)
    (sig : option string) : M Outcome :=
  match constructEvent env body sig with
  | inl message =>
      log ("Webhook signature verification failed: " ++ message) ;;;
      ret (Respond 400 (Text ("Webhook Error: " ++ message)))
  | inr event =>
      (if String.eqb (ev_type event) "checkout.session.completed"
       then
         let orderId := ev_client_reference_id event in
         log ("Processing checkout.session.completed for order: " ++ show orderId) ;;;
         if Js.truthy_opt orderId
         then confirm_order env (Js.or_default orderId "")
         else ret tt
       else ret tt) ;;;
      ret (Respond 200 Received)
  end.

End ShoppingController.

(** ** [controllers/admin/orderController.js] *)

Module OrderController.

(** The [WHERE] clause of [getAllOrders]. *)
Definition matches (q : ListQuery) (c : Order.t) : bool :=
  (if Js.truthy_opt (q_status q)
   then String.eqb (Order.status c) (Js.or_default (q_status q) "")
   else true)
  && (if Js.truthy_opt (q_search q)
      then CONTAINS (Some (Order.customerEmail c)) (Js.or_default (q_search q) "")
           || CONTAINS (Order.lookup "order_ref" (Order.metadata c))
                       (Js.or_default (q_search q) "")
      else true).

Definition getAllOrders (env : Env) (q : ListQuery) : M Outcome :=
  or_next
    (let page := Js.or_default (q_page q) (Js.Int 1) in
     let limit := Js.or_default (q_limit q) (Js.Int 20) in
     let offset := Js.int_mul (Js.int_sub page (Js.Int 1)) limit in
     resources <- Cosmos.query_page (matches q) offset limit ;;
     ret (Respond 200
            (OrdersBody (map (Order.fromDocument env) resources) page limit
               (length resources) (totalPages_of (length resources) limit)))).

Definition getOrderById (env : Env) (orderId : string) : M Outcome :=
  or_next
    (resources <- Cosmos.query_by_id orderId ;;
     match resources with
     | [] => ret (Respond 404 (Failure "Order not found"))
     | doc :: _ =>
         let order := Order.fromDocument env doc in
         user <-
           match users_profile env (Order.userId order) (Order.customerEmail order) with
           | inr profile => ret profile
           | inl userError =>
               log ("Error fetching user details: " ++ Js.err_message userError) ;;;
               ret None
           end ;;
         ret (Respond 200 (AdminOrderBody order user))
     end).

Definition validStatuses : list string :=
  ["pending"; "confirmed"; "processing"; "out_for_delivery"; "delivered";
   "cancelled"].

(** [status] is [None] when the body has no string under that name. *)
Definition updateOrderStatus (env : Env) (orderId : string)
    (status : option string) : M Outcome :=
  or_next
    (if negb (Js.includes validStatuses status)
     then ret (Respond 400 (Failure "Invalid status"))
     else
       resources <- Cosmos.query_by_id orderId ;;
       match resources with
       | [] => ret (Respond 404 (Failure "Order not found"))
       | orderDoc :: _ =>
           let orderDoc' :=
             Order.with_status orderDoc (Js.or_default status "") (toISOString env) in
           Cosmos.replace orderId (Order.userId orderDoc') orderDoc' ;;;
           ret (Respond 200 (OrderBody (Order.fromDocument env orderDoc')))
       end).

End OrderController.

(** ** Notions the properties are stated with *)

(** The container answers the next [n] requests. *)
Definition calm (n : nat) (w : World) : bool :=
  forallb (fun f => match f with None => true | Some _ => false end)
          (firstn n (faults w)).

(** The order a scan by id resolves to: [resources[0]]. *)
Definition by_id (i : string) (ds : list Order.t) : option Order.t :=
  hd_error (filter (fun d => String.eqb (Order.id d) i) ds).

(** The order a point read by owner and id resolves to. *)
Definition by_owner_and_id (owner i : string) (ds : list Order.t) : option Order.t :=
  find (Cosmos.is_item i (Some owner)) ds.

(** [body] with signature [sig] verifies as the completion event of the
    checkout session whose [client_reference_id] is [orderId]. *)
Definition delivers (env : Env) (body : string) (sig : option string)
    (orderId : string) : Prop :=
  constructEvent env body sig =
    inr {| ev_type := "checkout.session.completed";
           ev_client_reference_id := Some orderId |}.

(** The first document whose id is [i] rewritten by [f], every other
    document as it was. *)
Fixpoint overwrite_first (i : string) (f : Order.t -> Order.t)
    (ds : list Order.t) : list Order.t :=
  match ds with
  | [] => []
  | d :: rest =>
      if String.eqb (Order.id d) i then f d :: rest
      else d :: overwrite_first i f rest
  end.

(** What the completion handler assigns to the document it found. *)
Definition mark_confirmed (env : Env) (d : Order.t) : Order.t :=
  Order.with_status d "confirmed" (toISOString env).

(** What the administrative update assigns to the document it found. *)
Definition set_status (env : Env) (s : string) (d : Order.t) : Order.t :=
  Order.with_status d s (toISOString env).

(** The world after [line] went to the console. *)
Definition logged (line : string) (w : World) : World :=
  {| orders := orders w; faults := faults w; console := line :: console w |}.

(** The world after the container answered [n] more requests. *)
Definition answered (n : nat) (w : World) : World :=
  {| orders := orders w; faults := skipn n (faults w); console := console w |}.

(** The world with other documents in the container. *)
Definition storing (ds : list Order.t) (w : World) : World :=
  {| orders := ds; faults := faults w; console := console w |}.

(** Two documents that agree on everything but [status] and [updatedAt]. *)
Definition same_frame (a b : Order.t) : Prop :=
  Order.id a = Order.id b /\ Order.userId a = Order.userId b /\
  Order.items a = Order.items b /\ Order.address a = Order.address b /\
  Order.total a = Order.total b /\
  Order.stripeSessionId a = Order.stripeSessionId b /\
  Order.customerEmail a = Order.customerEmail b /\
  Order.metadata a = Order.metadata b /\
  Order.createdAt a = Order.createdAt b.

(** Two documents that agree on everything but [updatedAt]. *)
Definition same_but_updatedAt (a b : Order.t) : Prop :=
  same_frame a b /\ Order.status a = Order.status b.

(** A document as [createOrder] and the handlers write it: the properties
    the constructor would replace by a default are all truthy. *)
Definition persisted (d : Order.t) : Prop :=
  Js.truthy (Order.id d) = true /\ Js.truthy (Order.status d) = true /\
  Js.truthy (Order.createdAt d) = true /\ Js.truthy (Order.updatedAt d) = true /\
  Order.stripeSessionId d <> Some "".

(** Latest first, on neighbours. *)
Definition createdAt_descending (l : list Order.t) : Prop :=
  Sorted (fun a b => String.leb (Order.createdAt b) (Order.createdAt a) = true) l.

(** The query string [?page=p&limit=l] with the given filters. *)
Definition list_query (p l : Z) (st se : option string) : ListQuery :=
  {| q_page := Some (Js.Int p); q_limit := Some (Js.Int l);
     q_status := st; q_search := se |}.

(** Page [p] of size [l] of the documents [matching]: latest first, from
    offset [(p - 1) * l] on, at most [l] of them. *)
Definition page_slice (matching : list Order.t) (p l : Z) : list Order.t :=
  firstn (Z.to_nat l)
    (skipn (Z.to_nat ((p - 1) * l)) (ByCreatedAt.sort matching)).

(** The answer of a listing that read [resources]. *)
Definition listing (env : Env) (resources : list Order.t) (p l : Z) : Outcome :=
  Respond 200
    (OrdersBody (map (Order.fromDocument env) resources) (Js.Int p) (Js.Int l)
       (length resources) (totalPages_of (length resources) (Js.Int l))).

(** What pages 1 and 2 of size 10 of the documents [matching] look like in
    the answers: ten orders each, no order of page 2 on page 1, every order
    of page 2 a matching document, both pages latest first. *)
Definition pages_one_and_two (env : Env) (matching : list Order.t) : Prop :=
  let page1 := map (Order.fromDocument env) (page_slice matching 1 10) in
  let page2 := map (Order.fromDocument env) (page_slice matching 2 10) in
  length page1 = 10%nat /\ length page2 = 10%nat /\
  (forall o, In o page2 -> ~ In o page1) /\
  (forall o, In o page2 -> In o matching) /\
  createdAt_descending page1 /\ createdAt_descending page2.

(** No string of the list occurs in it twice. *)
Fixpoint distinct (l : list string) : bool :=
  match l with
  | [] => true
  | x :: rest => negb (existsb (String.eqb x) rest) && distinct rest
  end.

(** *** Sample data *)

Module Sample.

Definition outage : Js.error :=
  Js.mkError "Error" "Service Unavailable" (Some 503%nat).

Definition env (clock : string) (reply : SessionReply) : Env :=
  {| clock_utc := clock;
     date_now := "1767225600000";
     random36 := "k3j9x0q1z";
     client_success_url := "https://shop.example/success";
     client_cancel_url := "https://shop.example/cancel";
     sessions_create := fun _ => reply;
     constructEvent := fun body sig =>
       match sig with
       | Some "t=1,v1=good" =>
           inr {| ev_type := "checkout.session.completed";
                  ev_client_reference_id := Some body |}
       | _ => inl "No signatures found matching the expected signature for payload"
       end;
     users_profile := fun _ _ => inr None |}.

Definition env1 : Env :=
  env "2026-01-01T00:00:01.000" (SessionCreated "sess_abc" "https://pay.example/sess_abc").

Definition env2 : Env :=
  env "2026-01-01T00:00:02.000" (SessionCreated "sess_abc" "https://pay.example/sess_abc").

Definition env_down : Env :=
  env "2026-01-01T00:00:01.000" (SessionRejected outage).

Definition home : Address :=
  {| street := Some "1 High Street"; city := Some "Leeds";
     postalCode := Some "LS1 1AA"; country := Some "GB" |}.

Definition mug : Item :=
  {| item_name := "Mug"; item_description := Some "A mug";
     item_price := 1999 # 100; item_quantity := 1; item_images := None |}.

Definition tea : Item :=
  {| item_name := "Tea"; item_description := None;
     item_price := 30; item_quantity := 1; item_images := Some [] |}.

(** An item no shop should sell: none of it, at a negative price. *)
Definition nothing : Item :=
  {| item_name := "Nothing"; item_description := None;
     item_price := (-1); item_quantity := 0; item_images := None |}.

Definition order (i status created : string) : Order.t :=
  {| Order.id := i; Order.userId := Some "u1"; Order.items := [mug; tea];
     Order.address := home; Order.status := status; Order.total := 4999 # 100;
     Order.stripeSessionId := Some "sess_abc";
     Order.customerEmail := "ann@example.org"; Order.metadata := [];
     Order.createdAt := created; Order.updatedAt := created |}.

Definition world (ds : list Order.t) (fs : list (option Js.error)) : World :=
  {| orders := ds; faults := fs; console := [] |}.

Definition cart (items : list Item) : ShoppingController.CheckoutBody :=
  {| ShoppingController.cartItems := Some items;
     ShoppingController.customerEmail := Some "ann@example.org";
     ShoppingController.address := Some home;
     ShoppingController.total := Some (4999 # 100);
     ShoppingController.metadata := None |}.

Definition good_sig : option string := Some "t=1,v1=good".

(** Twenty-five orders of one owner, one per second. *)
Definition second (n : nat) : string :=
  "2026-01-01T00:00:" ++
  String (ascii_of_nat (48 + n / 10)) (String (ascii_of_nat (48 + n mod 10)) ".000Z").

Definition twenty_five : list Order.t :=
  map (fun n => order ("o" ++ second n) "pending" (second n)) (seq 0 25).

End Sample.

(** ** [middleware/errorHandler.js] *)

Module ErrorHandler.

(** The JSON the middleware answers with, next to the status code. *)
Record reply := {
  statusCode : nat;
  message : string;
  details : string;
  timestamp : string;
  path : string;
  method : string
}.

(** [err.message && err.message.includes(part)]. *)
Definition mentions (err : Js.error) (part : string) : bool :=
  Js.truthy (Js.err_message err) && Js.contains part (Js.err_message err).

(** [errorHandler(err, req, res, next)], with [req.originalUrl] and
    [req.method]. *)
Definition errorHandler (env : Env) (err : Js.error) (originalUrl meth : string)
    : reply :=
  let '(code, msg, error) :=
    if String.eqb (Js.err_name err) "ValidationError"
    then (400%nat, "Validation Error", Js.err_message err)
    else if String.eqb (Js.err_name err) "CastError"
    then (400%nat, "Invalid ID format", "The provided ID is not valid")
    else if match Js.err_code err with Some c => Nat.eqb c (11 * 1000) | None => false end
    then (409%nat, "Duplicate Error", "A record with this information already exists")
    else if mentions err "not found"
    then (404%nat, "Not Found", Js.err_message err)
    else if mentions err "Validation failed"
    then (400%nat, "Validation Error", Js.err_message err)
    else if mentions err "already exists"
    then (409%nat, "Conflict", Js.err_message err)
    else if mentions err "Invalid token"
    then (401%nat, "Authentication Error", Js.err_message err)
    else if Js.truthy (Js.err_message err)
    then (500%nat, "Internal Server Error", Js.err_message err)
    else (500%nat, "Internal Server Error", "Server Error") in
  {| statusCode := code; message := msg; details := error;
     timestamp := toISOString env; path := originalUrl; method := meth |}.

End ErrorHandler.

(** ** Properties whose type the code itself inspects *)

Module Dyn.

(** A JSON value as far as [typeof], [!v] and [v !== undefined] tell them
    apart: [undefined], [null], a boolean, a number or a string. *)
Inductive value :=
| VUndefined
| VNull
| VBool (b : bool)
| VNum (q : Q)
| VStr (s : string).

(** [!!v]. *)
Definition truthy (v : value) : bool :=
  match v with
  | VUndefined | VNull => false
  | VBool b => b
  | VNum q => negb (Qeq_bool q 0)
  | VStr s => Js.truthy s
  end.

(** [a && b], the value and not its truth. *)
Definition and_then (a b : value) : value := if truthy a then b else a.

(** [v !== undefined ? v : dflt]. *)
Definition defined_or (v dflt : value) : value :=
  match v with VUndefined => dflt | _ => v end.

(** [v || dflt]. *)
Definition or_value (v dflt : value) : value := if truthy v then v else dflt.

Definition is_boolean (v : value) : bool :=
  match v with VBool _ => true | _ => false end.

End Dyn.

(** ** [models/Product.js] *)

Module Product.

Export Dyn.

Record t := mk {
  id : string;
  sku : string;
  name : option string;
  description : option string;
  price : value;
  quantity : value;
  isActive : value;
  published : value;
  featured : value;
  category : option string;
  images : list string;
  createdAt : string;
  updatedAt : string
}.

(** The argument of the constructor. *)
Record data := mkData {
  d_id : option string;
  d_sku : option string;
  d_name : option string;
  d_description : option string;
  d_price : value;
  d_quantity : value;
  d_isActive : value;
  d_published : value;
  d_featured : value;
  d_category : option string;
  d_images : option (list string);
  d_createdAt : option string;
  d_updatedAt : option string
}.

Definition generateId (env : Env) : string :=
  "product_" ++ date_now env ++ "_" ++ random36 env.

(** [s.slice(-n)]: the last [n] characters of [s]. *)
Definition slice_last (n : nat) (s : string) : string :=
  substring (String.length s - n) n s.

(** [generateSKU()]; [rnd] is
    [Math.random().toString(36).substr(2, 4).toUpperCase()], a draw of its
    own. *)
Definition generateSKU (env : Env) (rnd : string) : string :=
  "SKU-" ++ slice_last 6 (date_now env) ++ "-" ++ rnd.

(** [new Product(data)]. *)
Definition new (env : Env) (rnd : string) (d : data) : t :=
  {| id := Js.or_else (d_id d) (generateId env);
     sku := Js.or_else (d_sku d) (generateSKU env rnd);
     name := d_name d;
     description := d_description d;
     price := d_price d;
     quantity := or_value (d_quantity d) (VNum 0);
     isActive := defined_or (d_isActive d) (VBool true);
     published := defined_or (d_published d) (VBool false);
     featured := defined_or (d_featured d) (VBool false);
     category := d_category d;
     images := Js.or_default (d_images d) [];
     createdAt := Js.or_else (d_createdAt d) (toISOString env);
     updatedAt := Js.or_else (d_updatedAt d) (toISOString env) |}.

Definition name_errors (p : t) : list string :=
  match name p with
  | Some n => if Js.truthy n
              then if (String.length n <? 2)%nat
                   then ["Product name must be at least 2 characters long"]
                   else []
              else ["Product name is required"]
  | None => ["Product name is required"]
  end.

Definition description_errors (p : t) : list string :=
  match description p with
  | Some n => if Js.truthy n
              then if (String.length n <? 10)%nat
                   then ["Product description must be at least 10 characters long"]
                   else []
              else ["Product description is required"]
  | None => ["Product description is required"]
  end.

Definition price_errors (p : t) : list string :=
  if negb (truthy (price p)) then ["Product price is required"]
  else match price p with
       | VNum q => if Qle_bool q 0
                   then ["Product price must be a positive number"] else []
       | _ => ["Product price must be a positive number"]
       end.

Definition quantity_errors (p : t) : list string :=
  match quantity p with
  | VNum q => if Qle_bool 0 q then []
              else ["Product quantity must be a non-negative number"]
  | _ => ["Product quantity must be a non-negative number"]
  end.

Definition category_errors (p : t) : list string :=
  if Js.truthy_opt (category p) then [] else ["Product category is required"].

Definition published_errors (p : t) : list string :=
  if is_boolean (published p) then [] else ["Published must be a boolean value"].

Definition featured_errors (p : t) : list string :=
  if is_boolean (featured p) then [] else ["Featured must be a boolean value"].

(** [validate()]: the seven checks in the order of the source. *)
Definition validate (p : t) : list string :=
  name_errors p ++ description_errors p ++ price_errors p ++
  quantity_errors p ++ category_errors p ++ published_errors p ++
  featured_errors p.

Definition toDocument (p : t) : t :=
  {| id := id p; sku := sku p; name := name p; description := description p;
     price := price p; quantity := quantity p; isActive := isActive p;
     published := published p; featured := featured p; category := category p;
     images := images p; createdAt := createdAt p; updatedAt := updatedAt p |}.

Definition fromDocument (env : Env) (rnd : string) (doc : t) : t :=
  new env rnd
    {| d_id := Some (id doc); d_sku := Some (sku doc); d_name := name doc;
       d_description := description doc; d_price := price doc;
       d_quantity := quantity doc; d_isActive := isActive doc;
       d_published := published doc; d_featured := featured doc;
       d_category := category doc; d_images := Some (images doc);
       d_createdAt := Some (createdAt doc);
       d_updatedAt := Some (updatedAt doc) |}.

(** [isPublished()] and [isFeatured()] return the value of the [&&]. *)
Definition isPublished (p : t) : value := and_then (published p) (isActive p).

Definition isFeatured (p : t) : value := and_then (featured p) (isPublished p).


Definition with_images (p : t) (imgs : list string) (u : string) : t :=
  {| id := id p; sku := sku p; name := name p; description := description p;
     price := price p; quantity := quantity p; isActive := isActive p;
     published := published p; featured := featured p; category := category p;
     images := imgs; createdAt := createdAt p; updatedAt := u |}.


(** [addImage(imageUrl)]. *)
Definition addImage (env : Env) (imageUrl : string) (p : t) : t :=
  if negb (existsb (String.eqb imageUrl) (images p))
  then with_images p (images p ++ [imageUrl]) (toISOString env)
  else p.

(** [images.splice(images.indexOf(url), 1)] when the url is there. *)
Fixpoint splice_first (url : string) (imgs : list string) : option (list string) :=
  match imgs with
  | [] => None
  | x :: rest =>
      if String.eqb x url then Some rest
      else option_map (cons x) (splice_first url rest)
  end.

(** [removeImage(imageUrl)]. *)
Definition removeImage (env : Env) (imageUrl : string) (p : t) : t :=
  match splice_first imageUrl (images p) with
  | Some imgs => with_images p imgs (toISOString env)
  | None => p
  end.

End Product.

(** ** [services/tokenService.js] *)

Module TokenService.

(** The [Set] of blacklisted tokens, in insertion order. *)
Definition t := list string.

Definition isTokenBlacklisted (token : string) (s : t) : bool :=
  existsb (String.eqb token) s.

(** [blacklistedTokens.add(token)]. *)
Definition blacklistToken (token : string) (s : t) : t :=
  if isTokenBlacklisted token s then s else (s ++ [token])%list.

Definition cleanupBlacklist (s : t) : t :=
  if (10 * 1000 <? length s)%nat then [] else s.

End TokenService.

(** ** [models/User.js] *)

Module User.

Export Dyn.

Record address := {
  street : string;
  city : string;
  postCode : string;
  country : string
}.

(** An address as a request or a constructor argument carries it: any
    property may be missing. *)
Record address_data := {
  a_street : option string;
  a_city : option string;
  a_postCode : option string;
  a_country : option string
}.

Record t := mk {
  id : string;
  email : option string;
  password : option string;
  firstName : option string;
  lastName : option string;
  phone : option string;
  addr : address;
  role : string;
  isActive : value;
  emailVerified : value;
  createdAt : string;
  updatedAt : string
}.

Record data := mkData {
  d_id : option string;
  d_email : option string;
  d_password : option string;
  d_firstName : option string;
  d_lastName : option string;
  d_phone : option string;
  d_address : option address_data;
  d_role : option string;
  d_isActive : value;
  d_emailVerified : value;
  d_createdAt : option string;
  d_updatedAt : option string
}.

Definition generateId (env : Env) : string :=
  "user_" ++ date_now env ++ "_" ++ random36 env.

(** [data.address?.field || '']. *)
Definition field_or_empty (a : option address_data)
    (field : address_data -> option string) : string :=
  match a with
  | Some x => Js.or_else (field x) ""
  | None => ""
  end.

(** [new User(data)]. *)
Definition new (env : Env) (d : data) : t :=
  {| id := Js.or_else (d_id d) (generateId env);
     email := d_email d;
     password := d_password d;
     firstName := d_firstName d;
     lastName := d_lastName d;
     phone := d_phone d;
     addr := {| street := field_or_empty (d_address d) a_street;
                city := field_or_empty (d_address d) a_city;
                postCode := field_or_empty (d_address d) a_postCode;
                country := field_or_empty (d_address d) a_country |};
     role := Js.or_else (d_role d) "customer";
     isActive := defined_or (d_isActive d) (VBool true);
     emailVerified := or_value (d_emailVerified d) (VBool false);
     createdAt := Js.or_else (d_createdAt d) (toISOString env);
     updatedAt := Js.or_else (d_updatedAt d) (toISOString env) |}.

Definition fromDocument (env : Env) (doc : t) : t :=
  new env
    {| d_id := Some (id doc); d_email := email doc; d_password := password doc;
       d_firstName := firstName doc; d_lastName := lastName doc;
       d_phone := phone doc;
       d_address :=
         Some {| a_street := Some (Js.or_else (Some (street (addr doc))) "");
                 a_city := Some (Js.or_else (Some (city (addr doc))) "");
                 a_postCode := Some (Js.or_else (Some (postCode (addr doc))) "");
                 a_country := Some (Js.or_else (Some (country (addr doc))) "") |};
       d_role := Some (role doc); d_isActive := isActive doc;
       d_emailVerified := emailVerified doc;
       d_createdAt := Some (createdAt doc);
       d_updatedAt := Some (updatedAt doc) |}.

(** [!s || s.trim().length === 0] for a property that may be missing. *)
Definition blank (s : option string) : bool :=
  negb (Js.truthy_opt s) || negb (Js.trim_truthy (Js.or_default s "")).

(** [validateAddress(address)]. *)
Definition validateAddress (a : address_data) : list string :=
  (if blank (a_street a) then ["Street address is required"] else []) ++
  (if blank (a_city a) then ["City is required"] else []) ++
  (if Js.truthy_opt (a_postCode a)
      && negb (Js.trim_truthy (Js.or_default (a_postCode a) ""))
   then ["Postal code cannot be empty if provided"] else []) ++
  (if blank (a_country a) then ["Country is required"] else []).

(** [updateAddress(addressData)]: the user afterwards; the method returns
    its address. *)
Definition updateAddress (env : Env) (a : address_data) (u : t) : t :=
  {| id := id u; email := email u; password := password u;
     firstName := firstName u; lastName := lastName u; phone := phone u;
     addr := {| street := Js.or_default (a_street a) (street (addr u));
                city := Js.or_default (a_city a) (city (addr u));
                postCode := Js.or_default (a_postCode a) (postCode (addr u));
                country := Js.or_default (a_country a) (country (addr u)) |};
     role := role u; isActive := isActive u; emailVerified := emailVerified u;
     createdAt := createdAt u; updatedAt := toISOString env |}.

(** [toDocument()]; an address property that is falsy is written as ['']. *)
Definition toDocument (u : t) : t :=
  {| id := id u; email := email u; password := password u;
     firstName := firstName u; lastName := lastName u; phone := phone u;
     addr := {| street := Js.or_else (Some (street (addr u))) "";
                city := Js.or_else (Some (city (addr u))) "";
                postCode := Js.or_else (Some (postCode (addr u))) "";
                country := Js.or_else (Some (country (addr u))) "" |};
     role := role u; isActive := isActive u; emailVerified := emailVerified u;
     createdAt := createdAt u; updatedAt := updatedAt u |}.

End User.

(** ** The [users] container and [UserService.findById] *)

Module Users.

Record world := {
  (** the documents of [containers.users], in the order a scan returns them *)
  docs : list User.t;
  (** the failure schedule of the container, as for the orders *)
  faults : list (option Js.error);
  console : list string
}.

(** [userService.findById(id)]: the query by id, the first resource through
    [User.fromDocument] or [null]; an error with code 404 is [null] too, any
    other is written to the console and thrown again. *)
Definition findById (env : Env) (i : string) (w : world)
    : Result (option User.t) * world :=
  match faults w with
  | Some e :: fs =>
      if match Js.err_code e with Some c => Nat.eqb c 404 | None => false end
      then (Ok None, {| docs := docs w; faults := fs; console := console w |})
      else (Throw e,
            {| docs := docs w; faults := fs;
               console := ("Error finding user by ID: " ++ Js.err_message e)
                          :: console w |})
  | fs =>
      (Ok (match filter (fun d => String.eqb (User.id d) i) (docs w) with
           | doc :: _ => Some (User.fromDocument env doc)
           | [] => None
           end),
       {| docs := docs w; faults := tl fs; console := console w |})
  end.

(** The document addressed by [item(id, email)]: the users are partitioned
    by email. *)
Definition is_item (i : string) (pk : option string) (d : User.t) : bool :=
  String.eqb (User.id d) i && Cosmos.key_eqb (User.email d) pk.

Fixpoint replace_item (i : string) (pk : option string) (doc : User.t)
    (ds : list User.t) : option (list User.t) :=
  match ds with
  | [] => None
  | d :: rest =>
      if is_item i pk d then Some (doc :: rest)
      else option_map (cons d) (replace_item i pk doc rest)
  end.

(** Modelled from the spec: [config/cosmos.js] is missing;
    [item(id, email).replace(doc)] follows the store contract of [replace]:
    last write wins, and it fails with a not-found error when no document
    matches at that partition key. *)
Definition replace (i : string) (pk : option string) (doc : User.t) (w : world)
    : Result User.t * world :=
  match faults w with
  | Some e :: fs =>
      (Throw e, {| docs := docs w; faults := fs; console := console w |})
  | fs =>
      match replace_item i pk doc (docs w) with
      | Some ds => (Ok doc, {| docs := ds; faults := tl fs; console := console w |})
      | None =>
          (Throw Cosmos.not_found,
           {| docs := docs w; faults := tl fs; console := console w |})
      end
  end.

(** [catch (error) { console.error(label, error); throw error; }]. *)
Definition logging {A} (label : string) (r : Result A * world)
    : Result A * world :=
  match r with
  | (Throw e, w) =>
      (Throw e,
       {| docs := docs w; faults := faults w;
          console := (label ++ Js.err_message e) :: console w |})
  | ok => ok
  end.

(** [user.address.street || user.address.city || ...]. *)
Definition has_address (u : User.t) : bool :=
  Js.truthy (User.street (User.addr u)) || Js.truthy (User.city (User.addr u))
  || Js.truthy (User.postCode (User.addr u))
  || Js.truthy (User.country (User.addr u)).

(** [userService.createAddress(userId, addressData)]. *)
Definition createAddress (env : Env) (userId : string) (a : User.address_data)
    (w : world) : Result (User.t * User.address) * world :=
  logging "Error creating address: "
    match findById env userId w with
    | (Throw e, w1) => (Throw e, w1)
    | (Ok None, w1) => (Throw (Js.Error "User not found"), w1)
    | (Ok (Some user), w1) =>
        if has_address user
        then (Throw (Js.Error "Address already exists"), w1)
        else
          let validationErrors := User.validateAddress a in
          if (0 <? length validationErrors)%nat
          then (Throw (Js.Error ("Address validation failed: "
                                 ++ Js.join ", " validationErrors)), w1)
          else
            let user' := User.updateAddress env a user in
            match replace userId (User.email user') (User.toDocument user') w1 with
            | (Ok resource, w2) =>
                (Ok (User.fromDocument env resource, User.addr user'), w2)
            | (Throw e, w2) => (Throw e, w2)
            end
    end.

(** The [addressToValidate] of [updateAddress]: what is given, and what
    the user has where nothing is given. *)
Definition addressToValidate (a : User.address_data) (u : User.t)
    : User.address_data :=
  {| User.a_street := Some (Js.or_else (User.a_street a) (User.street (User.addr u)));
     User.a_city := Some (Js.or_else (User.a_city a) (User.city (User.addr u)));
     User.a_postCode :=
       Some (Js.or_else (User.a_postCode a) (User.postCode (User.addr u)));
     User.a_country :=
       Some (Js.or_else (User.a_country a) (User.country (User.addr u))) |}.

(** [addressData.street || addressData.city || ...]. *)
Definition gives_something (a : User.address_data) : bool :=
  Js.truthy_opt (User.a_street a) || Js.truthy_opt (User.a_city a)
  || Js.truthy_opt (User.a_postCode a) || Js.truthy_opt (User.a_country a).

(** [userService.updateAddress(userId, addressData)]. *)
Definition updateAddress (env : Env) (userId : string) (a : User.address_data)
    (w : world) : Result (User.t * User.address) * world :=
  logging "Error updating address: "
    match findById env userId w with
    | (Throw e, w1) => (Throw e, w1)
    | (Ok None, w1) => (Throw (Js.Error "User not found"), w1)
    | (Ok (Some user), w1) =>
        let validationErrors :=
          if gives_something a
          then User.validateAddress (addressToValidate a user) else [] in
        if (0 <? length validationErrors)%nat
        then (Throw (Js.Error ("Address validation failed: "
                               ++ Js.join ", " validationErrors)), w1)
        else
          let user' := User.updateAddress env a user in
          match replace userId (User.email user') (User.toDocument user') w1 with
          | (Ok resource, w2) =>
              (Ok (User.fromDocument env resource, User.addr user'), w2)
          | (Throw e, w2) => (Throw e, w2)
          end
    end.

End Users.

(** ** [middleware/auth.js] *)

Module Auth.

(** [s.split(' ')]. *)
Fixpoint split_space (s : string) : list string :=
  match s with
  | EmptyString => [EmptyString]
  | String c rest =>
      if Ascii.eqb c " "%char then EmptyString :: split_space rest
      else match split_space rest with
           | piece :: pieces => String c piece :: pieces
           | [] => [String c EmptyString]
           end
  end.

(** [authHeader && authHeader.split(' ')[1]]. *)
Definition bearer (authHeader : option string) : option string :=
  match authHeader with
  | Some h => if Js.truthy h then nth_error (split_space h) 1 else Some h
  | None => None
  end.

(** What [jwt.verify] decodes from a token. *)
Record payload := {
  userId : string;
  p_email : option string;
  p_role : string
}.

(** What a middleware does: it answers itself, or it calls [next] with the
    user now on the request. *)
Inductive outcome :=
| Deny (code : nat) (error message : string)
| Pass (user : option User.t).

(** [verifyToken(token)]; [jwt] is [jwt.verify] under the secret of the
    server, [None] when it throws. *)
Definition verifyToken (jwt : string -> option payload) (token : string)
    : Result payload :=
  match jwt token with
  | Some decoded => Ok decoded
  | None => Throw (Js.Error "Invalid token")
  end.

Definition authentication_failed (e : Js.error) (w : Users.world)
    : outcome * Users.world :=
  (Deny 401 "Authentication failed" "Invalid or expired token",
   {| Users.docs := Users.docs w; Users.faults := Users.faults w;
      Users.console := ("Authentication error: " ++ Js.err_message e)
                       :: Users.console w |}).

(** [authenticateToken(req, res, next)] for a request with this
    [authorization] header. *)
Definition authenticateToken (env : Env) (jwt : string -> option payload)
    (blacklist : TokenService.t) (authorization : option string)
    (w : Users.world) : outcome * Users.world :=
  let token := bearer authorization in
  if negb (Js.truthy_opt token)
  then (Deny 401 "Access token required"
             "Please provide a valid authentication token", w)
  else if TokenService.isTokenBlacklisted (Js.or_default token "") blacklist
  then (Deny 401 "Token invalidated" "This token has been logged out", w)
  else
    match verifyToken jwt (Js.or_default token "") with
    | Throw e => authentication_failed e w
    | Ok decoded =>
        match Users.findById env (userId decoded) w with
        | (Throw e, w') => authentication_failed e w'
        | (Ok None, w') => (Deny 401 "Invalid token" "User not found", w')
        | (Ok (Some user), w') =>
            if negb (Dyn.truthy (User.isActive user))
            then (Deny 401 "Account disabled" "Your account has been disabled", w')
            else (Pass (Some user), w')
        end
    end.

(** [authorizeRole(...roles)] for a request whose user is [user]. *)
Definition authorizeRole (roles : list string) (user : option User.t) : outcome :=
  match user with
  | None => Deny 401 "Authentication required" "Please authenticate first"
  | Some u =>
      if negb (Js.includes roles (Some (User.role u)))
      then Deny 403 "Access denied"
                "You do not have permission to access this resource"
      else Pass user
  end.

(** [optionalAuth(req, res, next)]: it always calls [next]. *)
Definition optionalAuth (env : Env) (jwt : string -> option payload)
    (authorization : option string) (w : Users.world)
    : outcome * Users.world :=
  let token := bearer authorization in
  if Js.truthy_opt token
  then
    match verifyToken jwt (Js.or_default token "") with
    | Throw e =>
        (Pass None,
         {| Users.docs := Users.docs w; Users.faults := Users.faults w;
            Users.console := ("Optional auth error (ignored): " ++ Js.err_message e)
                             :: Users.console w |})
    | Ok decoded =>
        match Users.findById env (userId decoded) w with
        | (Throw e, w') =>
            (Pass None,
             {| Users.docs := Users.docs w'; Users.faults := Users.faults w';
                Users.console := ("Optional auth error (ignored): "
                                  ++ Js.err_message e) :: Users.console w' |})
        | (Ok None, w') => (Pass None, w')
        | (Ok (Some user), w') =>
            if Dyn.truthy (User.isActive user)
            then (Pass (Some user), w') else (Pass None, w')
        end
    end
  else (Pass None, w).

(** The two middlewares in front of every administrative route:
    [router.use(authenticateToken); router.use(authorizeRole('admin'))]. *)
Definition admin_gate (env : Env) (jwt : string -> option payload)
    (blacklist : TokenService.t) (authorization : option string)
    (w : Users.world) : outcome * Users.world :=
  match authenticateToken env jwt blacklist authorization w with
  | (Pass user, w') => (authorizeRole ["admin"] user, w')
  | denied => denied
  end.

End Auth.

(** ** [controllers/authController.js]: logout *)

Module AuthController.

(** [logout(req, res)]: the blacklist afterwards; the answer is always
    [{ success: true, message: 'Logout successful' }]. *)
Definition logout (authorization : option string) (blacklist : TokenService.t)
    : TokenService.t :=
  let token := Auth.bearer authorization in
  if Js.truthy_opt token
  then TokenService.blacklistToken (Js.or_default token "") blacklist
  else blacklist.

End AuthController.

(** *** Sample users *)

Module SampleUsers.

Definition no_address : User.address :=
  {| User.street := ""; User.city := ""; User.postCode := ""; User.country := "" |}.

Definition leeds : User.address :=
  {| User.street := "1 High Street"; User.city := "Leeds";
     User.postCode := "LS1 1AA"; User.country := "GB" |}.

Definition user (i mail role : string) (a : User.address) : User.t :=
  {| User.id := i; User.email := Some mail; User.password := Some "$2a$12$hash";
     User.firstName := Some "Ann"; User.lastName := Some "Lee";
     User.phone := None; User.addr := a; User.role := role;
     User.isActive := Dyn.VBool true; User.emailVerified := Dyn.VBool true;
     User.createdAt := "2025-12-01T00:00:00.000Z";
     User.updatedAt := "2025-12-01T00:00:00.000Z" |}.

Definition ann : User.t := user "u1" "ann@example.org" "customer" no_address.

Definition bob : User.t := user "u2" "bob@example.org" "customer" leeds.

Definition root : User.t := user "a1" "root@example.org" "admin" no_address.

Definition world : Users.world :=
  {| Users.docs := [ann; bob; root]; Users.faults := []; Users.console := [] |}.

(** [jwt.verify]: two tokens verify. *)
Definition jwt (token : string) : option Auth.payload :=
  if String.eqb token "tok-ann"
  then Some {| Auth.userId := "u1"; Auth.p_email := Some "ann@example.org";
               Auth.p_role := "customer" |}
  else if String.eqb token "tok-root"
  then Some {| Auth.userId := "a1"; Auth.p_email := Some "root@example.org";
               Auth.p_role := "admin" |}
  else None.

Definition york : User.address_data :=
  {| User.a_street := Some "2 Low Street"; User.a_city := Some "York";
     User.a_postCode := None; User.a_country := Some "GB" |}.

(** A city, and an empty string for the street. *)
Definition no_street : User.address_data :=
  {| User.a_street := Some ""; User.a_city := Some "York";
     User.a_postCode := None; User.a_country := None |}.

End SampleUsers.

(** ** Further notions *)

(** What the container tells documents apart by: the id and the partition
    key. *)
Definition doc_key (d : Order.t) : string * option string :=
  (Order.id d, Order.userId d).

(** No two stored documents share id and partition key. *)
Definition unique_keys (ds : list Order.t) : Prop := NoDup (map doc_key ds).

(** Pages [1] to [n] of size [l] of the documents [matching], one after the
    other. *)
Definition pages_upto (matching : list Order.t) (l n : nat) : list Order.t :=
  concat (map (fun k => page_slice matching (Z.of_nat (S k)) (Z.of_nat l))
              (seq 0 n)).

(** ** Basic facts *)

Section Basics.

Lemma truthy_app_r (a b : string) : Js.truthy b = true -> Js.truthy (a ++ b) = true.
Proof. destruct a; simpl; auto. Qed.

Lemma truthy_toISOString (env : Env) : Js.truthy (toISOString env) = true.
Proof. unfold toISOString. apply truthy_app_r. reflexivity. Qed.

Lemma truthy_generateId (env : Env) : Js.truthy (Order.generateId env) = true.
Proof. reflexivity. Qed.

Lemma truthy_or_else (a : option string) (b : string) :
  Js.truthy b = true -> Js.truthy (Js.or_else a b) = true.
Proof.
  intros Hb. destruct a as [s|]; simpl; auto.
  destruct (Js.truthy s) eqn:E; auto.
Qed.

Lemma key_eqb_refl (k : option string) : Cosmos.key_eqb k k = true.
Proof. destruct k; simpl; auto using String.eqb_refl. Qed.

Lemma toDocument_id (o : Order.t) : Order.toDocument o = o.
Proof. now destruct o. Qed.

Lemma new_persisted (env : Env) (d : Order.data) : persisted (Order.new env d).
Proof.
  unfold persisted, Order.new; simpl. repeat split.
  - apply truthy_or_else, truthy_generateId.
  - now apply truthy_or_else.
  - apply truthy_or_else, truthy_toISOString.
  - apply truthy_or_else, truthy_toISOString.
  - destruct (Order.d_stripeSessionId d) as [s|]; [|discriminate].
    destruct s; simpl; discriminate.
Qed.

Lemma fromDocument_persisted (env : Env) (d : Order.t) :
  persisted d -> Order.fromDocument env d = d.
Proof.
  intros (Hi & Hs & Hc & Hu & Hn). destruct d; simpl in *.
  unfold Order.fromDocument, Order.new; simpl.
  rewrite Hi, Hs, Hc, Hu.
  assert (He : (if Js.truthy customerEmail then customerEmail else "") = customerEmail)
    by now destruct customerEmail.
  rewrite He.
  destruct stripeSessionId as [s|]; auto.
  destruct s; simpl; [now elim Hn|reflexivity].
Qed.

Lemma persisted_with_status (d : Order.t) (s u : string) :
  persisted d -> Js.truthy s = true -> Js.truthy u = true ->
  persisted (Order.with_status d s u).
Proof. intros (Hi & _ & Hc & _ & Hn) Hs Hu. repeat split; simpl; auto. Qed.

Lemma persisted_with_session (d : Order.t) (sid u : string) :
  persisted d -> Js.truthy sid = true -> Js.truthy u = true ->
  persisted (Order.with_session d sid u).
Proof.
  intros (Hi & Hs & Hc & _ & _) Hsid Hu. repeat split; simpl; auto.
  intros E. inversion E. subst. discriminate.
Qed.

Lemma same_frame_refl (d : Order.t) : same_frame d d.
Proof. repeat split. Qed.

Lemma same_frame_with_status (d : Order.t) (s u : string) :
  same_frame d (Order.with_status d s u).
Proof. repeat split. Qed.

Lemma Forall2_same_frame_refl (ds : list Order.t) : Forall2 same_frame ds ds.
Proof. induction ds; constructor; auto using same_frame_refl. Qed.

(** [overwrite_first] against the container's [replace]. *)

Lemma overwrite_first_absent i f ds :
  filter (fun d => String.eqb (Order.id d) i) ds = [] ->
  overwrite_first i f ds = ds.
Proof.
  induction ds as [|d rest IH]; simpl; auto.
  destruct (String.eqb (Order.id d) i); [discriminate|].
  intros H. now rewrite IH.
Qed.

Lemma replace_item_first i f ds d rest :
  filter (fun x => String.eqb (Order.id x) i) ds = d :: rest ->
  Order.userId (f d) = Order.userId d ->
  Cosmos.replace_item i (Order.userId (f d)) (f d) ds
  = Some (overwrite_first i f ds).
Proof.
  intros Hf Hu. rewrite Hu. revert Hf.
  induction ds as [|x xs IH]; simpl; [discriminate|].
  unfold Cosmos.is_item.
  destruct (String.eqb (Order.id x) i) eqn:E; simpl.
  - intros H. inversion H; subst. now rewrite key_eqb_refl.
  - intros H. now rewrite (IH H).
Qed.

Lemma overwrite_first_frame i f ds :
  (forall d, same_frame d (f d)) ->
  Forall2 same_frame ds (overwrite_first i f ds).
Proof.
  intros Hf. induction ds as [|d rest IH]; simpl; [constructor|].
  destruct (String.eqb (Order.id d) i).
  - constructor; auto using Forall2_same_frame_refl.
  - constructor; auto using same_frame_refl.
Qed.

Lemma by_id_overwrite_first i f ds d :
  by_id i ds = Some d -> Order.id (f d) = Order.id d ->
  by_id i (overwrite_first i f ds) = Some (f d).
Proof.
  unfold by_id. intros H Hid.
  induction ds as [|x xs IH]; simpl in *; [discriminate|].
  destruct (String.eqb (Order.id x) i) eqn:E; simpl in *.
  - inversion H; subst. now rewrite Hid, E.
  - rewrite E. auto.
Qed.

Lemma overwrite_first_fixed i f ds d :
  by_id i ds = Some d -> (overwrite_first i f ds = ds <-> f d = d).
Proof.
  unfold by_id.
  induction ds as [|x xs IH]; simpl; [discriminate|].
  destruct (String.eqb (Order.id x) i) eqn:E; simpl.
  - intros H. injection H as ->. split; intros K.
    + now injection K.
    + now rewrite K.
  - intros H. specialize (IH H). split; intros K.
    + apply IH. now injection K.
    + f_equal. now apply IH.
Qed.

Lemma overwrite_first_twice i f g ds :
  (forall d, Order.id (f d) = Order.id d) ->
  overwrite_first i g (overwrite_first i f ds)
  = overwrite_first i (fun d => g (f d)) ds.
Proof.
  intros Hid. induction ds as [|x xs IH]; simpl; auto.
  destruct (String.eqb (Order.id x) i) eqn:E; simpl.
  - now rewrite Hid, E.
  - now rewrite E, IH.
Qed.

Lemma by_id_filter i ds :
  by_id i ds = None -> filter (fun d => String.eqb (Order.id d) i) ds = [].
Proof.
  unfold by_id. destruct (filter _ ds); simpl; [auto|discriminate].
Qed.

End Basics.

(** ** Running the handlers *)

Ltac run :=
  repeat (progress
    (cbv beta delta
       [or_next try_catch bind ret throw log logged answered storing
        Cosmos.create Cosmos.read Cosmos.replace Cosmos.query_by_id
        Cosmos.query_page Cosmos.request Cosmos.get_orders Cosmos.put_orders];
     cbn [orders faults console fst snd skipn])).

Ltac split_faults H fs :=
  try (destruct fs as [|[?|] fs]; simpl in H;
       [ | discriminate H | split_faults H fs ]).

Ltac calm_cases w ds fs cs H :=
  destruct w as [ds fs cs]; unfold calm in H; simpl in H; split_faults H fs.

Section Running.

Variable env : Env.

Lemma calm_le n m w : (m <= n)%nat -> calm n w = true -> calm m w = true.
Proof.
  unfold calm. destruct w as [ds fs cs]; simpl. revert m fs.
  induction n as [|n IH]; intros m fs Hle H.
  - now replace m with 0%nat by lia.
  - destruct m as [|m]; [reflexivity|].
    destruct fs as [|f fs]; [reflexivity|]. simpl in *.
    destruct f; [discriminate|]. apply IH; [lia|assumption].
Qed.

Lemma calm_answered n m w : calm (n + m) w = true -> calm m (answered n w) = true.
Proof.
  unfold calm, answered. destruct w as [ds fs cs]; simpl. revert fs.
  induction n as [|n IH]; intros fs H; simpl in *; [assumption|].
  destruct fs as [|f fs]; simpl in *.
  - now destruct m.
  - destruct f; [discriminate|]. now apply IH.
Qed.

Lemma calm_storing n ds w : calm n (storing ds w) = calm n w.
Proof. reflexivity. Qed.

(** The [try] block of the webhook when the container answers. *)
Lemma confirm_order_found oid w d rest :
  calm 2 w = true ->
  filter (fun x => String.eqb (Order.id x) oid) (orders w) = d :: rest ->
  ShoppingController.confirm_order env oid w
  = (Ok tt,
     logged ("Order marked as confirmed: " ++ oid)
       (storing (overwrite_first oid (mark_confirmed env) (orders w))
          (answered 2 w))).
Proof.
  intros Hc Hf.
  pose proof (@replace_item_first oid (mark_confirmed env) (orders w) d rest Hf eq_refl) as R.
  calm_cases w ds fs cs Hc; cbn [orders] in *;
    unfold ShoppingController.confirm_order; run; rewrite Hf; run;
    unfold mark_confirmed in R; cbn [Order.with_status Order.userId] in *;
    rewrite R; reflexivity.
Qed.

Lemma confirm_order_absent oid w :
  calm 1 w = true ->
  filter (fun x => String.eqb (Order.id x) oid) (orders w) = [] ->
  ShoppingController.confirm_order env oid w
  = (Ok tt, logged ("Order not found: " ++ oid) (answered 1 w)).
Proof.
  intros Hc Hf.
  calm_cases w ds fs cs Hc; cbn [orders] in *;
    unfold ShoppingController.confirm_order; run; rewrite Hf; reflexivity.
Qed.

(** The [try] block never rejects, and whatever the container does the
    documents afterwards are the old ones or the old ones with the first
    match confirmed. *)
Lemma confirm_order_any oid w :
  fst (ShoppingController.confirm_order env oid w) = Ok tt /\
  (orders (snd (ShoppingController.confirm_order env oid w)) = orders w \/
   orders (snd (ShoppingController.confirm_order env oid w))
   = overwrite_first oid (mark_confirmed env) (orders w)).
Proof.
  destruct w as [ds fs cs]. unfold ShoppingController.confirm_order. run.
  destruct fs as [|[e|] fs]; simpl; auto;
    destruct (filter (fun x => String.eqb (Order.id x) oid) ds) as [|d rest] eqn:Hf;
    simpl; auto;
    pose proof (@replace_item_first oid (mark_confirmed env) ds d rest Hf eq_refl) as R;
    unfold mark_confirmed in R; simpl in R.
  - rewrite R; simpl; auto.
  - destruct fs as [|[e|] fs]; simpl; auto; rewrite R; simpl; auto.
Qed.

(** A verified completion event for a truthy order id runs the [try]
    block and is acknowledged. *)
Lemma webhook_delivers body sig oid w :
  delivers env body sig oid -> Js.truthy oid = true ->
  ShoppingController.handleStripeWebhook env body sig w
  = (Ok (Respond 200 Received),
     snd (ShoppingController.confirm_order env oid
            (logged ("Processing checkout.session.completed for order: " ++ oid) w))).
Proof.
  intros Hd Ht. unfold ShoppingController.handleStripeWebhook.
  rewrite Hd. simpl. rewrite Ht. run.
  match goal with |- context [ShoppingController.confirm_order ?e ?o ?x] =>
    pose proof (confirm_order_any o x) as [Hr _];
    destruct (ShoppingController.confirm_order e o x) as [r w'] end.
  simpl in *. now rewrite Hr.
Qed.

(** Every verified event is acknowledged, whatever the container does. *)
Lemma webhook_acknowledges body sig ev w :
  constructEvent env body sig = inr ev ->
  fst (ShoppingController.handleStripeWebhook env body sig w)
  = Ok (Respond 200 Received).
Proof.
  intros Hv. unfold ShoppingController.handleStripeWebhook. rewrite Hv.
  destruct (String.eqb (ev_type ev) "checkout.session.completed"); [|reflexivity].
  run. destruct (Js.truthy_opt (ev_client_reference_id ev)); [|reflexivity].
  match goal with |- context [ShoppingController.confirm_order ?e ?o ?x] =>
    pose proof (confirm_order_any o x) as [Hr _];
    destruct (ShoppingController.confirm_order e o x) as [r w'] end.
  simpl in *. now rewrite Hr.
Qed.

(** The documents after the webhook handler, for any request at all. *)
Lemma webhook_orders body sig w :
  orders (snd (ShoppingController.handleStripeWebhook env body sig w)) = orders w \/
  exists oid,
    orders (snd (ShoppingController.handleStripeWebhook env body sig w))
    = overwrite_first oid (mark_confirmed env) (orders w).
Proof.
  unfold ShoppingController.handleStripeWebhook.
  destruct (constructEvent env body sig) as [msg|ev]; [left; reflexivity|].
  destruct (String.eqb (ev_type ev) "checkout.session.completed"); [|left; reflexivity].
  run. destruct (Js.truthy_opt (ev_client_reference_id ev)); [|left; reflexivity].
  match goal with |- context [ShoppingController.confirm_order ?e ?o ?x] =>
    pose proof (confirm_order_any o x) as [Hr Ho];
    destruct (ShoppingController.confirm_order e o x) as [r w'] end.
  simpl in *. rewrite Hr. simpl. destruct Ho as [Ho|Ho]; [left|right; eexists]; exact Ho.
Qed.

End Running.

Section RunningStatusUpdate.

Variable env : Env.

Lemma update_invalid oid st w :
  Js.includes OrderController.validStatuses st = false ->
  OrderController.updateOrderStatus env oid st w
  = (Ok (Respond 400 (Failure "Invalid status")), w).
Proof.
  intros H. unfold OrderController.updateOrderStatus. rewrite H. reflexivity.
Qed.

Lemma update_found oid s w d rest :
  Js.includes OrderController.validStatuses (Some s) = true ->
  calm 2 w = true ->
  filter (fun x => String.eqb (Order.id x) oid) (orders w) = d :: rest ->
  OrderController.updateOrderStatus env oid (Some s) w
  = (Ok (Respond 200 (OrderBody (Order.fromDocument env (set_status env s d)))),
     storing (overwrite_first oid (set_status env s) (orders w)) (answered 2 w)).
Proof.
  intros Hv Hc Hf.
  pose proof (@replace_item_first oid (set_status env s) (orders w) d rest Hf eq_refl) as R.
  unfold OrderController.updateOrderStatus. rewrite Hv.
  calm_cases w ds fs cs Hc; cbn [orders negb] in *;
    run; rewrite Hf; run;
    unfold set_status in *; cbn [Order.with_status Order.userId Js.or_default] in *;
    rewrite R; reflexivity.
Qed.

Lemma update_absent oid st w :
  Js.includes OrderController.validStatuses st = true ->
  calm 1 w = true ->
  filter (fun x => String.eqb (Order.id x) oid) (orders w) = [] ->
  OrderController.updateOrderStatus env oid st w
  = (Ok (Respond 404 (Failure "Order not found")), answered 1 w).
Proof.
  intros Hv Hc Hf. unfold OrderController.updateOrderStatus. rewrite Hv.
  calm_cases w ds fs cs Hc; cbn [orders negb] in *; run; rewrite Hf; reflexivity.
Qed.

(** A failure of the lookup goes to [next] as it is. *)
Lemma update_lookup_fails oid st w e fs :
  Js.includes OrderController.validStatuses st = true ->
  faults w = Some e :: fs ->
  fst (OrderController.updateOrderStatus env oid st w) = Ok (Next e).
Proof.
  intros Hv Hf. unfold OrderController.updateOrderStatus. rewrite Hv.
  destruct w as [ds fs' cs]; cbn [faults negb] in *; subst. reflexivity.
Qed.

(** The documents after a status update, for any request at all. *)
Lemma update_orders oid st w :
  orders (snd (OrderController.updateOrderStatus env oid st w)) = orders w \/
  exists s,
    In s OrderController.validStatuses /\
    orders (snd (OrderController.updateOrderStatus env oid st w))
    = overwrite_first oid (set_status env s) (orders w).
Proof.
  unfold OrderController.updateOrderStatus.
  destruct (Js.includes OrderController.validStatuses st) eqn:Hv;
    cbn [negb]; [|left; reflexivity].
  destruct st as [s|]; [|discriminate Hv].
  assert (Hin : In s OrderController.validStatuses).
  { cbn [Js.includes] in Hv. apply existsb_exists in Hv.
    destruct Hv as (x & Hx & He). apply String.eqb_eq in He. now subst. }
  destruct w as [ds fs cs]. run.
  destruct fs as [|[e|] fs]; cbn; auto;
    destruct (filter (fun x => String.eqb (Order.id x) oid) ds) as [|d rest] eqn:Hf;
    cbn; auto;
    pose proof (replace_item_first oid (set_status env s) ds d rest Hf eq_refl) as R;
    unfold set_status in R; cbn [Order.with_status Order.userId] in R.
  - rewrite R; cbn. right. now exists s.
  - destruct fs as [|[e|] fs]; cbn; auto; rewrite R; cbn; right; now exists s.
Qed.

End RunningStatusUpdate.

Section ListFacts.

Lemma by_id_some i ds d :
  by_id i ds = Some d ->
  exists rest, filter (fun x => String.eqb (Order.id x) i) ds = d :: rest.
Proof.
  unfold by_id. destruct (filter _ ds) as [|x rest]; simpl; [discriminate|].
  intros H. injection H as ->. now exists rest.
Qed.

Lemma mark_confirmed_fixed env d :
  mark_confirmed env d = d <->
  Order.status d = "confirmed" /\ Order.updatedAt d = toISOString env.
Proof.
  destruct d; unfold mark_confirmed, Order.with_status; simpl. split.
  - intros H. injection H as Hs Hu. auto.
  - intros [-> ->]. reflexivity.
Qed.

Lemma overwrite_first_related (R : Order.t -> Order.t -> Prop) i f g ds :
  (forall d, R d d) -> (forall d, R (f d) (g d)) ->
  Forall2 R (overwrite_first i f ds) (overwrite_first i g ds).
Proof.
  intros Hr Hfg.
  assert (Hrefl : forall l, Forall2 R l l) by (induction l; constructor; auto).
  induction ds as [|d rest IH]; simpl; [constructor|].
  destruct (String.eqb (Order.id d) i); constructor; auto.
Qed.

End ListFacts.

(** ** The completion event *)

Section CompletionEvent.

Import ShoppingController.

(** C1, as the specification states it, fails: a delivered order that
    receives the completion event of its own checkout session is written
    back as [confirmed]. *)
Lemma completion_event_reconfirms_delivered_order :
  let o := Sample.order "o1" "delivered" "2025-12-31T00:00:00.000Z" in
  let w := Sample.world [o] [] in
  let w' := snd (handleStripeWebhook Sample.env1 "o1" Sample.good_sig w) in
  delivers Sample.env1 "o1" Sample.good_sig (Order.id o) /\
  by_id "o1" (orders w) = Some o /\
  Order.status o = "delivered" /\
  option_map Order.status (by_id "o1" (orders w')) = Some "confirmed" /\
  orders w' <> orders w.
Proof.
  cbv zeta. repeat split; try reflexivity.
  vm_compute. discriminate.
Qed.

(** C1, amended: the completion event of a stored order overwrites the
    status of that order with [confirmed] and its [updatedAt] with the time
    of handling, whatever the status was; the stored orders are unchanged
    exactly when the order was already [confirmed] with that very
    [updatedAt]. *)
Theorem completion_event_overwrites_status env body sig oid w d :
  delivers env body sig oid -> Js.truthy oid = true ->
  calm 2 w = true ->
  by_id oid (orders w) = Some d ->
  let w' := snd (handleStripeWebhook env body sig w) in
  orders w' = overwrite_first oid (mark_confirmed env) (orders w) /\
  by_id oid (orders w') = Some (mark_confirmed env d) /\
  (orders w' = orders w <->
   Order.status d = "confirmed" /\ Order.updatedAt d = toISOString env).
Proof.
  intros Hd Ht Hc Hb. cbv zeta.
  destruct (by_id_some _ _ _ Hb) as [rest Hf].
  rewrite (webhook_delivers env body sig oid w Hd Ht). cbn [snd].
  rewrite (@confirm_order_found env oid _ d rest) by assumption.
  cbn [snd logged storing answered orders].
  split; [reflexivity|]. split.
  - now apply by_id_overwrite_first.
  - rewrite (overwrite_first_fixed _ _ _ _ Hb). apply mark_confirmed_fixed.
Qed.

Lemma completion_event_overwrites_status_witness :
  let o := Sample.order "o1" "confirmed" "2025-12-31T00:00:00.000Z" in
  let w' := snd (handleStripeWebhook Sample.env1 "o1" Sample.good_sig
                   (Sample.world [o] [])) in
  by_id "o1" (orders w') = Some (mark_confirmed Sample.env1 o) /\
  orders w' <> [o].
Proof.
  cbv zeta.
  destruct (@completion_event_overwrites_status Sample.env1 "o1" Sample.good_sig
              "o1" (Sample.world [Sample.order "o1" "confirmed" "2025-12-31T00:00:00.000Z"] [])
              (Sample.order "o1" "confirmed" "2025-12-31T00:00:00.000Z")
              eq_refl eq_refl eq_refl eq_refl) as (_ & Hb & Hiff).
  split; [exact Hb|].
  intros E. apply Hiff in E. destruct E as [_ E]. vm_compute in E. discriminate E.
Defined.

(** C2: two deliveries of the completion event of a stored order leave the
    order [confirmed], as one delivery does; the documents after both are
    those a single delivery at the time of the second produces, they
    differ from those after the first in no property but [updatedAt], and
    in none at all when both are handled at the same instant. *)
Theorem completion_event_idempotent env1 env2 body sig oid w d :
  delivers env1 body sig oid -> delivers env2 body sig oid ->
  Js.truthy oid = true ->
  calm 4 w = true ->
  by_id oid (orders w) = Some d ->
  Order.status d = "pending" ->
  let once := snd (handleStripeWebhook env1 body sig w) in
  let twice := snd (handleStripeWebhook env2 body sig once) in
  option_map Order.status (by_id oid (orders once)) = Some "confirmed" /\
  option_map Order.status (by_id oid (orders twice)) = Some "confirmed" /\
  orders twice = orders (snd (handleStripeWebhook env2 body sig w)) /\
  Forall2 same_but_updatedAt (orders once) (orders twice) /\
  (toISOString env1 = toISOString env2 -> orders twice = orders once).
Proof.
  intros Hd1 Hd2 Ht Hc Hb _. cbv zeta.
  destruct (by_id_some _ _ _ Hb) as [rest Hf].
  assert (Hc2 : calm 2 w = true) by (apply (@calm_le 4); [lia|assumption]).
  rewrite (webhook_delivers env1 body sig oid w Hd1 Ht). cbn [snd].
  rewrite (@confirm_order_found env1 oid _ d rest) by assumption.
  cbn [snd].
  set (w1 := logged _ (storing _ (answered 2 (logged _ w)))).
  assert (Ho1 : orders w1 = overwrite_first oid (mark_confirmed env1) (orders w))
    by reflexivity.
  assert (Hb1 : by_id oid (orders w1) = Some (mark_confirmed env1 d))
    by (rewrite Ho1; now apply by_id_overwrite_first).
  assert (Hc1 : calm 2 w1 = true)
    by (apply (@calm_answered 2 2 w); assumption).
  destruct (by_id_some _ _ _ Hb1) as [rest1 Hf1].
  rewrite (webhook_delivers env2 body sig oid w1 Hd2 Ht), (webhook_delivers env2 body sig oid w Hd2 Ht). cbn [snd].
  rewrite (@confirm_order_found env2 oid (logged _ w1) _ rest1 Hc1 Hf1).
  rewrite (@confirm_order_found env2 oid (logged _ w) d rest Hc2 Hf).
  rewrite Hb1. subst w1.
  cbn [snd logged storing answered orders] in *. cbn [option_map].
  assert (Htw : overwrite_first oid (mark_confirmed env2)
                  (overwrite_first oid (mark_confirmed env1) (orders w))
                = overwrite_first oid (mark_confirmed env2) (orders w))
    by (now rewrite overwrite_first_twice).
  rewrite Htw. repeat split.
  - now rewrite (@by_id_overwrite_first oid (mark_confirmed env2) _ d).
  - apply overwrite_first_related.
    + intros x. split; [apply same_frame_refl|reflexivity].
    + intros x. split; [repeat split|reflexivity].
  - intros E. unfold mark_confirmed. now rewrite E.
Qed.

Lemma completion_event_idempotent_witness :
  let o := Sample.order "o1" "pending" "2025-12-31T00:00:00.000Z" in
  let once := snd (handleStripeWebhook Sample.env1 "o1" Sample.good_sig
                     (Sample.world [o] [])) in
  let twice := snd (handleStripeWebhook Sample.env2 "o1" Sample.good_sig once) in
  option_map Order.status (by_id "o1" (orders once)) = Some "confirmed" /\
  option_map Order.status (by_id "o1" (orders twice)) = Some "confirmed".
Proof.
  cbv zeta.
  destruct (@completion_event_idempotent Sample.env1 Sample.env2 "o1"
              Sample.good_sig "o1"
              (Sample.world [Sample.order "o1" "pending" "2025-12-31T00:00:00.000Z"] [])
              (Sample.order "o1" "pending" "2025-12-31T00:00:00.000Z")
              eq_refl eq_refl eq_refl eq_refl eq_refl eq_refl) as (H1 & H2 & _).
  split; [exact H1|exact H2].
Defined.

(** C7: the completion event of an order the container does not have is
    acknowledged with [{ received: true }], the handler does not reject,
    and the container holds the documents it held before; when the lookup
    is answered, the handler writes that the order was not found. *)
Theorem unknown_order_is_acknowledged env body sig oid w :
  delivers env body sig oid ->
  by_id oid (orders w) = None ->
  let r := handleStripeWebhook env body sig w in
  fst r = Ok (Respond 200 Received) /\
  orders (snd r) = orders w /\
  (Js.truthy oid = true -> calm 1 w = true ->
   hd_error (console (snd r)) = Some ("Order not found: " ++ oid)).
Proof.
  intros Hd Hb. cbv zeta. apply by_id_filter in Hb.
  split; [apply (@webhook_acknowledges env body sig _ w Hd)|].
  destruct (Js.truthy oid) eqn:Ht.
  - rewrite (webhook_delivers env body sig oid w Hd Ht). cbn [snd]. split.
    + match goal with |- context [confirm_order ?e ?o ?x] =>
        destruct (confirm_order_any e o x) as [_ [Ho|Ho]]; rewrite Ho end.
      * reflexivity.
      * cbn [logged orders]. now apply overwrite_first_absent.
    + intros _ Hc. rewrite confirm_order_absent by assumption. reflexivity.
  - split; [|discriminate].
    unfold handleStripeWebhook. rewrite Hd. cbn. rewrite Ht. reflexivity.
Qed.

Lemma unknown_order_is_acknowledged_witness :
  let r := handleStripeWebhook Sample.env1 "o404" Sample.good_sig
             (Sample.world [Sample.order "o1" "pending" "2025-12-31T00:00:00.000Z"] []) in
  fst r = Ok (Respond 200 Received) /\
  orders (snd r) = [Sample.order "o1" "pending" "2025-12-31T00:00:00.000Z"] /\
  hd_error (console (snd r)) = Some "Order not found: o404".
Proof.
  cbv zeta.
  destruct (@unknown_order_is_acknowledged Sample.env1 "o404" Sample.good_sig "o404"
              (Sample.world [Sample.order "o1" "pending" "2025-12-31T00:00:00.000Z"] [])
              eq_refl eq_refl) as (H1 & H2 & H3).
  split; [exact H1|]. split; [exact H2|]. exact (H3 eq_refl eq_refl).
Defined.

End CompletionEvent.

(** ** Store failures under the completion event *)

Section StoreFailures.

Import ShoppingController.

(** C6, as the specification states it, fails: when the lookup of an
    existing order is rejected by the container, the handler neither
    rejects nor hands the error to [next]; it answers
    [{ received: true }]. *)
Lemma webhook_swallows_store_error :
  let o := Sample.order "o1" "pending" "2025-12-31T00:00:00.000Z" in
  let w := Sample.world [o] [Some Sample.outage] in
  let r := handleStripeWebhook Sample.env1 "o1" Sample.good_sig w in
  delivers Sample.env1 "o1" Sample.good_sig "o1" /\
  by_id "o1" (orders w) = Some o /\
  fst (Cosmos.query_by_id "o1" w) = Throw Sample.outage /\
  fst r = Ok (Respond 200 Received) /\
  fst r <> Throw Sample.outage /\
  fst r <> Ok (Next Sample.outage).
Proof.
  cbv zeta. repeat split; try reflexivity; vm_compute; discriminate.
Qed.

(** C6, amended: an error of the container raised while a verified
    completion event is applied, by the lookup or by the replace of an
    existing order, is caught in the handler: it is written to the console,
    the event is acknowledged with [{ received: true }], and the stored
    orders are as before. *)
Theorem webhook_catches_store_errors env body sig oid w e :
  delivers env body sig oid -> Js.truthy oid = true ->
  (exists fs, faults w = Some e :: fs) \/
  (exists fs d, faults w = None :: Some e :: fs /\ by_id oid (orders w) = Some d) ->
  let r := handleStripeWebhook env body sig w in
  fst r = Ok (Respond 200 Received) /\
  orders (snd r) = orders w /\
  hd_error (console (snd r))
  = Some ("Error updating order status: " ++ Js.err_message e).
Proof.
  intros Hd Ht Hfault. cbv zeta.
  rewrite (webhook_delivers env body sig oid w Hd Ht). cbn [fst snd].
  split; [reflexivity|].
  destruct w as [ds fs cs]. cbn [orders faults] in Hfault.
  unfold confirm_order.
  destruct Hfault as [[fs' ->]|(fs' & d & -> & Hb)].
  - run. split; reflexivity.
  - destruct (by_id_some _ _ _ Hb) as [rest Hf]. run. cbn [orders] in Hf.
    rewrite Hf. run. split; reflexivity.
Qed.

Lemma webhook_catches_store_errors_witness :
  let o := Sample.order "o1" "pending" "2025-12-31T00:00:00.000Z" in
  let r := handleStripeWebhook Sample.env1 "o1" Sample.good_sig
             (Sample.world [o] [None; Some Sample.outage]) in
  fst r = Ok (Respond 200 Received) /\
  orders (snd r) = [o] /\
  hd_error (console (snd r))
  = Some "Error updating order status: Service Unavailable".
Proof.
  cbv zeta.
  apply (@webhook_catches_store_errors Sample.env1 "o1" Sample.good_sig "o1"
           (Sample.world [Sample.order "o1" "pending" "2025-12-31T00:00:00.000Z"]
              [None; Some Sample.outage])
           Sample.outage eq_refl eq_refl).
  right. exists [], (Sample.order "o1" "pending" "2025-12-31T00:00:00.000Z").
  split; reflexivity.
Defined.

End StoreFailures.

(** ** The administrative status update *)

Section StatusUpdate.

Import OrderController.

Lemma includes_In xs st :
  Js.includes xs st = true <-> exists s, st = Some s /\ In s xs.
Proof.
  destruct st as [s|]; simpl.
  - rewrite existsb_exists. split.
    + intros (x & Hin & He). apply String.eqb_eq in He. subst. eauto.
    + intros (s' & Hs & Hin). injection Hs as <-. exists s.
      split; [assumption|apply String.eqb_refl].
  - split; [discriminate|]. intros (s & Hs & _). discriminate.
Qed.

Lemma valid_status_truthy s : In s validStatuses -> Js.truthy s = true.
Proof.
  unfold validStatuses. simpl.
  intros H; repeat (destruct H as [<-|H]; [reflexivity|]). destruct H.
Qed.

(** The administrative fetch of an order the container has. *)
Lemma admin_fetch env oid w d :
  calm 1 w = true -> by_id oid (orders w) = Some d ->
  exists user,
    fst (getOrderById env oid w)
    = Ok (Respond 200 (AdminOrderBody (Order.fromDocument env d) user)).
Proof.
  intros Hc Hb. destruct (by_id_some _ _ _ Hb) as [rest Hf].
  unfold getOrderById.
  calm_cases w ds fs cs Hc; cbn [orders] in *; run; rewrite Hf; run;
    destruct (users_profile env _ _) as [err|profile]; run; eauto.
Qed.

(** C8: a status outside the six enumerated ones is refused with the
    client error [Invalid status]; an enumerated status for an id no
    order has is answered with [Order not found]; an enumerated status for
    an order the container has succeeds, and the order then has that status
    and the time of the update as [updatedAt], in the container and in
    what the next administrative fetch returns. *)
Theorem updateOrderStatus_outcomes env oid st w :
  calm 3 w = true ->
  let r := updateOrderStatus env oid st w in
  ((forall s, st = Some s -> ~ In s validStatuses) ->
   fst r = Ok (Respond 400 (Failure "Invalid status")) /\
   orders (snd r) = orders w) /\
  (forall s, st = Some s -> In s validStatuses ->
   by_id oid (orders w) = None ->
   fst r = Ok (Respond 404 (Failure "Order not found")) /\
   orders (snd r) = orders w) /\
  (forall s d, st = Some s -> In s validStatuses ->
   by_id oid (orders w) = Some d ->
   fst r = Ok (Respond 200 (OrderBody (Order.fromDocument env (set_status env s d)))) /\
   by_id oid (orders (snd r)) = Some (set_status env s d) /\
   forall env',
     Order.status (Order.fromDocument env' (set_status env s d)) = s /\
     Order.updatedAt (Order.fromDocument env' (set_status env s d)) = toISOString env /\
     exists user,
       fst (getOrderById env' oid (snd r))
       = Ok (Respond 200
               (AdminOrderBody (Order.fromDocument env' (set_status env s d)) user))).
Proof.
  intros Hc. cbv zeta.
  assert (Hc2 : calm 2 w = true) by (apply (@calm_le 3); [lia|assumption]).
  assert (Hc1 : calm 1 w = true) by (apply (@calm_le 3); [lia|assumption]).
  split; [|split].
  - intros Hout. rewrite update_invalid; [split; reflexivity|].
    destruct (Js.includes validStatuses st) eqn:E; [|reflexivity].
    apply includes_In in E. destruct E as (s & Hs & Hin). now elim (Hout s).
  - intros s -> Hin Hb.
    rewrite update_absent; [split; reflexivity| |assumption|now apply by_id_filter].
    apply includes_In. eauto.
  - intros s d -> Hin Hb. destruct (by_id_some _ _ _ Hb) as [rest Hf].
    assert (Hv : Js.includes validStatuses (Some s) = true)
      by (apply includes_In; eauto).
    rewrite (@update_found env oid s w d rest Hv Hc2 Hf). cbn [fst snd].
    split; [reflexivity|]. split.
    + cbn [storing orders]. now apply by_id_overwrite_first.
    + intros env'. split; [|split].
      * unfold Order.fromDocument, Order.new, set_status. cbn.
        now rewrite (valid_status_truthy _ Hin).
      * unfold Order.fromDocument, Order.new, set_status. cbn.
        now rewrite truthy_toISOString.
      * apply admin_fetch.
        -- rewrite calm_storing. apply (@calm_answered 2 1 w). assumption.
        -- cbn [storing orders]. now apply by_id_overwrite_first.
Qed.

Lemma updateOrderStatus_outcomes_witness :
  let o := Sample.order "o1" "pending" "2025-12-31T00:00:00.000Z" in
  let w := Sample.world [o] [] in
  fst (updateOrderStatus Sample.env1 "o1" (Some "shipped") w)
  = Ok (Respond 400 (Failure "Invalid status")) /\
  fst (updateOrderStatus Sample.env1 "o2" (Some "processing") w)
  = Ok (Respond 404 (Failure "Order not found")) /\
  option_map Order.status
    (by_id "o1" (orders (snd (updateOrderStatus Sample.env1 "o1" (Some "processing") w))))
  = Some "processing".
Proof.
  cbv zeta. split; [|split].
  - apply (@updateOrderStatus_outcomes Sample.env1 "o1" (Some "shipped")
             (Sample.world [Sample.order "o1" "pending" "2025-12-31T00:00:00.000Z"] [])
             eq_refl).
    intros s Hs. injection Hs as <-. simpl.
    intros H; repeat (destruct H as [H|H]; [discriminate H|]); exact H.
  - apply (@updateOrderStatus_outcomes Sample.env1 "o2" (Some "processing")
             (Sample.world [Sample.order "o1" "pending" "2025-12-31T00:00:00.000Z"] [])
             eq_refl) with (s := "processing");
      [reflexivity|simpl; tauto|reflexivity].
  - destruct (@updateOrderStatus_outcomes Sample.env1 "o1" (Some "processing")
                (Sample.world [Sample.order "o1" "pending" "2025-12-31T00:00:00.000Z"] [])
                eq_refl) as (_ & _ & H).
    destruct (H "processing" (Sample.order "o1" "pending" "2025-12-31T00:00:00.000Z")
                eq_refl) as (_ & Hb & _); [simpl; tauto|reflexivity|].
    rewrite Hb. reflexivity.
Defined.

End StatusUpdate.

(** ** Which properties the two status writers touch *)

Section Frame.

(** C10: the completion handler and the administrative status update leave
    [id], [userId], [items], [address], [total], [stripeSessionId],
    [customerEmail], [metadata] and [createdAt] of every stored document as
    they were, for every request and whatever the container does; no
    document is added or removed. *)
Theorem status_writers_frame env w :
  (forall body sig,
     Forall2 same_frame (orders w)
       (orders (snd (ShoppingController.handleStripeWebhook env body sig w)))) /\
  (forall oid st,
     Forall2 same_frame (orders w)
       (orders (snd (OrderController.updateOrderStatus env oid st w)))).
Proof.
  split.
  - intros body sig.
    destruct (webhook_orders env body sig w) as [E|[oid E]]; rewrite E.
    + apply Forall2_same_frame_refl.
    + apply overwrite_first_frame. intros d. apply same_frame_with_status.
  - intros oid st.
    destruct (update_orders env oid st w) as [E|(s & _ & E)]; rewrite E.
    + apply Forall2_same_frame_refl.
    + apply overwrite_first_frame. intros d. apply same_frame_with_status.
Qed.

End Frame.

(** ** Creating an order *)

Section CreateOrder.

Import UserService.

Lemma validate_messages (o : Order.t) :
  (In "User ID is required" (Order.validate o)
   <-> Js.truthy_opt (Order.userId o) = false) /\
  (In "At least one item is required" (Order.validate o)
   <-> Order.items o = []) /\
  (In "Valid address is required" (Order.validate o)
   <-> Order.address_ok (Order.address o) = false) /\
  (In "Customer email is required" (Order.validate o)
   <-> Order.customerEmail o = "").
Proof.
  unfold Order.validate, Order.items_ok.
  destruct (Js.truthy_opt (Order.userId o));
    destruct (Order.items o) as [|it its];
    destruct (Order.address_ok (Order.address o));
    destruct (Order.customerEmail o) as [|c e]; simpl;
    repeat split; intros H;
    repeat (destruct H as [H|H]; try discriminate H);
    try discriminate; try contradiction; auto.
Qed.

Lemma validate_nil (o : Order.t) :
  Order.validate o = [] <->
  Js.truthy_opt (Order.userId o) = true /\ Order.items o <> [] /\
  Order.address_ok (Order.address o) = true /\ Order.customerEmail o <> "".
Proof.
  unfold Order.validate, Order.items_ok.
  destruct (Js.truthy_opt (Order.userId o));
    destruct (Order.items o) as [|it its];
    destruct (Order.address_ok (Order.address o));
    destruct (Order.customerEmail o) as [|c e]; simpl;
    split; intros H; try discriminate H;
    try (destruct H as (H1 & H2 & H3 & H4); congruence);
    repeat split; congruence.
Qed.

Lemma createOrder_invalid env d w :
  Order.validate (Order.new env d) <> [] ->
  createOrder env d w
  = (Throw (Js.Error ("Order validation failed: "
                      ++ Js.join ", " (Order.validate (Order.new env d)))),
     logged ("Error creating order: " ++ "Order validation failed: "
             ++ Js.join ", " (Order.validate (Order.new env d))) w).
Proof.
  intros H. unfold createOrder.
  destruct (Order.validate (Order.new env d)) as [|m ms]; [now elim H|].
  reflexivity.
Qed.

Lemma createOrder_valid env d w :
  Order.validate (Order.new env d) = [] ->
  calm 1 w = true ->
  existsb (Cosmos.is_item (Order.id (Order.new env d)) (Order.userId (Order.new env d)))
          (orders w) = false ->
  createOrder env d w
  = (Ok (Order.new env d),
     storing (orders w ++ [Order.new env d]) (answered 1 w)).
Proof.
  intros Hv Hc Hx. unfold createOrder. rewrite Hv.
  cbn [length Nat.ltb Nat.leb]. rewrite toDocument_id.
  calm_cases w ds fs cs Hc; cbn [orders] in *; run; rewrite Hx; run;
    rewrite (fromDocument_persisted env _ (new_persisted env d)); reflexivity.
Qed.

Lemma createOrder_ok_inv env d w r w' :
  createOrder env d w = (Ok r, w') ->
  Order.validate (Order.new env d) = [] /\
  r = Order.new env d /\
  existsb (Cosmos.is_item (Order.id r) (Order.userId r)) (orders w) = false /\
  w' = storing (orders w ++ [r]) (answered 1 w).
Proof.
  unfold createOrder.
  destruct (Order.validate (Order.new env d)) as [|m ms] eqn:Hv;
    cbn [length Nat.ltb Nat.leb]; [|run; discriminate].
  rewrite toDocument_id. destruct w as [ds fs cs]. run.
  destruct fs as [|[e|] fs]; run; try discriminate;
    destruct (existsb _ ds) eqn:Hx; run; try discriminate;
    rewrite (fromDocument_persisted env _ (new_persisted env d));
    intros H; injection H as <- <-; auto.
Qed.

(** C3, as the specification states it, fails: an order whose only item
    has quantity 0 and a negative price passes validation and is stored. *)
Lemma createOrder_accepts_worthless_item :
  let data := ShoppingController.order_data "u1" (Sample.cart [Sample.nothing])
                [Sample.nothing] Sample.home in
  (item_quantity Sample.nothing <= 0)%Z /\
  (item_price Sample.nothing < 0)%Q /\
  exists o,
    createOrder Sample.env1 data (Sample.world [] []) = (Ok o, Sample.world [o] []) /\
    Order.items o = [Sample.nothing].
Proof.
  cbv zeta. split; [simpl; lia|]. split; [reflexivity|].
  eexists. split; reflexivity.
Qed.

(** C3, amended: [createOrder] rejects with an [Error] whose message is
    ["Order validation failed: "] followed by the messages of all violated
    checks, joined by commas, whenever one of these is violated: the user
    id is present, the items are a non-empty array, the address has a
    street, a city and a country, the customer email is non-empty.  It
    resolves only when all four hold, and then, when the container accepts
    the document, the order is stored.  Quantities and prices of the items
    are not looked at. *)
Theorem createOrder_validation env d w :
  let o := Order.new env d in
  let errs := Order.validate o in
  (In "User ID is required" errs <-> Js.truthy_opt (Order.userId o) = false) /\
  (In "At least one item is required" errs <-> Order.items o = []) /\
  (In "Valid address is required" errs
   <-> Order.address_ok (Order.address o) = false) /\
  (In "Customer email is required" errs <-> Order.customerEmail o = "") /\
  (errs = [] <->
   Js.truthy_opt (Order.userId o) = true /\ Order.items o <> [] /\
   Order.address_ok (Order.address o) = true /\ Order.customerEmail o <> "") /\
  (errs <> [] ->
   fst (createOrder env d w)
   = Throw (Js.Error ("Order validation failed: " ++ Js.join ", " errs)) /\
   orders (snd (createOrder env d w)) = orders w) /\
  (errs = [] -> calm 1 w = true ->
   existsb (Cosmos.is_item (Order.id o) (Order.userId o)) (orders w) = false ->
   fst (createOrder env d w) = Ok o /\
   orders (snd (createOrder env d w)) = (orders w ++ [o])%list) /\
  (forall r w', createOrder env d w = (Ok r, w') ->
   errs = [] /\ r = o /\ orders w' = (orders w ++ [o])%list).
Proof.
  cbv zeta.
  destruct (validate_messages (Order.new env d)) as (H1 & H2 & H3 & H4).
  repeat (split; [assumption|]). split; [apply validate_nil|]. split; [|split].
  - intros H. rewrite (@createOrder_invalid env d w H). split; reflexivity.
  - intros Hv Hc Hx. rewrite (@createOrder_valid env d w Hv Hc Hx). split; reflexivity.
  - intros r w' H. apply createOrder_ok_inv in H.
    destruct H as (Hv & -> & _ & ->). repeat split; assumption || reflexivity.
Qed.

Lemma createOrder_validation_witness :
  let d := Order.mkData None None (Some []) (Some empty_address) None None None
             (Some "") None None None in
  fst (createOrder Sample.env1 d (Sample.world [] []))
  = Throw (Js.Error "Order validation failed: User ID is required, At least one item is required, Valid address is required, Customer email is required") /\
  fst (createOrder Sample.env1
         (ShoppingController.order_data "u1" (Sample.cart [Sample.mug; Sample.tea])
            [Sample.mug; Sample.tea] Sample.home)
         (Sample.world [] []))
  = Ok (Order.new Sample.env1
          (ShoppingController.order_data "u1" (Sample.cart [Sample.mug; Sample.tea])
             [Sample.mug; Sample.tea] Sample.home)).
Proof.
  cbv zeta. split.
  - apply (@createOrder_validation Sample.env1
             (Order.mkData None None (Some []) (Some empty_address) None None None
                (Some "") None None None)
             (Sample.world [] [])).
    discriminate.
  - apply (@createOrder_validation Sample.env1
             (ShoppingController.order_data "u1" (Sample.cart [Sample.mug; Sample.tea])
                [Sample.mug; Sample.tea] Sample.home)
             (Sample.world [] [])); reflexivity.
Defined.

End CreateOrder.

(** ** Checkout: order, session, session id on the order *)

Section Checkout.

Import ShoppingController.

Lemma replace_item_app_last i pk doc o ds :
  existsb (Cosmos.is_item i pk) ds = false ->
  Cosmos.is_item i pk o = true ->
  Cosmos.replace_item i pk doc (ds ++ [o]) = Some (ds ++ [doc])%list.
Proof.
  intros Hx Ho. induction ds as [|d rest IH]; simpl in *.
  - now rewrite Ho.
  - apply orb_false_iff in Hx. destruct Hx as [Hd Hrest].
    now rewrite Hd, (IH Hrest).
Qed.

Lemma find_app_last (p : Order.t -> bool) ds o :
  existsb p ds = false -> p o = true -> find p (ds ++ [o]) = Some o.
Proof.
  intros Hx Ho. induction ds as [|d rest IH]; simpl in *.
  - now rewrite Ho.
  - apply orb_false_iff in Hx. destruct Hx as [Hd Hrest].
    now rewrite Hd, (IH Hrest).
Qed.

Lemma is_item_self (o : Order.t) :
  Cosmos.is_item (Order.id o) (Order.userId o) o = true.
Proof.
  unfold Cosmos.is_item. now rewrite String.eqb_refl, key_eqb_refl.
Qed.

(** The customer's fetch of an order the container has. *)
Lemma owner_fetch env uid oid w d :
  calm 1 w = true -> by_owner_and_id uid oid (orders w) = Some d ->
  fst (getOrderById env uid oid w)
  = Ok (Respond 200 (OrderBody (Order.fromDocument env d))).
Proof.
  intros Hc Hb. unfold getOrderById, by_owner_and_id in *.
  calm_cases w ds fs cs Hc; cbn [orders] in *; run; rewrite Hb; reflexivity.
Qed.

Variable env : Env.
Variable uid : string.
Variable b : CheckoutBody.
Variable it : Item.
Variable its : list Item.
Variable addr : Address.
Hypothesis Hcart : cartItems b = Some (it :: its).
Hypothesis Haddr : address b = Some addr.

Let data := order_data uid b (it :: its) addr.

Lemma created_order_shape w order w1 :
  UserService.createOrder env data w = (Ok order, w1) ->
  Order.id order = Order.generateId env /\
  Order.userId order = Some uid /\
  Order.status order = "pending" /\
  Order.stripeSessionId order = None /\
  Order.items order = it :: its /\
  persisted order /\
  existsb (Cosmos.is_item (Order.id order) (Some uid)) (orders w) = false /\
  w1 = storing (orders w ++ [order]) (answered 1 w).
Proof.
  intros H. apply createOrder_ok_inv in H.
  destruct H as (_ & -> & Hx & ->).
  do 5 (split; [reflexivity|]).
  split; [apply new_persisted|]. split; [exact Hx|reflexivity].
Qed.

Lemma checkout_session_created w order w1 sid url :
  UserService.createOrder env data w = (Ok order, w1) ->
  sessions_create env (session_params env b (it :: its) addr order)
  = SessionCreated sid url ->
  calm 2 w = true ->
  createCheckoutSession env uid b w
  = (Ok (Respond 200 (UrlBody url)),
     storing (orders w ++ [Order.with_session order sid (toISOString env)])
       (answered 2 w)).
Proof.
  intros Hcreate Hsession Hc.
  destruct (created_order_shape _ _ _ Hcreate) as (Hid & Hu & _ & _ & _ & _ & Hx & ->).
  unfold createCheckoutSession. rewrite Hcart, Haddr.
  unfold try_catch at 1. unfold bind at 1. fold data. rewrite Hcreate.
  unfold bind at 1. unfold create_session. rewrite Hsession.
  rewrite toDocument_id.
  assert (R : Cosmos.replace_item (Order.id order) (Some uid)
                (Order.with_session order sid (toISOString env))
                (orders w ++ [order])
              = Some (orders w ++ [Order.with_session order sid (toISOString env)])%list).
  { apply replace_item_app_last; [assumption|].
    rewrite <- Hu. apply is_item_self. }
  calm_cases w ds fs cs Hc; cbn [orders] in *; run; rewrite R; reflexivity.
Qed.

Lemma checkout_session_rejected w order w1 e :
  UserService.createOrder env data w = (Ok order, w1) ->
  sessions_create env (session_params env b (it :: its) addr order)
  = SessionRejected e ->
  createCheckoutSession env uid b w
  = (Ok (Respond 500 (PlainError "Internal Server Error")),
     logged ("Checkout Error: " ++ Js.err_message e) w1).
Proof.
  intros Hcreate Hsession.
  unfold createCheckoutSession. rewrite Hcart, Haddr.
  unfold try_catch at 1. unfold bind at 1. fold data. rewrite Hcreate.
  unfold bind at 1. unfold create_session. rewrite Hsession. reflexivity.
Qed.

(** C4: when [createOrder] succeeded and the gateway then created a session
    with id [sid], the checkout answers with the URL of the session, and
    the order fetched afterwards by owner and id carries [sid] as
    [stripeSessionId] and is still [pending]: in the stored document for
    every [sid], and in the answer of the customer's fetch for every
    non-empty one. *)
Theorem checkout_roundtrip w order w1 sid url :
  UserService.createOrder env data w = (Ok order, w1) ->
  sessions_create env (session_params env b (it :: its) addr order)
  = SessionCreated sid url ->
  calm 3 w = true ->
  let r := createCheckoutSession env uid b w in
  let stored := Order.with_session order sid (toISOString env) in
  fst r = Ok (Respond 200 (UrlBody url)) /\
  by_owner_and_id uid (Order.id order) (orders (snd r)) = Some stored /\
  Order.stripeSessionId stored = Some sid /\
  Order.status stored = "pending" /\
  (forall env', Js.truthy sid = true ->
     fst (getOrderById env' uid (Order.id order) (snd r))
     = Ok (Respond 200 (OrderBody stored))).
Proof.
  intros Hcreate Hsession Hc. cbv zeta.
  destruct (created_order_shape _ _ _ Hcreate) as (Hid & Hu & Hs & _ & _ & Hp & Hx & _).
  assert (Hc2 : calm 2 w = true) by (apply (@calm_le 3); [lia|assumption]).
  rewrite (checkout_session_created _ _ _ _ _ Hcreate Hsession Hc2). cbn [fst snd].
  assert (Hfind : by_owner_and_id uid (Order.id order)
                    (orders w ++ [Order.with_session order sid (toISOString env)])
                  = Some (Order.with_session order sid (toISOString env))).
  { apply find_app_last; [assumption|].
    unfold Cosmos.is_item. cbn [Order.with_session Order.id Order.userId].
    rewrite Hu. now rewrite String.eqb_refl, key_eqb_refl. }
  split; [reflexivity|]. split; [exact Hfind|]. split; [reflexivity|].
  split; [exact Hs|].
  intros env' Hsid.
  rewrite (@owner_fetch env' uid (Order.id order) _
             (Order.with_session order sid (toISOString env))).
  - rewrite fromDocument_persisted; [reflexivity|].
    apply persisted_with_session; auto using truthy_toISOString.
  - rewrite calm_storing. apply (@calm_answered 2 1 w). assumption.
  - exact Hfind.
Qed.

(** C5: when [createOrder] succeeded and the gateway then rejects the
    session, the checkout answers with the server error 500, not with a
    URL; the order [createOrder] stored is still there, the last document
    of the container, [pending] and without a session id. *)
Theorem failed_checkout_keeps_pending_order w order w1 e :
  UserService.createOrder env data w = (Ok order, w1) ->
  sessions_create env (session_params env b (it :: its) addr order)
  = SessionRejected e ->
  let r := createCheckoutSession env uid b w in
  fst r = Ok (Respond 500 (PlainError "Internal Server Error")) /\
  orders (snd r) = (orders w ++ [order])%list /\
  by_owner_and_id uid (Order.id order) (orders (snd r)) = Some order /\
  Order.status order = "pending" /\
  Order.stripeSessionId order = None.
Proof.
  intros Hcreate Hsession. cbv zeta.
  destruct (created_order_shape _ _ _ Hcreate) as (_ & Hu & Hs & Hn & _ & _ & Hx & ->).
  rewrite (checkout_session_rejected _ _ _ _ Hcreate Hsession). cbn [fst snd logged storing orders].
  repeat split; try assumption.
  apply find_app_last; [assumption|]. rewrite <- Hu. apply is_item_self.
Qed.

End Checkout.

Section CheckoutWitnesses.

Import ShoppingController.

Lemma checkout_roundtrip_witness :
  let r := createCheckoutSession Sample.env1 "u1"
             (Sample.cart [Sample.mug; Sample.tea]) (Sample.world [] []) in
  let fetched := by_owner_and_id "u1" "order_1767225600000_k3j9x0q1z"
                   (orders (snd r)) in
  fst r = Ok (Respond 200 (UrlBody "https://pay.example/sess_abc")) /\
  option_map Order.stripeSessionId fetched = Some (Some "sess_abc") /\
  option_map Order.status fetched = Some "pending".
Proof.
  cbv zeta.
  destruct (checkout_roundtrip Sample.env1 "u1"
              (Sample.cart [Sample.mug; Sample.tea]) Sample.mug [Sample.tea]
              Sample.home eq_refl eq_refl (Sample.world [] [])
              (Order.new Sample.env1
                 (order_data "u1" (Sample.cart [Sample.mug; Sample.tea])
                    [Sample.mug; Sample.tea] Sample.home))
              (Sample.world
                 [Order.new Sample.env1
                    (order_data "u1" (Sample.cart [Sample.mug; Sample.tea])
                       [Sample.mug; Sample.tea] Sample.home)] [])
              "sess_abc" "https://pay.example/sess_abc"
              eq_refl eq_refl eq_refl) as (H1 & H2 & _).
  split; [exact H1|].
  change "order_1767225600000_k3j9x0q1z"
    with (Order.id (Order.new Sample.env1
                      (order_data "u1" (Sample.cart [Sample.mug; Sample.tea])
                         [Sample.mug; Sample.tea] Sample.home))).
  rewrite H2. split; reflexivity.
Defined.

Lemma failed_checkout_keeps_pending_order_witness :
  let r := createCheckoutSession Sample.env_down "u1"
             (Sample.cart [Sample.mug; Sample.tea]) (Sample.world [] []) in
  fst r = Ok (Respond 500 (PlainError "Internal Server Error")) /\
  length (orders (snd r)) = 1%nat.
Proof.
  cbv zeta.
  destruct (failed_checkout_keeps_pending_order Sample.env_down "u1"
              (Sample.cart [Sample.mug; Sample.tea]) Sample.mug [Sample.tea]
              Sample.home eq_refl eq_refl (Sample.world [] [])
              (Order.new Sample.env_down
                 (order_data "u1" (Sample.cart [Sample.mug; Sample.tea])
                    [Sample.mug; Sample.tea] Sample.home))
              (Sample.world
                 [Order.new Sample.env_down
                    (order_data "u1" (Sample.cart [Sample.mug; Sample.tea])
                       [Sample.mug; Sample.tea] Sample.home)] [])
              Sample.outage eq_refl eq_refl) as (H1 & H2 & _).
  split; [exact H1|]. rewrite H2. reflexivity.
Defined.

End CheckoutWitnesses.

(** ** Listings *)

Section Listing.

Lemma Sorted_skipn {A} (R : A -> A -> Prop) n l :
  Sorted R l -> Sorted R (skipn n l).
Proof.
  revert l. induction n as [|n IH]; intros l H; simpl; [assumption|].
  destruct l as [|a l]; [constructor|].
  apply IH. now apply Sorted_inv in H.
Qed.

Lemma Sorted_firstn {A} (R : A -> A -> Prop) n l :
  Sorted R l -> Sorted R (firstn n l).
Proof.
  revert l. induction n as [|n IH]; intros l H; simpl; [constructor|].
  destruct l as [|a l]; [constructor|].
  apply Sorted_inv in H. destruct H as [Hs Hh].
  constructor; [now apply IH|].
  destruct n; simpl; [constructor|].
  destruct l as [|b l]; constructor. now apply HdRel_inv in Hh.
Qed.

Lemma In_firstn {A} (x : A) n l : In x (firstn n l) -> In x l.
Proof.
  revert l. induction n as [|n IH]; intros l; simpl; [contradiction|].
  destruct l as [|a l]; simpl; [contradiction|].
  intros [H|H]; auto.
Qed.

Lemma In_skipn {A} (x : A) n l : In x (skipn n l) -> In x l.
Proof.
  revert l. induction n as [|n IH]; intros l; simpl; [auto|].
  destruct l as [|a l]; simpl; auto.
Qed.

Lemma NoDup_app_apart {A} (l l' : list A) :
  NoDup (l ++ l') -> forall x, In x l' -> ~ In x l.
Proof.
  induction l as [|a l IH]; simpl; intros H x Hx'; [tauto|].
  inversion H as [|? ? Hn Hd]; subst. intros [->|Hx].
  - apply Hn. apply in_or_app. now right.
  - now apply (IH Hd x).
Qed.

(** The second of two consecutive windows of a list without duplicates
    shares no element with the first. *)
Lemma windows_apart {A} (n : nat) (s : list A) :
  NoDup s -> forall x, In x (firstn n (skipn n s)) -> ~ In x (firstn n s).
Proof.
  intros Hn x Hx. apply In_firstn in Hx.
  rewrite <- (firstn_skipn n s) in Hn.
  now apply (NoDup_app_apart _ _ Hn).
Qed.

Lemma map_fromDocument_persisted env ds :
  Forall persisted ds -> map (Order.fromDocument env) ds = ds.
Proof.
  induction 1 as [|d ds Hd _ IH]; simpl; [reflexivity|].
  now rewrite IH, fromDocument_persisted.
Qed.

Lemma query_page_answered keep o l w :
  calm 1 w = true -> (0 <= o)%Z -> (0 <= l)%Z ->
  Cosmos.query_page keep (Js.Int o) (Js.Int l) w
  = (Ok (firstn (Z.to_nat l)
           (skipn (Z.to_nat o) (ByCreatedAt.sort (filter keep (orders w))))),
     answered 1 w).
Proof.
  intros Hc Ho Hl.
  apply Z.leb_le in Ho, Hl.
  calm_cases w ds fs cs Hc; run; rewrite Ho, Hl; reflexivity.
Qed.

End Listing.

Section Pages.

Lemma distinct_NoDup l : distinct l = true -> NoDup l.
Proof.
  induction l as [|x rest IH]; simpl; [constructor|].
  intros H. apply andb_true_iff in H. destruct H as [Hx Hr].
  constructor; [|auto].
  intros Hin. apply negb_true_iff in Hx.
  assert (E : existsb (String.eqb x) rest = true)
    by (apply existsb_exists; exists x; split; [assumption|apply String.eqb_refl]).
  congruence.
Qed.

Lemma listing_answered env keep p l w :
  calm 1 w = true -> (1 <= p)%Z -> (0 <= l)%Z ->
  or_next
    (resources <- Cosmos.query_page keep
                    (Js.int_mul (Js.int_sub (Js.Int p) (Js.Int 1)) (Js.Int l))
                    (Js.Int l) ;;
     ret (listing env resources p l)) w
  = (Ok (listing env (page_slice (filter keep (orders w)) p l) p l), answered 1 w).
Proof.
  intros Hc Hp Hl. unfold or_next, try_catch, bind. cbn [Js.int_sub Js.int_mul].
  rewrite query_page_answered by (assumption || nia). reflexivity.
Qed.

Lemma page_slice_descending m p l : createdAt_descending (page_slice m p l).
Proof.
  unfold page_slice. apply Sorted_firstn, Sorted_skipn.
  exact (ByCreatedAt.Sorted_sort m).
Qed.

(** Pages one and two, of ten, of twenty-five distinct documents. *)
Lemma second_page_of_25 env m :
  length m = 25%nat -> NoDup m -> Forall persisted m ->
  pages_one_and_two env m.
Proof.
  intros Hlen Hnd Hp. unfold pages_one_and_two. cbv zeta. unfold page_slice.
  change (Z.to_nat 10) with 10%nat.
  change (Z.to_nat ((1 - 1) * 10)) with 0%nat.
  change (Z.to_nat ((2 - 1) * 10)) with 10%nat.
  change (skipn 0 (ByCreatedAt.sort m)) with (ByCreatedAt.sort m).
  pose proof (ByCreatedAt.Permuted_sort m) as Hperm.
  pose proof (ByCreatedAt.Sorted_sort m) as Hsorted.
  set (s := ByCreatedAt.sort m) in *.
  assert (Hs_len : length s = 25%nat)
    by (now rewrite <- (Permutation_length Hperm)).
  assert (Hs_nd : NoDup s) by (now apply (Permutation_NoDup Hperm)).
  assert (Hs_p : Forall persisted s).
  { apply Forall_forall. intros d Hd. rewrite Forall_forall in Hp.
    apply Hp. apply (Permutation_in d (Permutation_sym Hperm) Hd). }
  assert (H1 : map (Order.fromDocument env) (firstn 10 s) = firstn 10 s).
  { apply map_fromDocument_persisted. apply Forall_forall. intros d Hd.
    rewrite Forall_forall in Hs_p. apply Hs_p. now apply In_firstn in Hd. }
  assert (H2 : map (Order.fromDocument env) (firstn 10 (skipn 10 s))
               = firstn 10 (skipn 10 s)).
  { apply map_fromDocument_persisted. apply Forall_forall. intros d Hd.
    rewrite Forall_forall in Hs_p. apply Hs_p.
    apply In_firstn in Hd. now apply In_skipn in Hd. }
  rewrite H1, H2. repeat split.
  - rewrite length_firstn, Hs_len. reflexivity.
  - rewrite length_firstn, length_skipn, Hs_len. reflexivity.
  - now apply windows_apart.
  - intros o Ho. apply In_firstn, In_skipn in Ho.
    apply (Permutation_in o (Permutation_sym Hperm) Ho).
  - apply Sorted_firstn. exact Hsorted.
  - apply Sorted_firstn, Sorted_skipn. exact Hsorted.
Qed.

(** C9: both listings read the matching documents latest first, from
    offset [(page - 1) * limit] on and at most [limit] of them.  When
    twenty-five distinct documents match, page 2 of size 10 has exactly
    ten orders, none of which is among the ten of page 1, all of them
    matching, and in descending order of [createdAt].  The documents are
    taken as the handlers write them ([persisted], which
    [documents_stay_persisted] shows they keep). *)
Theorem listing_pages env w st se uid :
  calm 1 w = true ->
  let all := filter (OrderController.matches (list_query 1 10 st se)) (orders w) in
  let own := filter (ShoppingController.matches uid (list_query 1 10 st se)) (orders w) in
  (forall p l, (1 <= p)%Z -> (0 <= l)%Z ->
     fst (OrderController.getAllOrders env (list_query p l st se) w)
     = Ok (listing env (page_slice all p l) p l) /\
     fst (ShoppingController.getOrders env uid (list_query p l st se) w)
     = Ok (listing env (page_slice own p l) p l)) /\
  (forall p l, createdAt_descending (page_slice all p l) /\
               createdAt_descending (page_slice own p l)) /\
  (length all = 25%nat -> NoDup all -> Forall persisted all ->
   pages_one_and_two env all) /\
  (length own = 25%nat -> NoDup own -> Forall persisted own ->
   pages_one_and_two env own).
Proof.
  intros Hc. cbv zeta. split.
  - intros p l Hp Hl. split.
    + unfold OrderController.getAllOrders. cbn [list_query q_page q_limit Js.or_default].
      exact (f_equal fst (listing_answered env _ p l w Hc Hp Hl)).
    + unfold ShoppingController.getOrders. cbn [list_query q_page q_limit Js.or_default].
      exact (f_equal fst (listing_answered env _ p l w Hc Hp Hl)).
  - split; [|split; apply second_page_of_25].
    intros p l. split; apply page_slice_descending.
Qed.

Lemma twenty_five_distinct : NoDup Sample.twenty_five.
Proof.
  apply (NoDup_map_inv Order.id). apply distinct_NoDup. vm_compute. reflexivity.
Qed.

Lemma twenty_five_persisted : Forall persisted Sample.twenty_five.
Proof.
  apply Forall_forall. intros d Hd. unfold Sample.twenty_five in Hd.
  apply in_map_iff in Hd. destruct Hd as (n & <- & _).
  repeat split. discriminate.
Qed.

Lemma listing_pages_witness :
  let w := Sample.world Sample.twenty_five [] in
  fst (OrderController.getAllOrders Sample.env1 (list_query 2 10 None None) w)
  = Ok (listing Sample.env1 (page_slice Sample.twenty_five 2 10) 2 10) /\
  length (map (Order.fromDocument Sample.env1)
            (page_slice Sample.twenty_five 2 10)) = 10%nat.
Proof.
  cbv zeta.
  pose proof (listing_pages Sample.env1 (Sample.world Sample.twenty_five [])
                None None "u1" eq_refl) as H.
  cbv zeta in H. destruct H as (Hpage & _ & H25 & _).
  split.
  - pose proof (Hpage 2%Z 10%Z ltac:(lia) ltac:(lia)) as [Hp _]. exact Hp.
  - pose proof (H25 eq_refl twenty_five_distinct twenty_five_persisted)
      as (_ & Hlen & _).
    exact Hlen.
Defined.

End Pages.

(** ** The stored documents stay as [createOrder] writes them *)

Section Persisted.

Import ShoppingController.

Lemma overwrite_first_Forall (P : Order.t -> Prop) i f ds :
  (forall d, P d -> P (f d)) -> Forall P ds -> Forall P (overwrite_first i f ds).
Proof.
  intros Hf. induction 1 as [|d rest Hd Hrest IH]; simpl; [constructor|].
  destruct (String.eqb (Order.id d) i); constructor; auto.
Qed.

Lemma createOrder_throw_orders env d w e w' :
  UserService.createOrder env d w = (Throw e, w') -> orders w' = orders w.
Proof.
  unfold UserService.createOrder.
  destruct (Order.validate (Order.new env d)) as [|m ms];
    cbn [length Nat.ltb Nat.leb].
  - destruct w as [ds fs cs]. run.
    destruct fs as [|[e'|] fs]; run;
      try (destruct (existsb _ ds); run);
      intros H; try discriminate H; injection H as _ <-; reflexivity.
  - run. intros H. injection H as _ <-. reflexivity.
Qed.

(** The documents after a checkout, for any request at all: those before,
    or those before and the new order, with or without the session id. *)
Lemma checkout_orders env uid b w :
  let w' := snd (createCheckoutSession env uid b w) in
  orders w' = orders w \/
  exists order,
    persisted order /\
    (orders w' = (orders w ++ [order])%list \/
     exists p sid url,
       sessions_create env p = SessionCreated sid url /\
       orders w'
       = (orders w ++ [Order.with_session order sid (toISOString env)])%list).
Proof.
  cbv zeta.
  remember (snd (createCheckoutSession env uid b w)) as w' eqn:Hw'. revert Hw'.
  unfold createCheckoutSession.
  destruct (cartItems b) as [[|it its]|];
    [intros ->; left; reflexivity| |intros ->; left; reflexivity].
  destruct (address b) as [addr|]; [|intros ->; left; reflexivity].
  unfold try_catch at 1. unfold bind at 1.
  destruct (UserService.createOrder env (order_data uid b (it :: its) addr) w)
    as [[order|e] w1] eqn:Hcreate.
  - destruct (createOrder_ok_inv _ _ _ _ _ Hcreate) as (_ & Horder & Hx & ->).
    assert (Hp : persisted order) by (rewrite Horder; apply new_persisted).
    unfold bind at 1. unfold create_session.
    destruct (sessions_create env (session_params env b (it :: its) addr order))
      as [sid url|e] eqn:Hsession.
    + rewrite toDocument_id.
      assert (Hu : Order.userId order = Some uid) by (now rewrite Horder).
      assert (R : Cosmos.replace_item (Order.id order) (Some uid)
                    (Order.with_session order sid (toISOString env))
                    (orders w ++ [order])
                  = Some (orders w ++ [Order.with_session order sid (toISOString env)])%list).
      { apply replace_item_app_last; [now rewrite <- Hu|].
        rewrite <- Hu. apply is_item_self. }
      destruct w as [ds fs cs]. cbn [orders] in *. run.
      destruct fs as [|[e|] [|[e'|] fs]]; run; try rewrite R; run;
        intros ->; right; exists order; (split; [assumption|]); cbn [orders];
        solve [left; reflexivity | right; eauto 10].
    + intros ->. right. exists order. split; [assumption|]. left. reflexivity.
  - intros ->. left. cbn. apply (createOrder_throw_orders _ _ _ _ _ Hcreate).
Qed.

(** X16: provided the gateway returns no empty session id, no handler that
    writes to the container makes a stored document lose a property the
    [Order] constructor would replace by a default. *)
Theorem documents_stay_persisted env w :
  (forall p sid url,
     sessions_create env p = SessionCreated sid url -> Js.truthy sid = true) ->
  Forall persisted (orders w) ->
  (forall uid b,
     Forall persisted (orders (snd (createCheckoutSession env uid b w)))) /\
  (forall body sig,
     Forall persisted (orders (snd (handleStripeWebhook env body sig w)))) /\
  (forall oid st,
     Forall persisted (orders (snd (OrderController.updateOrderStatus env oid st w)))).
Proof.
  intros Hgw Hw. split; [|split].
  - intros uid b.
    destruct (checkout_orders env uid b w)
      as [E|(order & Hp & [E|(p & sid & url & Hs & E)])]; rewrite E.
    + assumption.
    + apply Forall_app. split; [assumption|]. now constructor.
    + apply Forall_app. split; [assumption|]. constructor; [|constructor].
      apply persisted_with_session;
        eauto using truthy_toISOString.
  - intros body sig.
    destruct (webhook_orders env body sig w) as [E|[oid E]]; rewrite E; [assumption|].
    apply overwrite_first_Forall; [|assumption].
    intros d Hd. apply persisted_with_status; auto using truthy_toISOString.
  - intros oid st.
    destruct (update_orders env oid st w) as [E|(s & Hin & E)]; rewrite E; [assumption|].
    apply overwrite_first_Forall; [|assumption].
    intros d Hd.
    apply persisted_with_status; auto using truthy_toISOString, valid_status_truthy.
Qed.

End Persisted.

(** * Further properties of the handlers *)

(** ** When the webhook writes *)

Section WebhookWrites.

Import ShoppingController.

(** X1: a request whose signature does not verify is answered with the
    client error 400 and reaches neither the documents nor the container;
    and whatever the request, the handler changes the stored documents only
    when the request verifies as the completion event of a stored order and
    the container answers both the lookup and the replace. *)
Theorem webhook_writes_only_on_completion env body sig w :
  let r := handleStripeWebhook env body sig w in
  (forall message, constructEvent env body sig = inl message ->
     fst r = Ok (Respond 400 (Text ("Webhook Error: " ++ message))) /\
     orders (snd r) = orders w /\ faults (snd r) = faults w) /\
  (orders (snd r) <> orders w ->
   exists oid d,
     delivers env body sig oid /\ Js.truthy oid = true /\
     by_id oid (orders w) = Some d /\ calm 2 w = true /\
     orders (snd r) = overwrite_first oid (mark_confirmed env) (orders w)).
Proof.
  cbv zeta. split.
  - intros message Hv. unfold handleStripeWebhook. rewrite Hv. repeat split.
  - unfold handleStripeWebhook, delivers.
    destruct (constructEvent env body sig) as [message|[ty ref]];
      [intros H; now elim H|].
    cbn [ev_type ev_client_reference_id].
    destruct (String.eqb ty "checkout.session.completed") eqn:Hty;
      [|intros H; now elim H].
    apply String.eqb_eq in Hty. subst ty.
    destruct ref as [oid|]; [|intros H; now elim H].
    cbn [Js.truthy_opt Js.or_default].
    destruct (Js.truthy oid) eqn:Ht; [|intros H; now elim H].
    unfold confirm_order. destruct w as [ds fs cs]. run.
    destruct fs as [|[e|] fs]; run; try (intros H; now elim H);
      (destruct (filter (fun x => String.eqb (Order.id x) oid) ds) as [|d rest] eqn:Hf;
       run; [intros H; now elim H|]);
      pose proof (replace_item_first oid (mark_confirmed env) ds d rest Hf eq_refl) as R;
      unfold mark_confirmed in R; cbn [Order.with_status Order.userId] in R |- *.
    + rewrite R. run. intros _. exists oid, d. unfold by_id. rewrite Hf.
      repeat split; reflexivity || assumption.
    + destruct fs as [|[e|] fs]; run; try (intros H; now elim H);
        rewrite R; run; intros _; exists oid, d; unfold by_id; rewrite Hf;
        repeat split; reflexivity || assumption.
Qed.

Lemma webhook_writes_only_on_completion_witness :
  fst (handleStripeWebhook Sample.env1 "o1" (Some "t=1,v1=forged")
         (Sample.world [Sample.order "o1" "pending" "2025-12-31T00:00:00.000Z"] []))
  = Ok (Respond 400
          (Text "Webhook Error: No signatures found matching the expected signature for payload")) /\
  exists oid d,
    delivers Sample.env1 "o1" Sample.good_sig oid /\
    by_id oid [Sample.order "o1" "pending" "2025-12-31T00:00:00.000Z"] = Some d.
Proof.
  split.
  - apply (webhook_writes_only_on_completion Sample.env1 "o1" (Some "t=1,v1=forged")
             (Sample.world [Sample.order "o1" "pending" "2025-12-31T00:00:00.000Z"] [])).
    reflexivity.
  - destruct (webhook_writes_only_on_completion Sample.env1 "o1" Sample.good_sig
                (Sample.world [Sample.order "o1" "pending" "2025-12-31T00:00:00.000Z"] []))
      as [_ H].
    destruct H as (oid & d & Hd & _ & Hb & _).
    + vm_compute. discriminate.
    + exists oid, d. split; [exact Hd|exact Hb].
Defined.

End WebhookWrites.

(** ** What a checkout can answer *)

Section CheckoutAnswers.

Import ShoppingController.

Lemma key_eqb_eq a b : Cosmos.key_eqb a b = true <-> a = b.
Proof.
  destruct a as [x|], b as [y|]; simpl; split; intros H;
    try discriminate; try reflexivity.
  - apply String.eqb_eq in H. now subst.
  - injection H as ->. apply String.eqb_refl.
Qed.

Lemma is_item_key i pk d : Cosmos.is_item i pk d = true <-> doc_key d = (i, pk).
Proof.
  unfold Cosmos.is_item, doc_key. rewrite andb_true_iff, String.eqb_eq, key_eqb_eq.
  split; [intros [-> ->]; reflexivity|intros H; injection H as -> ->; auto].
Qed.

(** Every way a checkout can end, with what it leaves in the container. *)
Lemma checkout_effect env uid b w :
  let r := createCheckoutSession env uid b w in
  (fst r = Ok (Respond 400 (Failure "Cart items are required")) /\ snd r = w /\
   (cartItems b = None \/ cartItems b = Some [])) \/
  (fst r = Ok (Respond 400 (Failure "Address is required")) /\ snd r = w /\
   address b = None) \/
  (fst r = Ok (Respond 500 (PlainError "Internal Server Error")) /\
   orders (snd r) = orders w) \/
  (exists order,
     existsb (Cosmos.is_item (Order.id order) (Order.userId order)) (orders w) = false /\
     Order.userId order = Some uid /\ Order.status order = "pending" /\
     Order.stripeSessionId order = None /\
     ((fst r = Ok (Respond 500 (PlainError "Internal Server Error")) /\
       orders (snd r) = (orders w ++ [order])%list) \/
      (exists items addr sid url,
         sessions_create env (session_params env b items addr order)
         = SessionCreated sid url /\
         fst r = Ok (Respond 200 (UrlBody url)) /\
         orders (snd r)
         = (orders w ++ [Order.with_session order sid (toISOString env)])%list))).
Proof.
  cbv zeta.
  remember (createCheckoutSession env uid b w) as r eqn:Hr. revert Hr.
  unfold createCheckoutSession.
  destruct (cartItems b) as [[|it its]|];
    [intros ->; left; repeat split; auto| |intros ->; left; repeat split; auto].
  destruct (address b) as [addr|];
    [|intros ->; right; left; repeat split; auto].
  unfold try_catch at 1. unfold bind at 1.
  destruct (UserService.createOrder env (order_data uid b (it :: its) addr) w)
    as [[order|e] w1] eqn:Hcreate.
  - destruct (createOrder_ok_inv _ _ _ _ _ Hcreate) as (_ & Horder & Hx & ->).
    assert (Hu : Order.userId order = Some uid) by (now rewrite Horder).
    assert (Hs : Order.status order = "pending") by (now rewrite Horder).
    assert (Hn : Order.stripeSessionId order = None) by (now rewrite Horder).
    unfold bind at 1. unfold create_session.
    destruct (sessions_create env (session_params env b (it :: its) addr order))
      as [sid url|e] eqn:Hsession.
    + rewrite toDocument_id.
      assert (R : Cosmos.replace_item (Order.id order) (Some uid)
                    (Order.with_session order sid (toISOString env))
                    (orders w ++ [order])
                  = Some (orders w ++ [Order.with_session order sid (toISOString env)])%list).
      { apply replace_item_app_last; [now rewrite <- Hu|].
        rewrite <- Hu. apply is_item_self. }
      destruct w as [ds fs cs]. cbn [orders] in *. run.
      destruct fs as [|[e|] [|[e'|] fs]]; run; try rewrite R; run;
        intros ->; do 3 right; exists order; repeat (split; [assumption|]);
        cbn [fst snd orders];
        solve [left; split; reflexivity
              |right; exists (it :: its), addr, sid, url; repeat split; assumption].
    + intros ->. do 3 right. exists order. repeat (split; [assumption|]).
      left. split; reflexivity.
  - intros ->. right. right. left. cbn. split; [reflexivity|].
    apply (createOrder_throw_orders _ _ _ _ _ Hcreate).
Qed.


End CheckoutAnswers.

(** ** What the read handlers return *)

Section Reads.

Lemma query_page_sound keep offset limit w rs w' :
  Cosmos.query_page keep offset limit w = (Ok rs, w') ->
  orders w' = orders w /\
  Forall (fun d => keep d = true /\ In d (orders w)) rs /\
  (forall z, limit = Js.Int z -> (length rs <= Z.to_nat z)%nat) /\
  createdAt_descending rs.
Proof.
  destruct w as [ds fs cs]. run.
  destruct fs as [|[e|] fs]; run; try discriminate;
    (destruct offset as [|o]; [discriminate|]);
    (destruct limit as [|l]; [discriminate|]);
    (destruct ((0 <=? o) && (0 <=? l))%Z; [|discriminate]);
    intros H; injection H as <- <-; cbn [orders];
    (split; [reflexivity|]); (split; [|split]).
  all: try (apply Forall_forall; intros d Hd;
            apply In_firstn, In_skipn in Hd;
            apply (Permutation_in d (Permutation_sym (ByCreatedAt.Permuted_sort _))) in Hd;
            apply filter_In in Hd; tauto).
  all: try (intros z Hz; injection Hz as <-; rewrite length_firstn; lia).
  all: apply Sorted_firstn, Sorted_skipn; exact (ByCreatedAt.Sorted_sort _).
Qed.

Lemma query_page_throw_orders keep offset limit w e w' :
  Cosmos.query_page keep offset limit w = (Throw e, w') -> orders w' = orders w.
Proof.
  destruct w as [ds fs cs]. run.
  destruct fs as [|[e'|] fs]; run;
    try (intros H; injection H as _ <-; reflexivity);
    destruct offset as [|o]; try (intros H; injection H as _ <-; reflexivity);
    destruct limit as [|l]; try (intros H; injection H as _ <-; reflexivity);
    destruct ((0 <=? o) && (0 <=? l))%Z;
    intros H; try discriminate H; injection H as _ <-; reflexivity.
Qed.

Lemma fromDocument_userId env d :
  Order.userId (Order.fromDocument env d) = Order.userId d.
Proof. reflexivity. Qed.

Lemma fromDocument_status env d :
  Js.truthy (Order.status d) = true ->
  Order.status (Order.fromDocument env d) = Order.status d.
Proof.
  intros H. unfold Order.fromDocument, Order.new. cbn. now rewrite H.
Qed.

(** X3: the customer's fetch answers 200 only with an order of the caller:
    the answer is built from a stored document with the requested id in the
    caller's partition; when the caller has no such document and the
    container answers, the answer is 404, also when another customer has an
    order with that id. *)
Theorem owner_fetch_isolated env uid oid w :
  let r := ShoppingController.getOrderById env uid oid w in
  (forall o, fst r = Ok (Respond 200 (OrderBody o)) ->
     Order.userId o = Some uid /\
     exists d, In d (orders w) /\ Order.id d = oid /\
               Order.userId d = Some uid /\ o = Order.fromDocument env d) /\
  (calm 1 w = true ->
   (forall d, In d (orders w) -> Order.id d = oid -> Order.userId d <> Some uid) ->
   fst r = Ok (Respond 404 (Failure "Order not found"))).
Proof.
  cbv zeta. unfold ShoppingController.getOrderById. split.
  - intros o. destruct w as [ds fs cs]. run.
    destruct fs as [|[e|] fs]; run; try discriminate;
      (destruct (find (Cosmos.is_item oid (Some uid)) ds) as [d|] eqn:Hfind;
       [|discriminate]);
      intros H; injection H as <-;
      apply find_some in Hfind; destruct Hfind as [Hin Hitem];
      apply is_item_key in Hitem; injection Hitem as Hid Hu;
      (split; [exact Hu|]); exists d; auto.
  - intros Hc Hnone.
    assert (Hfind : find (Cosmos.is_item oid (Some uid)) (orders w) = None).
    { destruct (find _ (orders w)) as [d|] eqn:Hfind; [|reflexivity].
      apply find_some in Hfind. destruct Hfind as [Hin Hitem].
      apply is_item_key in Hitem. injection Hitem as Hid Hu.
      now elim (Hnone d Hin Hid). }
    calm_cases w ds fs cs Hc; cbn [orders] in *; run; rewrite Hfind; reflexivity.
Qed.

Lemma owner_fetch_isolated_witness :
  let theirs := Sample.order "o1" "pending" "2025-12-31T00:00:00.000Z" in
  fst (ShoppingController.getOrderById Sample.env1 "u2" "o1" (Sample.world [theirs] []))
  = Ok (Respond 404 (Failure "Order not found")) /\
  Order.userId (Order.fromDocument Sample.env1 theirs) = Some "u1".
Proof.
  cbv zeta.
  pose proof (owner_fetch_isolated Sample.env1 "u2" "o1"
                (Sample.world [Sample.order "o1" "pending" "2025-12-31T00:00:00.000Z"] []))
    as [_ H404].
  pose proof (owner_fetch_isolated Sample.env1 "u1" "o1"
                (Sample.world [Sample.order "o1" "pending" "2025-12-31T00:00:00.000Z"] []))
    as [H200 _].
  split.
  - apply H404; [reflexivity|].
    intros d [<-|[]] _. discriminate.
  - apply (H200 _ eq_refl).
Defined.

(** X4: every order in the answer of the customer's listing belongs to the
    caller and, when a status filter is given, has that status; the orders
    come latest first, [total] is the number of orders on this page, not of
    all matching ones, and never exceeds [limit]. *)
Theorem own_listing_sound env uid q w os p l t tp :
  fst (ShoppingController.getOrders env uid q w)
  = Ok (Respond 200 (OrdersBody os p l t tp)) ->
  Forall (fun o =>
            Order.userId o = Some uid /\
            (forall s, q_status q = Some s -> Js.truthy s = true ->
                       Order.status o = s)) os /\
  t = length os /\
  (forall z, l = Js.Int z -> (t <= Z.to_nat z)%nat) /\
  (Forall persisted (orders w) -> createdAt_descending os).
Proof.
  unfold ShoppingController.getOrders, or_next, try_catch, bind.
  destruct (Cosmos.query_page _ _ _ w) as [[rs|e] w'] eqn:Hq; [|discriminate].
  cbn [fst ret]. intros H. injection H as <- <- <- <- <-.
  destruct (query_page_sound _ _ _ _ _ _ Hq) as (_ & Hkeep & Hlen & Hsorted).
  rewrite length_map. repeat split; auto.
  - apply Forall_forall. intros o Ho. apply in_map_iff in Ho.
    destruct Ho as (d & <- & Hd). rewrite Forall_forall in Hkeep.
    destruct (Hkeep d Hd) as [Hm _]. unfold ShoppingController.matches in Hm.
    apply andb_true_iff in Hm. destruct Hm as [Hm Hsearch].
    apply andb_true_iff in Hm. destruct Hm as [Howner Hstatus].
    apply key_eqb_eq in Howner. split; [exact Howner|].
    intros s Hs Ht. rewrite Hs in Hstatus. cbn [Js.truthy_opt Js.or_default] in Hstatus.
    rewrite Ht in Hstatus. apply String.eqb_eq in Hstatus.
    rewrite fromDocument_status; [assumption|]. now rewrite Hstatus.
  - intros Hp. rewrite map_fromDocument_persisted; [assumption|].
    apply Forall_forall. intros d Hd. rewrite Forall_forall in Hkeep, Hp.
    apply Hp. now apply Hkeep.
Qed.

Lemma own_listing_sound_witness :
  exists os,
    fst (ShoppingController.getOrders Sample.env1 "u1"
           (list_query 3 10 (Some "pending") None)
           (Sample.world Sample.twenty_five []))
    = Ok (Respond 200 (OrdersBody os (Js.Int 3) (Js.Int 10) 5 (Some 1%Z))) /\
    Forall (fun o => Order.userId o = Some "u1" /\ Order.status o = "pending") os.
Proof.
  eexists. split; [vm_compute; reflexivity|].
  match goal with |- Forall _ ?os =>
    pose proof (own_listing_sound Sample.env1 "u1"
                  (list_query 3 10 (Some "pending") None)
                  (Sample.world Sample.twenty_five [])
                  os (Js.Int 3) (Js.Int 10) 5 (Some 1%Z)) as H end.
  destruct H as (Hall & _); [vm_compute; reflexivity|].
  eapply Forall_impl; [|exact Hall].
  intros o [Hu Hs]. split; [exact Hu|]. now apply (Hs "pending").
Defined.

(** X5: no read handler writes: after either listing and after either fetch
    of a single order the container holds the documents it held, whatever
    the request and whether or not the container answers. *)
Theorem reads_never_write env w :
  (forall uid q, orders (snd (ShoppingController.getOrders env uid q w)) = orders w) /\
  (forall q, orders (snd (OrderController.getAllOrders env q w)) = orders w) /\
  (forall uid oid,
     orders (snd (ShoppingController.getOrderById env uid oid w)) = orders w) /\
  (forall oid, orders (snd (OrderController.getOrderById env oid w)) = orders w).
Proof.
  repeat split.
  - intros uid q. unfold ShoppingController.getOrders, or_next, try_catch, bind.
    destruct (Cosmos.query_page _ _ _ w) as [[rs|e] w'] eqn:Hq; cbn.
    + now destruct (query_page_sound _ _ _ _ _ _ Hq).
    + apply (query_page_throw_orders _ _ _ _ _ _ Hq).
  - intros q. unfold OrderController.getAllOrders, or_next, try_catch, bind.
    destruct (Cosmos.query_page _ _ _ w) as [[rs|e] w'] eqn:Hq; cbn.
    + now destruct (query_page_sound _ _ _ _ _ _ Hq).
    + apply (query_page_throw_orders _ _ _ _ _ _ Hq).
  - intros uid oid. unfold ShoppingController.getOrderById.
    destruct w as [ds fs cs]. run.
    destruct fs as [|[e|] fs]; run; try reflexivity;
      destruct (find _ ds); reflexivity.
  - intros oid. unfold OrderController.getOrderById.
    destruct w as [ds fs cs]. run.
    destruct fs as [|[e|] fs]; run; try reflexivity;
      (destruct (filter _ ds) as [|d rest]; [reflexivity|]); run;
      destruct (users_profile env _ _); reflexivity.
Qed.

End Reads.

(** ** What [createOrder] leaves behind *)

Section CreateOrderEffect.

Import UserService.

(** X6: [createOrder] either resolves with the order it built, valid and
    appended to the container as its last document, or rejects with the
    documents as they were and the error on the console; it rejects with the
    container's conflict when a document with that id is already in that
    partition, and with the container's own error when the container
    fails. *)
Theorem createOrder_effect env d w :
  let r := createOrder env d w in
  let o := Order.new env d in
  ((fst r = Ok o /\ Order.validate o = [] /\
    orders (snd r) = (orders w ++ [o])%list /\
    existsb (Cosmos.is_item (Order.id o) (Order.userId o)) (orders w) = false) \/
   (exists e, fst r = Throw e /\ orders (snd r) = orders w /\
              hd_error (console (snd r))
              = Some ("Error creating order: " ++ Js.err_message e))) /\
  (Order.validate o = [] -> calm 1 w = true ->
   existsb (Cosmos.is_item (Order.id o) (Order.userId o)) (orders w) = true ->
   fst r = Throw Cosmos.conflict) /\
  (forall e fs, Order.validate o = [] -> faults w = Some e :: fs ->
   fst r = Throw e).
Proof.
  cbv zeta. unfold createOrder.
  destruct (Order.validate (Order.new env d)) as [|m ms] eqn:Hv;
    cbn [length Nat.ltb Nat.leb].
  - rewrite toDocument_id. destruct w as [ds fs cs]. cbn [orders faults]. split; [|split].
    + run. destruct fs as [|[e|] fs]; run;
        try (right; eexists; repeat split; reflexivity);
        destruct (existsb _ ds) eqn:Hx; run;
        try (right; eexists; repeat split; reflexivity);
        left; rewrite (fromDocument_persisted env _ (new_persisted env d));
        repeat split; reflexivity.
    + intros _ Hc Hx. unfold calm in Hc. cbn [faults] in Hc. run.
      destruct fs as [|[e|] fs]; try discriminate Hc; run; rewrite Hx; reflexivity.
    + intros e fs' _ ->. reflexivity.
  - split; [|split; [discriminate|discriminate]].
    right. eexists. repeat split; reflexivity.
Qed.

Lemma createOrder_effect_witness :
  let d := ShoppingController.order_data "u1" (Sample.cart [Sample.mug])
             [Sample.mug] Sample.home in
  let w := Sample.world [Order.new Sample.env1 d] [] in
  fst (createOrder Sample.env1 d w) = Throw Cosmos.conflict /\
  fst (createOrder Sample.env1 d (Sample.world [] [Some Sample.outage]))
  = Throw Sample.outage.
Proof.
  cbv zeta. split.
  - pose proof (createOrder_effect Sample.env1
                  (ShoppingController.order_data "u1" (Sample.cart [Sample.mug])
                     [Sample.mug] Sample.home)
                  (Sample.world
                     [Order.new Sample.env1
                        (ShoppingController.order_data "u1" (Sample.cart [Sample.mug])
                           [Sample.mug] Sample.home)] [])) as H.
    cbv zeta in H. destruct H as (_ & Hconflict & _).
    exact (Hconflict eq_refl eq_refl eq_refl).
  - pose proof (createOrder_effect Sample.env1
                  (ShoppingController.order_data "u1" (Sample.cart [Sample.mug])
                     [Sample.mug] Sample.home)
                  (Sample.world [] [Some Sample.outage])) as H.
    cbv zeta in H. destruct H as (_ & _ & Hfault).
    exact (Hfault Sample.outage [] eq_refl eq_refl).
Defined.

End CreateOrderEffect.

(** ** Ids stay unique *)

Section UniqueKeys.

Lemma existsb_is_item_key i pk ds :
  existsb (Cosmos.is_item i pk) ds = false <-> ~ In (i, pk) (map doc_key ds).
Proof.
  induction ds as [|d rest IH]; simpl; [tauto|].
  rewrite orb_false_iff, IH. split.
  - intros [Hd Hrest] [E|Hin]; [|tauto].
    apply is_item_key in E. congruence.
  - intros H. split; [|tauto].
    destruct (Cosmos.is_item i pk d) eqn:E; [|reflexivity].
    apply is_item_key in E. tauto.
Qed.

Lemma NoDup_snoc {A} (l : list A) x : NoDup l -> ~ In x l -> NoDup (l ++ [x]).
Proof.
  intros Hl Hx. apply NoDup_app; [assumption|repeat constructor; tauto|].
  intros a Ha [<-|[]]. tauto.
Qed.

Lemma map_key_overwrite_first i f ds :
  (forall d, doc_key (f d) = doc_key d) ->
  map doc_key (overwrite_first i f ds) = map doc_key ds.
Proof.
  intros Hf. induction ds as [|d rest IH]; simpl; [reflexivity|].
  destruct (String.eqb (Order.id d) i); simpl; [now rewrite Hf|now rewrite IH].
Qed.

Lemma unique_keys_snoc ds o :
  unique_keys ds ->
  existsb (Cosmos.is_item (Order.id o) (Order.userId o)) ds = false ->
  forall o', doc_key o' = doc_key o -> unique_keys (ds ++ [o']).
Proof.
  unfold unique_keys. intros Hu Hx o' Hk. rewrite map_app. cbn [map].
  apply NoDup_snoc; [assumption|]. rewrite Hk.
  now apply existsb_is_item_key.
Qed.

(** X7: the handlers that write keep the ids unique: when no two stored
    documents share id and partition key before a checkout, a completion
    event or an administrative status update, none do afterwards, whatever
    the request and whatever the container does. *)
Theorem keys_stay_unique env w :
  unique_keys (orders w) ->
  (forall uid b,
     unique_keys (orders (snd (ShoppingController.createCheckoutSession env uid b w)))) /\
  (forall body sig,
     unique_keys (orders (snd (ShoppingController.handleStripeWebhook env body sig w)))) /\
  (forall oid st,
     unique_keys (orders (snd (OrderController.updateOrderStatus env oid st w)))).
Proof.
  intros Hw. split; [|split].
  - intros uid b.
    destruct (checkout_effect env uid b w)
      as [(_ & -> & _)|[(_ & -> & _)|[[_ E]|(order & Hx & _ & _ & _ & [[_ E]|H])]]];
      try assumption; try (rewrite E; assumption).
    + rewrite E. now apply (unique_keys_snoc _ order).
    + destruct H as (items & addr & sid & url & _ & _ & E). rewrite E.
      now apply (unique_keys_snoc _ order).
  - intros body sig.
    destruct (webhook_orders env body sig w) as [E|[oid E]]; rewrite E; [assumption|].
    unfold unique_keys. now rewrite map_key_overwrite_first.
  - intros oid st.
    destruct (update_orders env oid st w) as [E|(s & _ & E)]; rewrite E; [assumption|].
    unfold unique_keys. now rewrite map_key_overwrite_first.
Qed.

Lemma keys_stay_unique_witness :
  unique_keys
    (orders (snd (ShoppingController.createCheckoutSession Sample.env1 "u1"
                    (Sample.cart [Sample.mug])
                    (Sample.world [Sample.order "o1" "pending" "2025-12-31T00:00:00.000Z"] [])))).
Proof.
  apply (keys_stay_unique Sample.env1
           (Sample.world [Sample.order "o1" "pending" "2025-12-31T00:00:00.000Z"] [])).
  repeat constructor. simpl. tauto.
Defined.

End UniqueKeys.

(** ** Store failures under the administrative update *)

Section UpdateFailures.

Import OrderController.

(** X8: unlike the webhook, the administrative status update hands an error
    of the container to [next] as it is, be it raised by the lookup or by
    the replace of an existing order, and leaves the stored documents as
    they were. *)
Theorem update_store_errors_go_to_next env oid s w e :
  In s validStatuses ->
  (exists fs, faults w = Some e :: fs) \/
  (exists fs d, faults w = None :: Some e :: fs /\ by_id oid (orders w) = Some d) ->
  let r := updateOrderStatus env oid (Some s) w in
  fst r = Ok (Next e) /\ orders (snd r) = orders w.
Proof.
  intros Hin Hfault. cbv zeta.
  assert (Hv : Js.includes validStatuses (Some s) = true)
    by (apply includes_In; eauto).
  unfold updateOrderStatus. rewrite Hv. cbn [negb].
  destruct w as [ds fs cs]. cbn [orders faults] in Hfault.
  destruct Hfault as [[fs' ->]|(fs' & d & -> & Hb)].
  - run. split; reflexivity.
  - destruct (by_id_some _ _ _ Hb) as [rest Hf]. run. cbn [orders] in Hf.
    rewrite Hf. run. split; reflexivity.
Qed.

Lemma update_store_errors_go_to_next_witness :
  let o := Sample.order "o1" "pending" "2025-12-31T00:00:00.000Z" in
  let r := updateOrderStatus Sample.env1 "o1" (Some "processing")
             (Sample.world [o] [None; Some Sample.outage]) in
  fst r = Ok (Next Sample.outage) /\ orders (snd r) = [o].
Proof.
  cbv zeta.
  apply (update_store_errors_go_to_next Sample.env1 "o1" "processing"
           (Sample.world [Sample.order "o1" "pending" "2025-12-31T00:00:00.000Z"]
              [None; Some Sample.outage]) Sample.outage).
  - simpl. tauto.
  - right. exists [], (Sample.order "o1" "pending" "2025-12-31T00:00:00.000Z").
    split; reflexivity.
Defined.

End UpdateFailures.

(** ** Orders and their documents *)

Section OrderDocuments.

(** X9: every order the constructor builds has a truthy id, status,
    [createdAt] and [updatedAt] and no empty session id; writing it as a
    document and reading it back gives the same order, at any later time;
    and reading a document twice changes nothing the first reading did not:
    the defaults of the constructor are applied at most once. *)
Theorem order_document_round_trip env env' :
  (forall d, persisted (Order.new env d)) /\
  (forall d, Order.fromDocument env' (Order.toDocument (Order.new env d))
             = Order.new env d) /\
  (forall doc, Order.fromDocument env' (Order.toDocument (Order.fromDocument env doc))
               = Order.fromDocument env doc).
Proof.
  split; [|split].
  - apply new_persisted.
  - intros d. rewrite toDocument_id.
    apply fromDocument_persisted, new_persisted.
  - intros doc. rewrite toDocument_id.
    apply fromDocument_persisted. unfold Order.fromDocument. apply new_persisted.
Qed.

End OrderDocuments.

(** ** Paging through a listing *)

Section Paging.

Lemma firstn_add {A} (a b : nat) (s : list A) :
  firstn (a + b) s = (firstn a s ++ firstn b (skipn a s))%list.
Proof.
  revert s. induction a as [|a IH]; intros s; simpl; [reflexivity|].
  destruct s as [|x s]; simpl; [now destruct b|]. now rewrite IH.
Qed.

Lemma page_slice_nat m k l :
  page_slice m (Z.of_nat (S k)) (Z.of_nat l)
  = firstn l (skipn (k * l) (ByCreatedAt.sort m)).
Proof.
  unfold page_slice. rewrite Nat2Z.id.
  replace (Z.to_nat ((Z.of_nat (S k) - 1) * Z.of_nat l)) with (k * l)%nat by nia.
  reflexivity.
Qed.

Lemma pages_upto_firstn m l n :
  pages_upto m l n = firstn (n * l) (ByCreatedAt.sort m).
Proof.
  unfold pages_upto. induction n as [|n IH].
  - reflexivity.
  - rewrite seq_S, map_app, concat_app, IH. cbn [map concat plus].
    rewrite app_nil_r, page_slice_nat.
    replace (S n * l)%nat with (n * l + l)%nat by lia.
    now rewrite firstn_add.
Qed.

(** X10: paging through a listing loses and repeats nothing: pages 1 to [n]
    of size [l], one after the other, are the first [n * l] matching
    documents latest first, so once [n * l] reaches the number of matching
    documents the pages together are a permutation of them; and a page that
    starts at or after the end is empty.  The pages are what the
    administrative listing reads when the container answers. *)
Theorem pages_tile env w st se l n :
  let m := filter (OrderController.matches (list_query 1 10 st se)) (orders w) in
  (calm 1 w = true ->
   forall k,
     fst (OrderController.getAllOrders env
            (list_query (Z.of_nat (S k)) (Z.of_nat l) st se) w)
     = Ok (listing env (page_slice m (Z.of_nat (S k)) (Z.of_nat l))
             (Z.of_nat (S k)) (Z.of_nat l))) /\
  pages_upto m l n = firstn (n * l) (ByCreatedAt.sort m) /\
  ((length m <= n * l)%nat -> Permutation m (pages_upto m l n)) /\
  (forall k, (length m <= k * l)%nat ->
             page_slice m (Z.of_nat (S k)) (Z.of_nat l) = []).
Proof.
  cbv zeta. split; [|split; [|split]].
  - intros Hc k. unfold OrderController.getAllOrders.
    cbn [list_query q_page q_limit Js.or_default].
    assert (Hp : (1 <= Z.of_nat (S k))%Z) by lia.
    assert (Hl : (0 <= Z.of_nat l)%Z) by lia.
    exact (f_equal fst (listing_answered env _ _ _ w Hc Hp Hl)).
  - apply pages_upto_firstn.
  - intros Hlen. rewrite pages_upto_firstn, firstn_all2.
    + apply ByCreatedAt.Permuted_sort.
    + now rewrite <- (Permutation_length (ByCreatedAt.Permuted_sort _)).
  - intros k Hlen. rewrite page_slice_nat, skipn_all2; [now destruct l|].
    now rewrite <- (Permutation_length (ByCreatedAt.Permuted_sort _)).
Qed.

Lemma pages_tile_witness :
  Permutation Sample.twenty_five (pages_upto Sample.twenty_five 10 3) /\
  page_slice Sample.twenty_five 4 10 = [].
Proof.
  pose proof (pages_tile Sample.env1 (Sample.world Sample.twenty_five []) None None
                10 3) as H.
  cbv zeta in H. destruct H as (_ & _ & Hperm & Hend).
  split.
  - apply Hperm. vm_compute. lia.
  - apply (Hend 3%nat). vm_compute. lia.
Defined.

End Paging.

Section PersistedWitness.

Lemma documents_stay_persisted_witness :
  Forall persisted
    (orders (snd (ShoppingController.createCheckoutSession Sample.env1 "u1"
                    (Sample.cart [Sample.mug])
                    (Sample.world [Sample.order "o1" "pending" "2025-12-31T00:00:00.000Z"] [])))).
Proof.
  apply (documents_stay_persisted Sample.env1
           (Sample.world [Sample.order "o1" "pending" "2025-12-31T00:00:00.000Z"] [])).
  - intros p sid url H. injection H as <- _. reflexivity.
  - repeat constructor. discriminate.
Defined.

End PersistedWitness.

(** ** The error middleware *)

Section ErrorMiddleware.

Import ErrorHandler.

Lemma prefix_app a b : String.prefix a (a ++ b) = true.
Proof.
  induction a as [|c a IH]; simpl; [now destruct b|].
  destruct (Ascii.ascii_dec c c); [assumption|congruence].
Qed.

Lemma contains_of_prefix a h : String.prefix a h = true -> Js.contains a h = true.
Proof. destruct h; simpl; intros ->; reflexivity. Qed.

Lemma contains_app a b : Js.contains a (a ++ b) = true.
Proof. apply contains_of_prefix, prefix_app. Qed.

(** X11: whatever error a handler passes to [next], the middleware answers
    with one of the codes 400, 401, 404, 409 and 500, never with a success;
    and unless the error is a [CastError] or carries the code 11000, a
    non-empty message of the error goes to the client as it is, in
    [details]. *)
Theorem errorHandler_reply env err url m :
  let r := errorHandler env err url m in
  In (statusCode r) [400; 401; 404; 409; 500]%nat /\
  (Js.err_name err <> "CastError" -> Js.err_code err <> Some (11 * 1000)%nat ->
   Js.truthy (Js.err_message err) = true ->
   details r = Js.err_message err).
Proof.
  cbv zeta. unfold errorHandler. split.
  - destruct (String.eqb (Js.err_name err) "ValidationError"); [simpl; tauto|].
    destruct (String.eqb (Js.err_name err) "CastError"); [simpl; tauto|].
    destruct (match Js.err_code err with Some c => _ | None => _ end); [simpl; tauto|].
    destruct (mentions err "not found"); [simpl; tauto|].
    destruct (mentions err "Validation failed"); [simpl; tauto|].
    destruct (mentions err "already exists"); [simpl; tauto|].
    destruct (mentions err "Invalid token"); [simpl; tauto|].
    destruct (Js.truthy (Js.err_message err)); simpl; tauto.
  - intros Hname Hcode Hmsg.
    destruct (String.eqb (Js.err_name err) "ValidationError"); [reflexivity|].
    destruct (String.eqb (Js.err_name err) "CastError") eqn:Ecast;
      [apply String.eqb_eq in Ecast; contradiction|].
    destruct (Js.err_code err) as [c|].
    + destruct (Nat.eqb c (11 * 1000)) eqn:Ec;
        [apply Nat.eqb_eq in Ec; subst; now elim Hcode|].
      destruct (mentions err "not found"); [reflexivity|].
      destruct (mentions err "Validation failed"); [reflexivity|].
      destruct (mentions err "already exists"); [reflexivity|].
      destruct (mentions err "Invalid token"); [reflexivity|].
      now rewrite Hmsg.
    + destruct (mentions err "not found"); [reflexivity|].
      destruct (mentions err "Validation failed"); [reflexivity|].
      destruct (mentions err "already exists"); [reflexivity|].
      destruct (mentions err "Invalid token"); [reflexivity|].
      now rewrite Hmsg.
Qed.

Lemma errorHandler_reply_witness :
  details (errorHandler Sample.env1 Sample.outage "/api/admin/orders" "GET")
  = "Service Unavailable".
Proof.
  apply (errorHandler_reply Sample.env1 Sample.outage "/api/admin/orders" "GET");
    [discriminate|discriminate|reflexivity].
Defined.

End ErrorMiddleware.

(** ** Products *)

Section Products.

Import Product.

Lemma name_errors_cases p :
  name_errors p = [] \/
  name_errors p = ["Product name is required"] \/
  name_errors p = ["Product name must be at least 2 characters long"].
Proof.
  unfold name_errors. destruct (name p) as [n|]; auto.
  destruct (Js.truthy n); auto. destruct (String.length n <? 2)%nat; auto.
Qed.

Lemma description_errors_cases p :
  description_errors p = [] \/
  description_errors p = ["Product description is required"] \/
  description_errors p = ["Product description must be at least 10 characters long"].
Proof.
  unfold description_errors. destruct (description p) as [n|]; auto.
  destruct (Js.truthy n); auto. destruct (String.length n <? 10)%nat; auto.
Qed.

Lemma price_errors_cases p :
  price_errors p = [] \/
  price_errors p = ["Product price is required"] \/
  price_errors p = ["Product price must be a positive number"].
Proof.
  unfold price_errors. destruct (negb (truthy (price p))); auto.
  destruct (price p) as [| |b|q|s]; auto. destruct (Qle_bool q 0); auto.
Qed.

Lemma quantity_errors_cases p :
  quantity_errors p = [] \/
  quantity_errors p = ["Product quantity must be a non-negative number"].
Proof.
  unfold quantity_errors. destruct (quantity p) as [| |b|q|s]; auto.
  destruct (Qle_bool 0 q); auto.
Qed.

Lemma category_errors_cases p :
  category_errors p = [] \/ category_errors p = ["Product category is required"].
Proof. unfold category_errors. destruct (Js.truthy_opt (category p)); auto. Qed.

Lemma published_errors_cases p :
  published_errors p = [] \/ published_errors p = ["Published must be a boolean value"].
Proof. unfold published_errors. destruct (is_boolean (published p)); auto. Qed.

Lemma featured_errors_cases p :
  featured_errors p = [] \/ featured_errors p = ["Featured must be a boolean value"].
Proof. unfold featured_errors. destruct (is_boolean (featured p)); auto. Qed.

(** No message of [validate], however many are joined, reads ["not found"]. *)
Lemma validate_never_mentions_not_found p :
  Js.contains "not found"
    ("Validation failed: " ++ Js.join ", " (validate p)) = false.
Proof.
  unfold validate.
  destruct (name_errors_cases p) as [->|[->| ->]];
    destruct (description_errors_cases p) as [->|[->| ->]];
    destruct (price_errors_cases p) as [->|[->| ->]];
    destruct (quantity_errors_cases p) as [->| ->];
    destruct (category_errors_cases p) as [->| ->];
    destruct (published_errors_cases p) as [->| ->];
    destruct (featured_errors_cases p) as [->| ->];
    vm_compute; reflexivity.
Qed.

(** X12: the error [createProduct] rejects an invalid product with, whose
    message is ["Validation failed: "] followed by the joined messages of
    [validate], is answered by the middleware as the client error 400
    ["Validation Error"], with that message in [details]: no combination of
    the messages trips an earlier rule of the middleware. *)
Theorem product_validation_is_400 env p url m :
  let err := Js.Error ("Validation failed: " ++ Js.join ", " (validate p)) in
  let r := ErrorHandler.errorHandler env err url m in
  ErrorHandler.statusCode r = 400%nat /\
  ErrorHandler.message r = "Validation Error" /\
  ErrorHandler.details r = Js.err_message err.
Proof.
  cbv zeta. unfold ErrorHandler.errorHandler, ErrorHandler.mentions.
  cbn [Js.Error Js.err_name Js.err_code Js.err_message].
  change (String.eqb "Error" "ValidationError") with false.
  change (String.eqb "Error" "CastError") with false.
  cbv iota.
  assert (Hvf : Js.contains "Validation failed"
                  ("Validation failed: " ++ Js.join ", " (validate p)) = true)
    by exact (contains_app "Validation failed" (": " ++ Js.join ", " (validate p))).
  rewrite validate_never_mentions_not_found, andb_false_r, Hvf.
  change (Js.truthy ("Validation failed: " ++ Js.join ", " (validate p))) with true.
  repeat split.
Qed.

End Products.

Section ProductImages.

Import Product.

Lemma existsb_eqb_In url imgs :
  existsb (String.eqb url) imgs = true <-> In url imgs.
Proof.
  rewrite existsb_exists. split.
  - intros (x & Hin & He). apply String.eqb_eq in He. now subst.
  - intros Hin. exists url. split; [assumption|apply String.eqb_refl].
Qed.

Lemma splice_first_absent url imgs :
  ~ In url imgs -> splice_first url imgs = None.
Proof.
  induction imgs as [|x rest IH]; simpl; [reflexivity|].
  intros H. destruct (String.eqb x url) eqn:E.
  - apply String.eqb_eq in E. tauto.
  - rewrite IH; [reflexivity|tauto].
Qed.

Lemma splice_first_present url imgs :
  In url imgs -> exists imgs', splice_first url imgs = Some imgs'.
Proof.
  induction imgs as [|x rest IH]; simpl; [tauto|].
  intros Hin. destruct (String.eqb x url) eqn:E; [eauto|].
  destruct Hin as [->|Hin]; [now rewrite String.eqb_refl in E|].
  destruct (IH Hin) as [r ->]. simpl. eauto.
Qed.

Lemma splice_first_snoc url imgs :
  ~ In url imgs -> splice_first url (imgs ++ [url]) = Some imgs.
Proof.
  induction imgs as [|x rest IH]; simpl.
  - now rewrite String.eqb_refl.
  - intros H. destruct (String.eqb x url) eqn:E.
    + apply String.eqb_eq in E. tauto.
    + rewrite IH; [reflexivity|tauto].
Qed.

Lemma splice_first_some url imgs imgs' :
  splice_first url imgs = Some imgs' ->
  (forall x, In x imgs' -> In x imgs) /\
  (NoDup imgs -> NoDup imgs' /\ ~ In url imgs').
Proof.
  revert imgs'. induction imgs as [|x rest IH]; simpl; [discriminate|].
  intros imgs'. destruct (String.eqb x url) eqn:E.
  - intros H. injection H as <-. apply String.eqb_eq in E. subst x. split.
    + auto.
    + intros Hn. inversion Hn; subst. auto.
  - destruct (splice_first url rest) as [r|]; [|discriminate].
    intros H. injection H as <-. destruct (IH r eq_refl) as [Hin Hnd]. split.
    + intros y [->|Hy]; simpl; auto.
    + intros Hn. inversion Hn as [|? ? Hx Hrest]; subst.
      destruct (Hnd Hrest) as [Hr Hu]. split.
      * constructor; [|assumption]. intros Hx'. apply Hx. now apply Hin.
      * intros [->|Hy]; [|tauto]. now rewrite String.eqb_refl in E.
Qed.

(** X13: the images of a product behave as a set kept in a list: after
    [addImage] the url is among the images; adding it a second time changes
    nothing, not even [updatedAt]; neither [addImage] nor [removeImage]
    brings a duplicate into a list that had none, and after [removeImage]
    the url is gone from such a list; removing a url that is not there
    leaves the product as it is, and removing one that was just added gives
    the old images back. *)
Theorem product_images env env' url p :
  In url (images (addImage env url p)) /\
  addImage env' url (addImage env url p) = addImage env url p /\
  (NoDup (images p) ->
   NoDup (images (addImage env url p)) /\
   NoDup (images (removeImage env url p)) /\
   ~ In url (images (removeImage env url p))) /\
  (~ In url (images p) ->
   removeImage env url p = p /\
   images (removeImage env' url (addImage env url p)) = images p).
Proof.
  unfold addImage, removeImage.
  destruct (existsb (String.eqb url) (images p)) eqn:Ex; cbn [negb].
  - assert (Hin : In url (images p)) by (now apply existsb_eqb_In).
    split; [assumption|]. split; [now rewrite Ex|]. split.
    + intros Hn. split; [assumption|].
      destruct (splice_first url (images p)) as [imgs|] eqn:Hs.
      * cbn [with_images images]. now apply (splice_first_some _ _ _ Hs).
      * destruct (splice_first_present _ _ Hin) as [imgs Hs']. congruence.
    + intros Hnot. contradiction.
  - assert (Hnot : ~ In url (images p)).
    { intros Hin. apply existsb_eqb_In in Hin. congruence. }
    cbn [with_images images]. split; [apply in_or_app; right; now left|]. split.
    + assert (Ex' : existsb (String.eqb url) (images p ++ [url]) = true).
      { apply existsb_eqb_In. apply in_or_app. right. now left. }
      now rewrite Ex'.
    + split.
      * intros Hn. split; [now apply NoDup_snoc|].
        rewrite (splice_first_absent _ _ Hnot). auto.
      * intros _. rewrite (splice_first_absent _ _ Hnot).
        rewrite (splice_first_snoc _ _ Hnot). split; reflexivity.
Qed.

End ProductImages.

Section ProductState.

Import Product.

Lemma product_images_witness :
  let p := new Sample.env1 "A1B2"
             (mkData None None (Some "Mug") (Some "A mug for tea") (VNum 5)
                (VNum 3) VUndefined VUndefined VUndefined (Some "kitchen")
                (Some ["a.png"]) None None) in
  images (removeImage Sample.env2 "b.png" (addImage Sample.env1 "b.png" p)) = ["a.png"] /\
  NoDup (images (addImage Sample.env1 "b.png" p)).
Proof.
  cbv zeta.
  pose proof (product_images Sample.env1 Sample.env2 "b.png"
                (new Sample.env1 "A1B2"
                   (mkData None None (Some "Mug") (Some "A mug for tea") (VNum 5)
                      (VNum 3) VUndefined VUndefined VUndefined (Some "kitchen")
                      (Some ["a.png"]) None None))) as (_ & _ & Hnd & Hback).
  split.
  - apply Hback. simpl. intros [H|[]]. discriminate H.
  - apply Hnd. repeat constructor. simpl. tauto.
Defined.

Lemma or_else_fixed (a : option string) (b c : string) :
  Js.truthy b = true -> Js.or_else (Some (Js.or_else a b)) c = Js.or_else a b.
Proof.
  intros Hb. destruct a as [s|]; simpl.
  - destruct (Js.truthy s) eqn:E; [now rewrite E|now rewrite Hb].
  - now rewrite Hb.
Qed.

(** X14: a product written as a document and read back is the product the
    constructor built, whenever it is read and whatever the random source
    gives by then: the generated id and SKU, the defaults of [quantity],
    [isActive], [published] and [featured] and both time stamps are fixed at
    construction. *)
Theorem product_document_round_trip env env' rnd rnd' d :
  fromDocument env' rnd' (toDocument (new env rnd d)) = new env rnd d.
Proof.
  unfold fromDocument, toDocument, new.
  cbn [id sku name description price quantity isActive published featured
       category images createdAt updatedAt d_id d_sku d_name d_description
       d_price d_quantity d_isActive d_published d_featured d_category
       d_images d_createdAt d_updatedAt Js.or_default].
  rewrite !or_else_fixed
    by (reflexivity || apply truthy_toISOString).
  f_equal.
  - unfold or_value.
    destruct (truthy (d_quantity d)) eqn:E; [now rewrite E|reflexivity].
  - now destruct (d_isActive d).
  - now destruct (d_published d).
  - now destruct (d_featured d).
Qed.



End ProductState.

(** ** Logged-out tokens *)

Section Tokens.

Import TokenService.

(** X17: the blacklist is a set of tokens: a token is blacklisted once it
    was added, adding it leaves every other token as it was and adding it
    again changes nothing; [cleanupBlacklist] leaves up to 10000 tokens
    alone and, beyond that, forgets every one of them, so that no token is
    blacklisted any more. *)
Theorem token_blacklist_laws token s :
  isTokenBlacklisted token (blacklistToken token s) = true /\
  (forall other, other <> token ->
     isTokenBlacklisted other (blacklistToken token s)
     = isTokenBlacklisted other s) /\
  blacklistToken token (blacklistToken token s) = blacklistToken token s /\
  (NoDup s -> NoDup (blacklistToken token s)) /\
  ((length s <= 10 * 1000)%nat -> cleanupBlacklist s = s) /\
  ((10 * 1000 < length s)%nat ->
   forall any, isTokenBlacklisted any (cleanupBlacklist s) = false).
Proof.
  assert (Hadd : isTokenBlacklisted token (blacklistToken token s) = true).
  { unfold blacklistToken.
    destruct (isTokenBlacklisted token s) eqn:E; [assumption|].
    unfold isTokenBlacklisted. rewrite existsb_app. simpl.
    now rewrite String.eqb_refl, orb_true_r. }
  split; [exact Hadd|]. split; [|split; [|split; [|split]]].
  - intros other Hne. unfold blacklistToken.
    destruct (isTokenBlacklisted token s); [reflexivity|].
    unfold isTokenBlacklisted. rewrite existsb_app. simpl.
    assert (E : String.eqb other token = false) by (now apply String.eqb_neq).
    now rewrite E, !orb_false_r.
  - unfold blacklistToken at 1. now rewrite Hadd.
  - intros Hn. unfold blacklistToken.
    destruct (isTokenBlacklisted token s) eqn:E; [assumption|].
    apply NoDup_snoc; [assumption|].
    intros Hin. apply existsb_eqb_In in Hin. unfold isTokenBlacklisted in E.
    congruence.
  - intros Hlen. unfold cleanupBlacklist.
    destruct (10 * 1000 <? length s)%nat eqn:E; [|reflexivity].
    apply Nat.ltb_lt in E. lia.
  - intros Hlen any. unfold cleanupBlacklist.
    apply Nat.ltb_lt in Hlen. now rewrite Hlen.
Qed.

Lemma token_blacklist_laws_witness :
  isTokenBlacklisted "t2" (blacklistToken "t1" ["t0"]) = false /\
  NoDup (blacklistToken "t1" ["t0"]) /\
  cleanupBlacklist ["t0"] = ["t0"].
Proof.
  pose proof (token_blacklist_laws "t1" ["t0"]) as (_ & Hother & _ & Hnd & Hkeep & _).
  split; [|split].
  - rewrite (Hother "t2"); [reflexivity|discriminate].
  - apply Hnd. repeat constructor. simpl. tauto.
  - apply Hkeep. simpl. lia.
Defined.

End Tokens.

(** ** Who gets past the authentication *)

Section Authentication.

Import Auth.

Lemma findById_docs env i w :
  Users.docs (snd (Users.findById env i w)) = Users.docs w.
Proof.
  unfold Users.findById. destruct (Users.faults w) as [|[e|] fs]; try reflexivity.
  destruct (match Js.err_code e with Some c => _ | None => _ end); reflexivity.
Qed.

Lemma findById_some env i w user w' :
  Users.findById env i w = (Ok (Some user), w') ->
  exists doc, In doc (Users.docs w) /\ User.id doc = i /\
              user = User.fromDocument env doc.
Proof.
  unfold Users.findById.
  assert (Hfilter : forall r,
            match filter (fun d => String.eqb (User.id d) i) (Users.docs w) with
            | doc :: _ => Some (User.fromDocument env doc)
            | [] => None
            end = Some r ->
            exists doc, In doc (Users.docs w) /\ User.id doc = i /\
                        r = User.fromDocument env doc).
  { intros r.
    destruct (filter (fun d => String.eqb (User.id d) i) (Users.docs w))
      as [|doc rest] eqn:Hf; [discriminate|].
    intros H. injection H as <-.
    assert (Hin : In doc (filter (fun d => String.eqb (User.id d) i) (Users.docs w)))
      by (rewrite Hf; now left).
    apply filter_In in Hin. destruct Hin as [Hin He].
    apply String.eqb_eq in He. eauto. }
  destruct (Users.faults w) as [|[e|] fs].
  - intros H. injection H as H _. now apply Hfilter.
  - destruct (match Js.err_code e with Some c => _ | None => _ end); discriminate.
  - intros H. injection H as H _. now apply Hfilter.
Qed.

Ltac refused :=
  cbn [fst snd authentication_failed]; intros;
  match goal with
  | H : Deny _ _ _ = Deny _ _ _ |- _ => injection H; intros; subst; reflexivity
  | H : Deny _ _ _ = Pass _ |- _ => discriminate H
  | H : Pass _ = Deny _ _ _ |- _ => discriminate H
  end.

(** What a passed authentication tells about the request. *)
Lemma authenticate_pass_inv env jwt bl auth w u :
  fst (authenticateToken env jwt bl auth w) = Pass u ->
  exists token decoded doc,
    bearer auth = Some token /\ Js.truthy token = true /\
    TokenService.isTokenBlacklisted token bl = false /\
    jwt token = Some decoded /\
    In doc (Users.docs w) /\ User.id doc = userId decoded /\
    u = Some (User.fromDocument env doc) /\
    Dyn.truthy (User.isActive (User.fromDocument env doc)) = true.
Proof.
  unfold authenticateToken.
  destruct (bearer auth) as [token|] eqn:Hb; cbn [Js.truthy_opt negb Js.or_default];
    [|discriminate].
  destruct (Js.truthy token) eqn:Ht; cbn [negb]; [|discriminate].
  destruct (TokenService.isTokenBlacklisted token bl) eqn:Hbl; [discriminate|].
  unfold verifyToken. destruct (jwt token) as [decoded|] eqn:Hj; [|discriminate].
  destruct (Users.findById env (userId decoded) w) as [[[user|]|e] w'] eqn:Hf;
    try discriminate.
  destruct (findById_some _ _ _ _ _ Hf) as (doc & Hin & Hid & ->).
  destruct (Dyn.truthy (User.isActive (User.fromDocument env doc))) eqn:Ha;
    cbn [negb fst]; [|discriminate].
  intros H. injection H as <-. exists token, decoded, doc. auto 10.
Qed.

(** A blacklisted token is refused before anything else is looked at. *)
Lemma blacklisted_is_refused env jwt bl auth w token :
  bearer auth = Some token -> Js.truthy token = true ->
  TokenService.isTokenBlacklisted token bl = true ->
  authenticateToken env jwt bl auth w
  = (Deny 401 "Token invalidated" "This token has been logged out", w).
Proof.
  intros Hb Ht Hbl. unfold authenticateToken. rewrite Hb.
  cbn [Js.truthy_opt negb Js.or_default]. now rewrite Ht, Hbl.
Qed.

Lemma logout_blacklists auth bl token :
  bearer auth = Some token -> Js.truthy token = true ->
  TokenService.isTokenBlacklisted token (AuthController.logout auth bl) = true.
Proof.
  intros Hb Ht. unfold AuthController.logout. rewrite Hb.
  cbn [Js.truthy_opt Js.or_default]. rewrite Ht.
  unfold TokenService.blacklistToken.
  destruct (TokenService.isTokenBlacklisted token bl) eqn:E; [assumption|].
  unfold TokenService.isTokenBlacklisted. rewrite existsb_app. simpl.
  now rewrite String.eqb_refl, orb_true_r.
Qed.

(** X18: [authenticateToken] lets a request pass only with a user on it, and
    only when the authorization header carries a non-empty second word that
    is not blacklisted and that [jwt.verify] accepts, a stored user has the
    id of the decoded payload, and that user is active; every refusal is a
    401; and the users are never written. *)
Theorem authenticate_passes_only_verified env jwt bl auth w :
  let r := authenticateToken env jwt bl auth w in
  Users.docs (snd r) = Users.docs w /\
  (forall code error message, fst r = Deny code error message -> code = 401%nat) /\
  (forall u, fst r = Pass u ->
     exists token decoded doc,
       bearer auth = Some token /\ Js.truthy token = true /\
       TokenService.isTokenBlacklisted token bl = false /\
       jwt token = Some decoded /\
       In doc (Users.docs w) /\ User.id doc = userId decoded /\
       u = Some (User.fromDocument env doc) /\
       Dyn.truthy (User.isActive (User.fromDocument env doc)) = true).
Proof.
  cbv zeta. split; [|split; [|apply authenticate_pass_inv]].
  - unfold authenticateToken.
    destruct (negb (Js.truthy_opt (bearer auth))); [reflexivity|].
    destruct (TokenService.isTokenBlacklisted _ bl); [reflexivity|].
    destruct (verifyToken jwt _) as [decoded|e]; [|reflexivity].
    pose proof (findById_docs env (userId decoded) w) as Hdocs.
    destruct (Users.findById env (userId decoded) w) as [[[user|]|e] w'];
      cbn [snd] in Hdocs; try assumption.
    destruct (negb (Dyn.truthy (User.isActive user))); assumption.
  - unfold authenticateToken.
    destruct (negb (Js.truthy_opt (bearer auth))); [refused|].
    destruct (TokenService.isTokenBlacklisted _ bl); [refused|].
    destruct (verifyToken jwt _) as [decoded|e]; [|refused].
    destruct (Users.findById env (userId decoded) w) as [[[user|]|e] w'];
      try refused.
    destruct (negb (Dyn.truthy (User.isActive user))); refused.
Qed.

Lemma authenticate_passes_only_verified_witness :
  fst (authenticateToken Sample.env1 (fun _ => None) [] (Some "Bearer abc")
         {| Users.docs := []; Users.faults := []; Users.console := [] |})
  = Deny 401 "Authentication failed" "Invalid or expired token".
Proof.
  pose proof (authenticate_passes_only_verified Sample.env1 (fun _ => None) []
                (Some "Bearer abc")
                {| Users.docs := []; Users.faults := []; Users.console := [] |})
    as (_ & Hdeny & _).
  pose proof (Hdeny 401%nat "Authentication failed" "Invalid or expired token" eq_refl).
  reflexivity.
Defined.

(** X19: after [logout] with an authorization header, no request with that
    header is authenticated: whatever [jwt.verify] and the users container
    say, the answer is a 401, and the users container is not even asked. *)
Theorem logout_locks_the_header env jwt bl auth w :
  let r := authenticateToken env jwt (AuthController.logout auth bl) auth w in
  snd r = w /\
  (fst r = Deny 401 "Access token required"
                "Please provide a valid authentication token" \/
   fst r = Deny 401 "Token invalidated" "This token has been logged out").
Proof.
  cbv zeta.
  destruct (bearer auth) as [token|] eqn:Hb.
  - destruct (Js.truthy token) eqn:Ht.
    + rewrite (blacklisted_is_refused _ _ _ _ _ token Hb Ht
                 (logout_blacklists auth bl token Hb Ht)).
      split; [reflexivity|right; reflexivity].
    + unfold authenticateToken. rewrite Hb. cbn [Js.truthy_opt negb].
      rewrite Ht. split; [reflexivity|left; reflexivity].
  - unfold authenticateToken. rewrite Hb. split; [reflexivity|left; reflexivity].
Qed.

(** X20: the administrative routes are reached only by a stored, active
    user whose role is [admin] and whose token verifies and is not
    blacklisted; an authenticated user with another role gets 403, every
    other refusal is a 401. *)
Theorem admin_gate_admits_only_admins env jwt bl auth w :
  let r := admin_gate env jwt bl auth w in
  (forall code error message, fst r = Deny code error message ->
     (code = 401%nat /\ fst (authenticateToken env jwt bl auth w) = fst r) \/
     (code = 403%nat /\
      exists user, fst (authenticateToken env jwt bl auth w) = Pass (Some user) /\
                   User.role user <> "admin")) /\
  (forall u, fst r = Pass u ->
     exists token decoded doc,
       bearer auth = Some token /\
       TokenService.isTokenBlacklisted token bl = false /\
       jwt token = Some decoded /\
       In doc (Users.docs w) /\ User.id doc = userId decoded /\
       u = Some (User.fromDocument env doc) /\
       User.role (User.fromDocument env doc) = "admin" /\
       Dyn.truthy (User.isActive (User.fromDocument env doc)) = true).
Proof.
  cbv zeta. unfold admin_gate.
  pose proof (authenticate_pass_inv env jwt bl auth w) as Hpass.
  assert (Hdeny : forall code error message,
            fst (authenticateToken env jwt bl auth w) = Deny code error message ->
            code = 401%nat).
  { unfold authenticateToken.
    destruct (negb (Js.truthy_opt (bearer auth))); [refused|].
    destruct (TokenService.isTokenBlacklisted _ bl); [refused|].
    destruct (verifyToken jwt _) as [decoded|e]; [|refused].
    destruct (Users.findById env (userId decoded) w) as [[[user|]|e] w'];
      try refused.
    destruct (negb (Dyn.truthy (User.isActive user))); refused. }
  destruct (authenticateToken env jwt bl auth w) as [[code error message|u] w'];
    cbn [fst] in *.
  - split; [|intros; congruence].
    intros c e m H. left. split; [|reflexivity].
    injection H as <- _ _. now apply (Hdeny _ error message).
  - destruct (Hpass u eq_refl)
      as (token & decoded & doc & Hb & _ & Hbl & Hj & Hin & Hid & -> & Ha).
    cbn [authorizeRole Js.includes existsb].
    destruct (String.eqb (User.role (User.fromDocument env doc)) "admin") eqn:Er;
      cbn [orb negb].
    + apply String.eqb_eq in Er. split; [intros; congruence|].
      intros u H. injection H as <-. exists token, decoded, doc. auto 10.
    + apply String.eqb_neq in Er. split; [|intros; congruence].
      intros c e m H. injection H as <- _ _. right. split; [reflexivity|].
      exists (User.fromDocument env doc). auto.
Qed.

(** X21: [optionalAuth] never refuses a request; it puts a user on the
    request only under the conditions of [authenticateToken] other than the
    blacklist, which it does not consult: whenever [authenticateToken] lets
    a request pass, [optionalAuth] puts the same user on it, and it still
    does after the token was logged out, when [authenticateToken] no longer
    lets the request pass. *)
Theorem optionalAuth_ignores_the_blacklist env jwt bl auth w u w' :
  (exists u0, fst (optionalAuth env jwt auth w) = Pass u0) /\
  (authenticateToken env jwt bl auth w = (Pass u, w') ->
   optionalAuth env jwt auth w = (Pass u, w') /\
   fst (authenticateToken env jwt (AuthController.logout auth bl) auth w)
   <> Pass u).
Proof.
  split.
  - unfold optionalAuth.
    destruct (Js.truthy_opt (bearer auth)); [|eexists; reflexivity].
    destruct (verifyToken jwt _) as [decoded|e]; [|eexists; reflexivity].
    destruct (Users.findById env (userId decoded) w) as [[[user|]|e] w1];
      try (eexists; reflexivity).
    destruct (Dyn.truthy (User.isActive user)); eexists; reflexivity.
  - intros H. split.
    + revert H. unfold authenticateToken, optionalAuth.
      destruct (Js.truthy_opt (bearer auth)); cbn [negb]; [|discriminate].
      destruct (TokenService.isTokenBlacklisted _ bl); [discriminate|].
      destruct (verifyToken jwt _) as [decoded|e]; [|discriminate].
      destruct (Users.findById env (userId decoded) w) as [[[user|]|e] w1];
        try discriminate.
      destruct (Dyn.truthy (User.isActive user)); cbn [negb];
        [auto|discriminate].
    + destruct (authenticate_pass_inv env jwt bl auth w u)
        as (token & _ & _ & Hb & Ht & _); [now rewrite H|].
      rewrite (blacklisted_is_refused _ _ _ _ _ token Hb Ht
                 (logout_blacklists auth bl token Hb Ht)).
      discriminate.
Qed.

End Authentication.

(** ** The address of a user *)

Section UserAddress.

Import Users.

Lemma or_else_empty s : Js.or_else (Some s) "" = s.
Proof. now destruct s. Qed.

Lemma trim_truthy_truthy s : Js.trim_truthy s = true -> Js.truthy s = true.
Proof. destruct s; [discriminate|reflexivity]. Qed.

Lemma blank_false s :
  User.blank s = false ->
  exists x, s = Some x /\ Js.truthy x = true /\ Js.trim_truthy x = true.
Proof.
  unfold User.blank. intros H. apply orb_false_iff in H. destruct H as [H1 H2].
  apply negb_false_iff in H1, H2. destruct s as [x|]; [|discriminate].
  cbn in *. eauto.
Qed.

(** What [validateAddress] accepts. *)
Lemma validateAddress_nil a :
  User.validateAddress a = [] <->
  User.blank (User.a_street a) = false /\ User.blank (User.a_city a) = false /\
  User.blank (User.a_country a) = false /\
  (Js.truthy_opt (User.a_postCode a) = true ->
   Js.trim_truthy (Js.or_default (User.a_postCode a) "") = true).
Proof.
  unfold User.validateAddress.
  destruct (User.blank (User.a_street a));
    destruct (User.blank (User.a_city a));
    destruct (User.blank (User.a_country a));
    destruct (Js.truthy_opt (User.a_postCode a));
    destruct (Js.trim_truthy (Js.or_default (User.a_postCode a) ""));
    cbn; split; intros H; try discriminate H;
    try (destruct H as (H1 & H2 & H3 & H4); try discriminate;
         try (specialize (H4 eq_refl); discriminate));
    auto.
Qed.

Lemma findById_first env i w user w' :
  findById env i w = (Ok (Some user), w') ->
  exists doc rest,
    filter (fun d => String.eqb (User.id d) i) (docs w) = doc :: rest /\
    user = User.fromDocument env doc /\
    docs w' = docs w /\ faults w' = tl (faults w) /\ console w' = console w.
Proof.
  unfold findById. destruct (faults w) as [|[e|] fs] eqn:Hfa.
  - destruct (filter _ (docs w)) as [|doc rest]; [discriminate|].
    intros H. injection H as <- <-. exists doc, rest. auto.
  - destruct (match Js.err_code e with Some c => _ | None => _ end); discriminate.
  - destruct (filter _ (docs w)) as [|doc rest]; [discriminate|].
    intros H. injection H as <- <-. exists doc, rest. auto.
Qed.

Lemma replace_item_first_user i doc' ds doc rest :
  filter (fun d => String.eqb (User.id d) i) ds = doc :: rest ->
  exists ds',
    replace_item i (User.email doc) doc' ds = Some ds' /\
    (User.id doc' = i ->
     filter (fun d => String.eqb (User.id d) i) ds' = doc' :: rest).
Proof.
  revert doc rest. induction ds as [|x xs IH]; simpl; [discriminate|].
  intros doc rest. unfold is_item.
  destruct (String.eqb (User.id x) i) eqn:E; simpl.
  - intros H. injection H as -> <-. rewrite key_eqb_refl.
    eexists. split; [reflexivity|]. intros Hid. simpl.
    now rewrite Hid, String.eqb_refl.
  - intros H. destruct (IH _ _ H) as (ds' & -> & Hf). simpl.
    eexists. split; [reflexivity|]. intros Hid. simpl. rewrite E. auto.
Qed.

Lemma replace_docs_on_throw i pk doc w e w' :
  replace i pk doc w = (Throw e, w') -> docs w' = docs w.
Proof.
  unfold replace. destruct (faults w) as [|[e'|] fs].
  - destruct (replace_item i pk doc (docs w)); [discriminate|].
    intros H. now injection H as _ <-.
  - intros H. now injection H as _ <-.
  - destruct (replace_item i pk doc (docs w)); [discriminate|].
    intros H. now injection H as _ <-.
Qed.

Lemma findById_docs_any env i w :
  docs (snd (findById env i w)) = docs w.
Proof.
  unfold findById. destruct (faults w) as [|[e|] fs]; try reflexivity.
  destruct (match Js.err_code e with Some c => _ | None => _ end); reflexivity.
Qed.

Lemma logging_docs {A} label (r : Result A * world) :
  docs (snd (logging label r)) = docs (snd r).
Proof. destruct r as [[x|e] w]; reflexivity. Qed.

Lemma logging_ok {A} label (r : Result A * world) x w :
  logging label r = (Ok x, w) -> r = (Ok x, w).
Proof. destruct r as [[y|e] w0]; simpl; [auto|discriminate]. Qed.

End UserAddress.

Section UserAddressService.

Import Users.

Lemma filter_head_id i ds (doc : User.t) rest :
  filter (fun d => String.eqb (User.id d) i) ds = doc :: rest -> User.id doc = i.
Proof.
  intros H.
  assert (Hin : In doc (filter (fun d => String.eqb (User.id d) i) ds))
    by (rewrite H; now left).
  apply filter_In in Hin. now apply String.eqb_eq.
Qed.

Lemma truthy_false_empty s : Js.truthy s = false -> s = "".
Proof. destruct s; [reflexivity|discriminate]. Qed.

Lemma has_address_false u :
  has_address u = false ->
  User.street (User.addr u) = "" /\ User.city (User.addr u) = "" /\
  User.postCode (User.addr u) = "" /\ User.country (User.addr u) = "".
Proof.
  unfold has_address. intros H.
  repeat (apply orb_false_iff in H; destruct H as [H ?]).
  auto using truthy_false_empty.
Qed.

Lemma toDocument_addr u : User.addr (User.toDocument u) = User.addr u.
Proof.
  destruct u as [? ? ? ? ? ? [s c p co] ? ? ? ? ?].
  cbv [User.toDocument User.addr User.street User.city User.postCode User.country].
  now rewrite !or_else_empty.
Qed.

Lemma fromDocument_addr env doc :
  User.addr (User.fromDocument env doc) = User.addr doc.
Proof.
  destruct doc as [? ? ? ? ? ? [s c p co] ? ? ? ? ?].
  cbv [User.fromDocument User.new User.field_or_empty User.addr User.street
       User.city User.postCode User.country User.d_address User.a_street
       User.a_city User.a_postCode User.a_country].
  now rewrite !or_else_empty.
Qed.

(** What a successful write of an address went through; [validated] is what
    the service gave [validateAddress], if anything. *)
Lemma address_write_inv env userId a w1 (user : User.t) doc rest r w' :
  filter (fun d => String.eqb (User.id d) userId) (docs w1) = doc :: rest ->
  user = User.fromDocument env doc ->
  Js.truthy userId = true ->
  match replace userId (User.email (User.updateAddress env a user))
          (User.toDocument (User.updateAddress env a user)) w1 with
  | (Ok resource, w2) =>
      (Ok (User.fromDocument env resource, User.addr (User.updateAddress env a user)), w2)
  | (Throw e, w2) => (Throw e, w2)
  end = (r, w') ->
  (forall e, r = Throw e -> docs w' = docs w1) /\
  (forall u address, r = Ok (u, address) ->
     address = User.addr (User.updateAddress env a user) /\
     User.addr u = address /\
     exists stored,
       filter (fun d => String.eqb (User.id d) userId) (docs w') = stored :: rest /\
       User.addr stored = address /\ faults w' = tl (faults w1)).
Proof.
  intros Hf -> Ht.
  destruct (replace_item_first_user userId
              (User.toDocument (User.updateAddress env a (User.fromDocument env doc)))
              (docs w1) doc rest Hf) as (ds' & Hrep & Hfilter).
  assert (Hid : User.id (User.toDocument
                           (User.updateAddress env a (User.fromDocument env doc)))
                = userId).
  { cbn. rewrite (filter_head_id _ _ _ _ Hf). now rewrite Ht. }
  specialize (Hfilter Hid).
  change (User.email (User.updateAddress env a (User.fromDocument env doc)))
    with (User.email doc).
  destruct (replace userId _ _ w1) as [[resource|e] w2] eqn:Hr; intros H;
    injection H as <- <-.
  - split; [discriminate|]. intros u address H. injection H as <- <-.
    unfold replace in Hr.
    destruct (faults w1) as [|[e|] fs] eqn:Hfa; try discriminate Hr;
      rewrite Hrep in Hr; injection Hr as <- <-;
      (split; [reflexivity|]); (split; [now rewrite fromDocument_addr, toDocument_addr|]);
      eexists; cbn [docs faults]; (split; [exact Hfilter|]);
      (split; [apply toDocument_addr|reflexivity]).
  - split; [|discriminate]. intros e0 _.
    apply (replace_docs_on_throw _ _ _ _ _ _ Hr).
Qed.

(** X22: [createAddress] gives a user an address once: it resolves only for
    a stored user whose four address properties are all empty and for data
    that pass [validateAddress]; the address it returns and stores then has
    the given street, city and country, none of them blank; a rejection
    leaves the users as they were; and after it resolved, every further
    [createAddress] for that user that reaches the container is rejected
    with ["Address already exists"]. *)
Theorem createAddress_once env env2 userId a a2 w r w' :
  Js.truthy userId = true ->
  createAddress env userId a w = (r, w') ->
  (forall e, r = Throw e -> docs w' = docs w) /\
  (forall u address, r = Ok (u, address) ->
     User.validateAddress a = [] /\
     User.a_street a = Some (User.street address) /\
     User.a_city a = Some (User.city address) /\
     User.a_country a = Some (User.country address) /\
     User.postCode address = Js.or_default (User.a_postCode a) "" /\
     Js.trim_truthy (User.street address) = true /\
     Js.trim_truthy (User.city address) = true /\
     Js.trim_truthy (User.country address) = true /\
     (exists doc rest,
        filter (fun d => String.eqb (User.id d) userId) (docs w) = doc :: rest /\
        has_address (User.fromDocument env doc) = false) /\
     (exists stored rest,
        filter (fun d => String.eqb (User.id d) userId) (docs w') = stored :: rest /\
        User.addr stored = address) /\
     ((forall e fs, faults w' <> Some e :: fs) ->
      fst (createAddress env2 userId a2 w')
      = Throw (Js.Error "Address already exists"))).
Proof.
  intros Ht. unfold createAddress at 1.
  pose proof (findById_docs_any env userId w) as Hdocs.
  destruct (findById env userId w) as [[[user|]|e] w1] eqn:Hfind; cbn [snd] in Hdocs.
  - destruct (findById_first _ _ _ _ _ Hfind) as (doc & rest & Hf & Hu & _ & Hfa & _).
    destruct (has_address user) eqn:Hhas.
    { cbn. intros H. injection H as <- <-. split; [intros; assumption|discriminate]. }
    destruct (User.validateAddress a) as [|m ms] eqn:Hv; cbn [length Nat.ltb Nat.leb].
    2:{ cbn. intros H. injection H as <- <-. split; [intros; assumption|discriminate]. }
    rewrite <- Hdocs in Hf.
    intros H.
    destruct (match replace userId _ _ w1 with
              | (Ok resource, w2) => _ | (Throw e, w2) => _ end)
      as [r0 w0] eqn:Hw.
    destruct (address_write_inv env userId a w1 user doc rest r0 w0 Hf Hu Ht Hw)
      as [Hthrow Hok].
    destruct r0 as [[u0 address0]|e0]; cbn in H; injection H as <- <-.
    + split; [discriminate|]. intros u address H. injection H as <- <-.
      destruct (Hok u0 address0 eq_refl) as (Ha & _ & stored & Hst & Haddr & _).
      pose proof Hv as Hv'. apply validateAddress_nil in Hv'.
      destruct Hv' as (Hs & Hc & Hco & _).
      apply blank_false in Hs, Hc, Hco.
      destruct Hs as (s & Hs & Hst1 & Hst2). destruct Hc as (c & Hc & Hc1 & Hc2).
      destruct Hco as (co & Hco & Hco1 & Hco2).
      destruct (has_address_false _ Hhas) as (_ & _ & Hpc & _).
      assert (Estreet : User.street address0 = s)
        by (rewrite Ha; cbn [User.updateAddress User.addr User.street];
            now rewrite Hs).
      assert (Ecity : User.city address0 = c)
        by (rewrite Ha; cbn [User.updateAddress User.addr User.city];
            now rewrite Hc).
      assert (Ecountry : User.country address0 = co)
        by (rewrite Ha; cbn [User.updateAddress User.addr User.country];
            now rewrite Hco).
      assert (Epost : User.postCode address0 = Js.or_default (User.a_postCode a) "")
        by (rewrite Ha; cbn [User.updateAddress User.addr User.postCode];
            now rewrite Hpc).
      rewrite Estreet, Ecity, Ecountry.
      split; [reflexivity|]. do 3 (split; [assumption|]).
      split; [exact Epost|]. do 3 (split; [assumption|]).
      split; [exists doc, rest; rewrite <- Hdocs; subst user; auto|].
      split; [exists stored, rest; auto|].
      intros Hcalm.
      assert (Hh : has_address (User.fromDocument env2 stored) = true)
        by (unfold has_address; rewrite fromDocument_addr, Haddr, Estreet, Hst1;
            reflexivity).
      unfold createAddress, findById.
      destruct (faults w0) as [|[e|] fs] eqn:Hfw;
        [|now elim (Hcalm e fs)|]; rewrite Hst, Hh; reflexivity.
    + split; [|discriminate]. intros e _. rewrite (Hthrow e0 eq_refl). assumption.
  - cbn. intros H. injection H as <- <-. split; [intros; assumption|discriminate].
  - cbn. intros H. injection H as <- <-. split; [intros; assumption|discriminate].
Qed.

End UserAddressService.

Section UserAddressUpdate.

Import Users.

Lemma or_default_or_else (a : option string) b :
  a <> Some "" -> Js.or_default a b = Js.or_else a b.
Proof.
  destruct a as [s|]; [|reflexivity]. destruct s; [now intros H; elim H|reflexivity].
Qed.

(** X23: [updateAddress] stores, for a stored user, every address property
    that is given, an empty string included, and keeps the others; a
    rejection leaves the users as they were.  When some property is given,
    it resolves only if the given properties, completed by the old ones
    where a given one is missing or empty, pass [validateAddress]; so the
    stored street, city and country are not blank whenever no given
    property is an empty string. *)
Theorem updateAddress_stores_what_is_given env userId a w r w' :
  Js.truthy userId = true ->
  updateAddress env userId a w = (r, w') ->
  (forall e, r = Throw e -> docs w' = docs w) /\
  (forall u address, r = Ok (u, address) ->
     exists doc rest,
       filter (fun d => String.eqb (User.id d) userId) (docs w) = doc :: rest /\
       User.street address
       = Js.or_default (User.a_street a) (User.street (User.addr doc)) /\
       User.city address
       = Js.or_default (User.a_city a) (User.city (User.addr doc)) /\
       User.postCode address
       = Js.or_default (User.a_postCode a) (User.postCode (User.addr doc)) /\
       User.country address
       = Js.or_default (User.a_country a) (User.country (User.addr doc)) /\
       (gives_something a = true ->
        User.validateAddress (addressToValidate a (User.fromDocument env doc)) = []) /\
       (exists stored,
          filter (fun d => String.eqb (User.id d) userId) (docs w') = stored :: rest /\
          User.addr stored = address) /\
       (gives_something a = true ->
        User.a_street a <> Some "" -> User.a_city a <> Some "" ->
        User.a_country a <> Some "" ->
        Js.trim_truthy (User.street address) = true /\
        Js.trim_truthy (User.city address) = true /\
        Js.trim_truthy (User.country address) = true)).
Proof.
  intros Ht. unfold updateAddress.
  pose proof (findById_docs_any env userId w) as Hdocs.
  destruct (findById env userId w) as [[[user|]|e] w1] eqn:Hfind; cbn [snd] in Hdocs.
  - destruct (findById_first _ _ _ _ _ Hfind) as (doc & rest & Hf & Hu & _ & _ & _).
    destruct (if gives_something a
              then User.validateAddress (addressToValidate a user) else [])
      as [|m ms] eqn:Hv; cbn [length Nat.ltb Nat.leb].
    2:{ cbn. intros H. injection H as <- <-. split; [intros; assumption|discriminate]. }
    rewrite <- Hdocs in Hf.
    intros H.
    destruct (match replace userId _ _ w1 with
              | (Ok resource, w2) => _ | (Throw e, w2) => _ end)
      as [r0 w0] eqn:Hw.
    destruct (address_write_inv env userId a w1 user doc rest r0 w0 Hf Hu Ht Hw)
      as [Hthrow Hok].
    destruct r0 as [[u0 address0]|e0]; cbn in H; injection H as <- <-.
    + split; [discriminate|]. intros u address H. injection H as <- <-.
      destruct (Hok u0 address0 eq_refl) as (Ha & _ & stored & Hst & Haddr & _).
      assert (Hold : User.addr user = User.addr doc)
        by (rewrite Hu; apply fromDocument_addr).
      assert (Estreet : User.street address0
                        = Js.or_default (User.a_street a) (User.street (User.addr doc)))
        by (rewrite Ha, <- Hold; reflexivity).
      assert (Ecity : User.city address0
                      = Js.or_default (User.a_city a) (User.city (User.addr doc)))
        by (rewrite Ha, <- Hold; reflexivity).
      assert (Epost : User.postCode address0
                      = Js.or_default (User.a_postCode a) (User.postCode (User.addr doc)))
        by (rewrite Ha, <- Hold; reflexivity).
      assert (Ecountry : User.country address0
                         = Js.or_default (User.a_country a) (User.country (User.addr doc)))
        by (rewrite Ha, <- Hold; reflexivity).
      exists doc, rest. rewrite <- Hdocs.
      split; [assumption|]. do 4 (split; [assumption|]).
      assert (Hval : gives_something a = true ->
                     User.validateAddress (addressToValidate a user) = [])
        by (intros Hg; now rewrite Hg in Hv).
      split; [now rewrite <- Hu|]. split; [eauto|].
      intros Hg Hs Hc Hco. specialize (Hval Hg).
      apply validateAddress_nil in Hval. destruct Hval as (Bs & Bc & Bco & _).
      apply blank_false in Bs, Bc, Bco.
      destruct Bs as (xs & Bs & _ & Ts). destruct Bc as (xc & Bc & _ & Tc).
      destruct Bco as (xco & Bco & _ & Tco).
      cbn [addressToValidate User.a_street User.a_city User.a_country] in Bs, Bc, Bco.
      injection Bs as Bs. injection Bc as Bc. injection Bco as Bco.
      rewrite Estreet, Ecity, Ecountry, <- Hold.
      rewrite !or_default_or_else by assumption.
      rewrite Bs, Bc, Bco. auto.
    + split; [|discriminate]. intros e _. rewrite (Hthrow e0 eq_refl). assumption.
  - cbn. intros H. injection H as <- <-. split; [intros; assumption|discriminate].
  - cbn. intros H. injection H as <- <-. split; [intros; assumption|discriminate].
Qed.

End UserAddressUpdate.

Section AuthWitnesses.

Import Auth.

Lemma admin_gate_admits_only_admins_witness :
  (exists doc, In doc (Users.docs SampleUsers.world) /\
               User.role (User.fromDocument Sample.env1 doc) = "admin") /\
  exists code error message,
    fst (admin_gate Sample.env1 SampleUsers.jwt [] (Some "Bearer tok-ann")
           SampleUsers.world) = Deny code error message /\
    code = 403%nat.
Proof.
  split.
  - pose proof (admin_gate_admits_only_admins Sample.env1 SampleUsers.jwt []
                  (Some "Bearer tok-root") SampleUsers.world) as H.
    cbv zeta in H. destruct H as [_ Hpass].
    destruct (Hpass (Some (User.fromDocument Sample.env1 SampleUsers.root)) eq_refl)
      as (token & decoded & doc & _ & _ & _ & Hin & _ & _ & Hrole & _).
    exists doc. split; assumption.
  - pose proof (admin_gate_admits_only_admins Sample.env1 SampleUsers.jwt []
                  (Some "Bearer tok-ann") SampleUsers.world) as H.
    cbv zeta in H. destruct H as [Hdeny _].
    exists 403%nat, "Access denied",
      "You do not have permission to access this resource".
    split; reflexivity.
Defined.

Lemma optionalAuth_ignores_the_blacklist_witness :
  fst (optionalAuth Sample.env1 SampleUsers.jwt (Some "Bearer tok-ann")
         SampleUsers.world)
  = Pass (Some (User.fromDocument Sample.env1 SampleUsers.ann)) /\
  fst (authenticateToken Sample.env1 SampleUsers.jwt
         (AuthController.logout (Some "Bearer tok-ann") [])
         (Some "Bearer tok-ann") SampleUsers.world)
  <> Pass (Some (User.fromDocument Sample.env1 SampleUsers.ann)).
Proof.
  pose proof (optionalAuth_ignores_the_blacklist Sample.env1 SampleUsers.jwt []
                (Some "Bearer tok-ann") SampleUsers.world
                (Some (User.fromDocument Sample.env1 SampleUsers.ann))
                SampleUsers.world) as [_ H].
  destruct (H eq_refl) as [Hopt Hlocked].
  split; [now rewrite Hopt|exact Hlocked].
Defined.

End AuthWitnesses.

Section AddressWitnesses.

Import Users.

Lemma createAddress_once_witness :
  exists u address w',
    createAddress Sample.env1 "u1" SampleUsers.york SampleUsers.world
    = (Ok (u, address), w') /\
    User.street address = "2 Low Street" /\
    fst (createAddress Sample.env2 "u1" SampleUsers.york w')
    = Throw (Js.Error "Address already exists").
Proof.
  destruct (createAddress Sample.env1 "u1" SampleUsers.york SampleUsers.world)
    as [r w'] eqn:E.
  pose proof (createAddress_once Sample.env1 Sample.env2 "u1" SampleUsers.york
                SampleUsers.york SampleUsers.world r w' eq_refl E) as [_ Hok].
  vm_compute in E. injection E as <- <-.
  eexists _, _, _. split; [reflexivity|].
  destruct (Hok _ _ eq_refl) as (_ & _ & _ & _ & _ & _ & _ & _ & _ & _ & Hagain).
  split.
  - reflexivity.
  - apply Hagain. intros e fs. discriminate.
Defined.

Lemma updateAddress_stores_what_is_given_witness :
  exists u address w',
    updateAddress Sample.env1 "u2" SampleUsers.no_street SampleUsers.world
    = (Ok (u, address), w') /\
    User.street address = "" /\ User.city address = "York".
Proof.
  destruct (updateAddress Sample.env1 "u2" SampleUsers.no_street SampleUsers.world)
    as [r w'] eqn:E.
  pose proof (updateAddress_stores_what_is_given Sample.env1 "u2"
                SampleUsers.no_street SampleUsers.world r w' eq_refl E) as [_ Hok].
  vm_compute in E. injection E as <- <-.
  eexists _, _, _. split; [reflexivity|].
  destruct (Hok _ _ eq_refl) as (doc & rest & Hf & Hs & Hc & _).
  split; [exact Hs|exact Hc].
Defined.

End AddressWitnesses.
